(** * pytorch_compute_capabilities_pip: a shallow embedding and its properties

    The development follows [pytorch_compute_capabilities_pip.py] function by
    function.  A Python [str] is a Rocq [string]; its characters are the code
    points U+0000..U+00FF, and the character classes used by [lower], [strip],
    [int] and the regular expression are the ones Python has on that range.
    Effects are explicit: every function that prints or raises lives in the
    monad [M], whose values carry the lines printed so far and either an
    exception or a result.  What the network, the file system and the
    cuobjdump subprocess answer is an input of the functions that ask. *)

From Stdlib Require Import Bool Arith NArith ZArith Lia List Ascii String.
From Stdlib Require Import Sorting.Sorted Sorting.Permutation.
Import ListNotations.

Local Open Scope string_scope.
Local Open Scope list_scope.

(** ** Python string primitives *)

Module PyStr.

(** [s.split(sep)] for a one-character separator (every separator in the
    source is one character: "-", "." and the newline). *)
Fixpoint split (sep : ascii) (s : string) : list string :=
  match s with
  | EmptyString => [EmptyString]
  | String c r =>
      if Ascii.eqb c sep then EmptyString :: split sep r
      else match split sep r with
           | h :: t => String c h :: t
           | [] => [String c EmptyString]
           end
  end.

(** [s.startswith(p)] *)
Fixpoint startswith (p s : string) : bool :=
  match p, s with
  | EmptyString, _ => true
  | String a p', String b s' => Ascii.eqb a b && startswith p' s'
  | String _ _, EmptyString => false
  end.

(** [needle in hay] on two strings *)
Fixpoint contains (needle hay : string) : bool :=
  startswith needle hay
  || match hay with
     | EmptyString => false
     | String _ r => contains needle r
     end.

(** [s[n:]] *)
Fixpoint drop (n : nat) (s : string) : string :=
  match n, s with
  | O, _ => s
  | S _, EmptyString => EmptyString
  | S m, String _ r => drop m r
  end.

(** [s[:n]] *)
Fixpoint take (n : nat) (s : string) : string :=
  match n, s with
  | O, _ => EmptyString
  | S _, EmptyString => EmptyString
  | S m, String c r => String c (take m r)
  end.

Definition in_range (lo hi : N) (c : ascii) : bool :=
  let n := N_of_ascii c in (lo <=? n)%N && (n <=? hi)%N.

(** [c.lower()]: the upper-case letters below U+0100 are A-Z and
    U+00C0..U+00DE without the multiplication sign U+00D7. *)
Definition lower_char (c : ascii) : ascii :=
  if in_range 65 90 c
     || (in_range 192 222 c && negb (N_of_ascii c =? 215)%N)
  then ascii_of_N (N_of_ascii c + 32)
  else c.

Fixpoint lower (s : string) : string :=
  match s with
  | EmptyString => EmptyString
  | String c r => String (lower_char c) (lower r)
  end.

(** [c.isspace()] below U+0100 *)
Definition is_space (c : ascii) : bool :=
  in_range 9 13 c || in_range 28 32 c
  || (N_of_ascii c =? 133)%N || (N_of_ascii c =? 160)%N.

Fixpoint lstrip (s : string) : string :=
  match s with
  | EmptyString => EmptyString
  | String c r => if is_space c then lstrip r else s
  end.

Fixpoint rstrip (s : string) : string :=
  match s with
  | EmptyString => EmptyString
  | String c r =>
      match rstrip r with
      | EmptyString => if is_space c then EmptyString else String c EmptyString
      | r' => String c r'
      end
  end.

(** [s.strip()] *)
Definition strip (s : string) : string := rstrip (lstrip s).

(** [sep.join(parts)] *)
Definition join (sep : string) (parts : list string) : string :=
  String.concat sep parts.

Fixpoint take_while (p : ascii -> bool) (s : string) : string :=
  match s with
  | EmptyString => EmptyString
  | String c r => if p c then String c (take_while p r) else EmptyString
  end.

Fixpoint drop_while (p : ascii -> bool) (s : string) : string :=
  match s with
  | EmptyString => EmptyString
  | String c r => if p c then drop_while p r else s
  end.

Fixpoint forallb (p : ascii -> bool) (s : string) : bool :=
  match s with
  | EmptyString => true
  | String c r => p c && forallb p r
  end.

Definition is_digit (c : ascii) : bool := in_range 48 57 c.
Definition is_lower_az (c : ascii) : bool := in_range 97 122 c.

(** *** [int(s)]

    Whitespace around the number (the characters [int] skips below U+0100 are
    tab..carriage return, space, U+0085 and U+00A0), one optional sign, then
    decimal digits in which single underscores may separate digits.  CPython
    refuses more than 4300 digits by default. *)

Definition is_int_space (c : ascii) : bool :=
  in_range 9 13 c || (N_of_ascii c =? 32)%N
  || (N_of_ascii c =? 133)%N || (N_of_ascii c =? 160)%N.

Definition int_max_str_digits : nat := 4300.

Definition is_underscore (c : ascii) : bool := Ascii.eqb c "_"%char.

(** The digits of a numeral body, or [None] when an underscore is leading,
    trailing or doubled, or a character is neither digit nor underscore.
    [prev] tells whether the previous character was a digit. *)
Fixpoint numeral_digits (prev : bool) (s : string) : option (list Z) :=
  match s with
  | EmptyString => if prev then Some [] else None
  | String c r =>
      if is_digit c then
        option_map (cons (Z.of_N (N_of_ascii c) - 48)%Z) (numeral_digits true r)
      else if is_underscore c && prev then
        match r with
        | EmptyString => None
        | _ => numeral_digits false r
        end
      else None
  end.

Definition digits_value (ds : list Z) : Z :=
  fold_left (fun acc d => (10 * acc + d)%Z) ds 0%Z.

Definition int (s : string) : option Z :=
  let s1 := drop_while is_int_space s in
  let '(negative, s2) :=
    match s1 with
    | String "+" r => (false, r)
    | String "-" r => (true, r)
    | _ => (false, s1)
    end in
  let body := take_while (fun c => is_digit c || is_underscore c) s2 in
  let rest := drop_while (fun c => is_digit c || is_underscore c) s2 in
  if forallb is_int_space rest then
    match numeral_digits false body with
    | Some ds =>
        if (List.length ds <=? int_max_str_digits)%nat then
          Some (if negative then (- digits_value ds)%Z else digits_value ds)
        else None
    | None => None
    end
  else None.

(** *** [re.search(r"sm_\d+[a-z]*", s)]

    The pattern has no alternative to backtrack into: at a position it
    matches exactly when "sm_" and one digit follow, and the greedy
    quantifiers then take every digit and every letter a-z that follows.
    [re.search] returns the match at the leftmost such position. *)
Definition re_match_sm (s : string) : option string :=
  if startswith "sm_" s then
    let r := drop 3 s in
    let ds := take_while is_digit r in
    match ds with
    | EmptyString => None
    | _ => Some ("sm_" ++ ds ++ take_while is_lower_az (drop_while is_digit r))%string
    end
  else None.

Fixpoint re_search_sm (s : string) : option string :=
  match re_match_sm s with
  | Some m => Some m
  | None =>
      match s with
      | EmptyString => None
      | String _ r => re_search_sm r
      end
  end.

End PyStr.

(** ** Sorting as [list.sort] and [sorted] do it

    Python sorts stably and compares with [<] only.  [sort lt] is the stable
    insertion sort: an element moves in front of the elements it is strictly
    smaller than and stays behind the ones it is not. *)

Section Sort.
Context {A : Type} (lt : A -> A -> bool).

Fixpoint insert (x : A) (l : list A) : list A :=
  match l with
  | [] => [x]
  | y :: t => if lt y x then y :: insert x t else x :: l
  end.

Definition sort (l : list A) : list A := fold_right insert [] l.

(** [reverse=True]: CPython reverses the list, sorts it, and reverses the
    result, which keeps equal elements in their original order. *)
Definition sort_reverse (l : list A) : list A := rev (sort (rev l)).
End Sort.

(** [a] may stand before [b] in a list that ascends by [lt] ... *)
Definition not_above {A} (lt : A -> A -> bool) (a b : A) : Prop :=
  lt b a = false.

(** ... and in one that descends. *)
Definition not_below {A} (lt : A -> A -> bool) (a b : A) : Prop :=
  lt a b = false.

(** Python's [<] on lists of integers. *)
Fixpoint list_compare (a b : list Z) : comparison :=
  match a, b with
  | [], [] => Eq
  | [], _ :: _ => Lt
  | _ :: _, [] => Gt
  | x :: a', y :: b' =>
      match (x ?= y)%Z with
      | Eq => list_compare a' b'
      | c => c
      end
  end.

Definition list_ltb (a b : list Z) : bool :=
  match list_compare a b with Lt => true | _ => false end.

(** [<] on a pair of integer lists, as Python compares tuples. *)
Definition pair_ltb (a b : list Z * list Z) : bool :=
  match list_compare (fst a) (fst b) with
  | Lt => true
  | Eq => list_ltb (snd a) (snd b)
  | Gt => false
  end.

(** [set(l)]: the distinct elements.  A set iterates in an order of its own;
    the source only ever sorts it, and the sorted list does not depend on that
    order ([sort_set_order] below). *)
Definition set (l : list string) : list string := nodup string_dec l.

(** [sorted(l)] on strings *)
Definition sorted (l : list string) : list string := sort String.ltb l.

(** ** Exceptions and console output *)

(** The exceptions the program meets (instances of [Exception]). *)
Inductive exn : Type :=
| RequestException (msg : string)
| KeyError (key : string)
| TypeError
| AttributeError
| ValueError
| IndexError
| CalledProcessError (stdout stderr : string)
| OSError (msg : string).

(** One constructor per [print] of the functions embedded below, with the
    values the line interpolates. *)
Inductive printed : Type :=
| PFetchError (e : exn)          (* Error fetching package info: {e} *)
| PParseError (e : exn)          (* Error parsing package info: {e} *)
| PVersionsError (e : exn)       (* Error getting PyTorch versions: {e} *)
| PLibNotFound                   (* Warning: {libtorch_path} not found *)
| PRunning                       (* Running: {command_raw} *)
| POutputLength (n : nat)        (* cuobjdump output length: {n} characters *)
| PFoundArchitectures            (* Found architectures: *)
| PArch (arch : string)
| PNoArchLines                   (* No lines with 'arch' found. ... *)
| PFoundSmLines                  (* Found lines with 'sm_' pattern: *)
| PSmLine (line : string)
| PNoPatterns                    (* No architecture patterns found. ... *)
| PRawLine (i : nat) (line : string)
| PCuobjdumpError (e : exn)      (* Error running cuobjdump command: {e} *)
| PStdout (s : string)
| PStderr (s : string)
| PUnexpected (e : exn)          (* Unexpected error: {e} *)
| PBanner                        (* a row of 60 "=" *)
| PAnalyzing (i n : nat) (filename : string)
| PSuccess (filename : string)   (* Successfully analyzed {filename} *)
| PArchitectures (joined : string)
| PNoCuda                        (* No CUDA architectures found *)
| PAnalyzeError (filename : string) (e : exn).

(** A computation prints lines and then either raises or returns. *)
Definition M (A : Type) : Type := list printed * (exn + A).

Definition ret {A} (x : A) : M A := ([], inr x).
Definition raise {A} (e : exn) : M A := ([], inl e).
Definition print (p : printed) : M unit := ([p], inr tt).

Definition bind {A B} (m : M A) (f : A -> M B) : M B :=
  match snd m with
  | inl e => (fst m, inl e)
  | inr x => let k := f x in (fst m ++ fst k, snd k)
  end.

(** [try: m except ...: handler]; [handler e = None] when no clause matches
    [e], which then propagates. *)
Definition try_except {A} (m : M A) (handler : exn -> option (M A)) : M A :=
  match snd m with
  | inl e =>
      match handler e with
      | Some h => (fst m ++ fst h, snd h)
      | None => m
      end
  | inr _ => m
  end.

(** [with ...: body], once the context manager is entered: its [__exit__]
    runs when [body] is left, by return or by exception, and returns nothing
    true, so an exception of [body] goes on after it; an exception of
    [__exit__] itself takes the place of the outcome of [body]. *)
Definition leaving {E A : Type} (body : list E * (exn + A))
    (exit : list E * (exn + unit)) : list E * (exn + A) :=
  (fst body ++ fst exit,
   match snd exit with
   | inl e => inl e
   | inr _ => snd body
   end).

Notation "x <- m ;; k" := (bind m (fun x => k))
  (at level 61, m at next level, right associativity).
Notation "m ;; k" := (bind m (fun _ => k))
  (at level 61, right associativity).

Fixpoint mapM {A B} (f : A -> M B) (l : list A) : M (list B) :=
  match l with
  | [] => ret []
  | x :: t => y <- f x ;; ys <- mapM f t ;; ret (y :: ys)
  end.

Fixpoint print_each {A} (p : A -> printed) (l : list A) : M unit :=
  match l with
  | [] => ret tt
  | x :: t => print (p x) ;; print_each p t
  end.

(** [l.sort(key=key)] / [sorted(l, key=key)] with a key that may raise: the
    keys of all elements are computed first, in order. *)
Definition sort_by_key {A K} (key : A -> M K) (lt : K -> K -> bool)
    (l : list A) : M (list A) :=
  keys <- mapM key l ;;
  ret (map snd (sort (fun a b => lt (fst a) (fst b)) (combine keys l))).

Definition sort_by_key_reverse {A K} (key : A -> M K) (lt : K -> K -> bool)
    (l : list A) : M (list A) :=
  keys <- mapM key l ;;
  ret (map snd (sort_reverse (fun a b => lt (fst a) (fst b)) (combine keys l))).

(** ** The values [response.json()] returns *)

#[local] Unset Elimination Schemes.
Inductive json : Type :=
| JNone
| JBool (b : bool)
| JInt (n : Z)
| JFloat (mantissa exponent : Z)
| JStr (s : string)
| JList (items : list json)
| JDict (items : list (string * json)).  (* the dict's items, in order *)
#[local] Set Elimination Schemes.

Fixpoint lookup {V} (key : string) (items : list (string * V)) : option V :=
  match items with
  | [] => None
  | (k, v) :: t => if String.eqb k key then Some v else lookup key t
  end.

(** [v[key]] with a string key *)
Definition getitem (v : json) (key : string) : M json :=
  match v with
  | JDict items =>
      match lookup key items with
      | Some x => ret x
      | None => raise (KeyError key)
      end
  | _ => raise TypeError
  end.

Fixpoint chars (s : string) : list string :=
  match s with
  | EmptyString => []
  | String c r => String c EmptyString :: chars r
  end.

(** What [for x in v] iterates over *)
Definition iter (v : json) : M (list json) :=
  match v with
  | JList items => ret items
  | JDict items => ret (map (fun kv => JStr (fst kv)) items)
  | JStr s => ret (map JStr (chars s))
  | _ => raise TypeError
  end.

(** [v == s] for a string [s] *)
Definition eq_str (v : json) (s : string) : bool :=
  match v with
  | JStr t => String.eqb t s
  | _ => false
  end.

(** [needle in v] for a string [needle] *)
Definition json_contains (needle : string) (v : json) : M bool :=
  match v with
  | JStr s => ret (PyStr.contains needle s)
  | JList items => ret (existsb (fun x => eq_str x needle) items)
  | JDict items => ret (existsb (fun kv => String.eqb (fst kv) needle) items)
  | _ => raise TypeError
  end.

(** [list(v.keys())] *)
Definition keys (v : json) : M (list string) :=
  match v with
  | JDict items => ret (map fst items)
  | _ => raise AttributeError
  end.

(** ** The program *)

(** [l[i]] on a list and [s[i]] on a string, for an index [i >= 0] *)
Definition list_index {A} (l : list A) (i : nat) : M A :=
  match nth_error l i with
  | Some x => ret x
  | None => raise IndexError
  end.

Definition str_index (s : string) (i : nat) : M string :=
  match String.get i s with
  | Some c => ret (String c EmptyString)
  | None => raise IndexError
  end.

Definition extract_python_version_from_filename (filename : string)
    : M string :=
  let parts := PyStr.split "-" filename in
  if (3 <=? List.length parts)%nat then
    python_tag <- list_index parts 2 ;;
    if PyStr.startswith "cp" python_tag then
      let version_num := PyStr.drop 2 python_tag in
      if (2 <=? String.length version_num)%nat then
        major <- str_index version_num 0 ;;
        let minor := PyStr.drop 1 version_num in
        ret (major ++ "." ++ minor)%string
      else ret "unknown"
    else ret "unknown"
  else ret "unknown".

Record wheel_info : Type := {
  filename : string;
  url : json;
  size : json;
  python_version : string;
  platform_tag : string
}.

(** The call [extract_python_version_from_filename(filename)] on a value of
    the metadata: [filename.split] exists on strings only. *)
Definition call_extract (filename : json) : M (string * string) :=
  match filename with
  | JStr s => v <- extract_python_version_from_filename s ;; ret (s, v)
  | _ => raise AttributeError
  end.

(** The loop of [get_wheel_download_links] over [package_info["urls"]];
    [wheels] is the list built so far. *)
Fixpoint collect_wheels (files : list json) (wheels : list wheel_info)
    : M (list wheel_info) :=
  match files with
  | [] => ret wheels
  | file_info :: rest =>
      packagetype <- getitem file_info "packagetype" ;;
      if eq_str packagetype "bdist_wheel" then
        name <- getitem file_info "filename" ;;
        found <- json_contains "manylinux_2_28_x86_64" name ;;
        if negb found then collect_wheels rest wheels
        else
          nv <- call_extract name ;;
          u <- getitem file_info "url" ;;
          sz <- getitem file_info "size" ;;
          collect_wheels rest
            (wheels ++ [{| filename := fst nv; url := u; size := sz;
                           python_version := snd nv;
                           platform_tag := "manylinux_2_28_x86_64" |}])
      else collect_wheels rest wheels
  end.

Definition sort_wheels (wheels : list wheel_info) : list wheel_info :=
  sort (fun a b => String.ltb (python_version a) (python_version b)) wheels.

(** The [try] block of [get_wheel_download_links]; [get_pypi_package_info]
    is what the index answers to the request. *)
Definition wheel_links_body (get_pypi_package_info : M json)
    : M (list wheel_info) :=
  package_info <- get_pypi_package_info ;;
  urls <- getitem package_info "urls" ;;
  files <- iter urls ;;
  wheels <- collect_wheels files [] ;;
  ret (sort_wheels wheels).

Definition get_wheel_download_links (get_pypi_package_info : M json)
    : M (list wheel_info) :=
  try_except
    (wheel_links_body get_pypi_package_info)
    (fun e =>
       match e with
       | RequestException _ => Some (print (PFetchError e) ;; ret [])
       | KeyError _ => Some (print (PParseError e) ;; ret [])
       | _ => None
       end).

(** The file system and the subprocess, as [get_cuda_architectures] meets
    them: [libtorch_exists] is [libtorch_path.exists()], [cuobjdump] is
    [subprocess.run(..., check=True).stdout]. *)
Record inspector : Type := {
  libtorch_exists : M bool;
  cuobjdump : M string
}.

Definition newline : ascii := ascii_of_nat 10.

Definition lines_with (marker : string) (stdout : string) : list string :=
  map PyStr.strip
    (filter (fun line => PyStr.contains marker (PyStr.lower line))
       (PyStr.split newline stdout)).

Definition nonempty {A} (l : list A) : bool :=
  match l with [] => false | _ => true end.

Fixpoint enumerate {A} (i : nat) (l : list A) : list (nat * A) :=
  match l with
  | [] => []
  | x :: t => (i, x) :: enumerate (S i) t
  end.

Definition get_cuda_architectures (w : inspector) : M (list string) :=
  found <- libtorch_exists w ;;
  if negb found then print PLibNotFound ;; ret []
  else
    try_except
      (print PRunning ;;
       stdout <- cuobjdump w ;;
       print (POutputLength (String.length stdout)) ;;
       let arch_lines := lines_with "arch" stdout in
       if nonempty arch_lines then
         let unique_archs := sorted (set arch_lines) in
         print PFoundArchitectures ;;
         print_each PArch unique_archs ;;
         ret unique_archs
       else
         print PNoArchLines ;;
         let sm_lines := lines_with "sm_" stdout in
         if nonempty sm_lines then
           print PFoundSmLines ;;
           print_each PSmLine (firstn 10 sm_lines) ;;
           ret sm_lines
         else
           print PNoPatterns ;;
           let lines := PyStr.split newline stdout in
           print_each (fun il => PRawLine (fst il + 1) (snd il))
             (enumerate 0 (firstn 20 lines)) ;;
           ret [])
      (fun e =>
         match e with
         | CalledProcessError out err =>
             Some (print (PCuobjdumpError e) ;; print (PStdout out) ;;
                   print (PStderr err) ;; ret [])
         | _ => Some (print (PUnexpected e) ;; ret [])
         end).

Record result : Type := {
  result_wheel_info : wheel_info;
  cuda_architectures : list string;
  package_version : string
}.

(** What one wheel's download, unpacking and inspection meet;
    [make_temp_dir] is [tempfile.TemporaryDirectory()] with its [__enter__],
    [remove_temp_dir] the [__exit__] that deletes the directory. *)
Record wheel_world : Type := {
  make_temp_dir : M unit;
  remove_temp_dir : M unit;
  download_wheel : M unit;
  mkdir : M unit;
  extract_wheel : M unit;
  inspect : inspector
}.

(** The loop that cleans the inspector's lines down to sm_XX tokens *)
Fixpoint clean (archs : list string) : list string :=
  match archs with
  | [] => []
  | arch :: rest =>
      if PyStr.contains "sm_" arch then
        match PyStr.re_search_sm arch with
        | Some m => m :: clean rest
        | None => clean rest
        end
      else clean rest
  end.

(** One turn of the loop of [analyze_all_wheels]: the result appended for
    [wheel].  The temporary directory is made before the [try] block is
    entered and deleted after it is left, both outside it: an exception of
    either leaves the loop and the function.  Nothing that follows
    [results.append] in the [try] block raises in this model, so a turn that
    ends appends once. *)
Definition analyze_wheel (w : wheel_world) (package_version : string)
    (i n : nat) (wheel : wheel_info) : M result :=
  print PBanner ;;
  print (PAnalyzing i n (filename wheel)) ;;
  print PBanner ;;
  make_temp_dir w ;;
  leaving
    (try_except
       (download_wheel w ;;
        mkdir w ;;
        extract_wheel w ;;
        archs <- get_cuda_architectures (inspect w) ;;
        let clean_archs := clean archs in
        let r := {| result_wheel_info := wheel;
                    cuda_architectures := sorted (set clean_archs);
                    package_version := package_version |} in
        print (PSuccess (filename wheel)) ;;
        (if nonempty clean_archs
         then print (PArchitectures
                       (PyStr.join ", " (sorted (set clean_archs))))
         else print PNoCuda) ;;
        ret r)
       (fun e =>
          Some (print (PAnalyzeError (filename wheel) e) ;;
                ret {| result_wheel_info := wheel;
                       cuda_architectures := [];
                       package_version := package_version |})))
    (remove_temp_dir w).

Fixpoint analyze_loop (world : nat -> wheel_world) (package_version : string)
    (n i : nat) (wheels : list wheel_info) (results : list result)
    : M (list result) :=
  match wheels with
  | [] => ret results
  | wheel :: rest =>
      r <- analyze_wheel (world i) package_version i n wheel ;;
      analyze_loop world package_version n (S i) rest (results ++ [r])
  end.

(** [world i] is what the [i]-th wheel (counted from 1) meets. *)
Definition analyze_all_wheels (world : nat -> wheel_world)
    (wheels : list wheel_info) (package_version : string) : M (list result) :=
  analyze_loop world package_version (List.length wheels) 1 wheels [].

Definition table_row (r : result) : string :=
  let package_name := filename (result_wheel_info r) in
  let arch_str :=
    if nonempty (cuda_architectures r)
    then PyStr.join ", " (cuda_architectures r)
    else EmptyString in
  ("| " ++ package_name ++ " | " ++ arch_str ++ " |")%string.

Definition table_header : list string :=
  ["| package | architectures |"; "|---------|---------------|"].

Definition generate_pip_table (package version : string)
    (results : list result) : string :=
  PyStr.join (String newline EmptyString)
    (table_header ++ map table_row results).

Definition markers : list string := ["rc"; "dev"; "a"; "b"].

Definition is_release_2x (version : string) : bool :=
  PyStr.startswith "2." version
  && negb (existsb (fun marker => PyStr.contains marker version) markers).

Definition to_int (x : string) : M Z :=
  match PyStr.int x with
  | Some n => ret n
  | None => raise ValueError
  end.

Definition version_key (v : string) : M (list Z) :=
  mapM to_int (PyStr.split "." v).

Definition get_all_pytorch_2x_versions (get_pypi_package_info : M json)
    : M (list string) :=
  try_except
    (package_info <- get_pypi_package_info ;;
     releases <- getitem package_info "releases" ;;
     all_versions <- keys releases ;;
     let pytorch_2x_versions := filter is_release_2x all_versions in
     sort_by_key_reverse version_key list_ltb pytorch_2x_versions)
    (fun e => Some (print (PVersionsError e) ;; ret [])).

Definition sort_key (r : result) : M (list Z * list Z) :=
  version_parts <- version_key (package_version r) ;;
  python_parts <- version_key (python_version (result_wheel_info r)) ;;
  ret (map Z.opp version_parts, python_parts).

Definition generate_comprehensive_pip_table (all_results : list result)
    : M string :=
  sorted_results <- sort_by_key sort_key pair_ltb all_results ;;
  ret (PyStr.join (String newline EmptyString)
         (table_header ++ map table_row sorted_results)).

(** ** Notions the properties are stated with *)

Definition output {A} (m : M A) : list printed := fst m.
Definition outcome {A} (m : M A) : exn + A := snd m.

(** The interpreter version derived from a filename, as a plain string *)
Definition interpreter_version (filename : string) : string :=
  match outcome (extract_python_version_from_filename filename) with
  | inr v => v
  | inl _ => "unknown"
  end.

(** A file-metadata object of the index: a dict with the fields
    [packagetype], [filename] (a string), [url] and [size]. *)
Definition field (key : string) (f : json) : json :=
  match f with
  | JDict items =>
      match lookup key items with
      | Some v => v
      | None => JNone
      end
  | _ => JNone
  end.

Definition is_file_info (f : json) : bool :=
  match f with
  | JDict items =>
      match lookup "packagetype" items, lookup "filename" items,
            lookup "url" items, lookup "size" items with
      | Some _, Some (JStr _), Some _, Some _ => true
      | _, _, _, _ => false
      end
  | _ => false
  end.

Definition file_name (f : json) : string :=
  match field "filename" f with
  | JStr s => s
  | _ => EmptyString
  end.

Definition is_target_wheel (f : json) : bool :=
  eq_str (field "packagetype" f) "bdist_wheel"
  && PyStr.contains "manylinux_2_28_x86_64" (file_name f).

Definition wheel_of (f : json) : wheel_info :=
  {| filename := file_name f;
     url := field "url" f;
     size := field "size" f;
     python_version := interpreter_version (file_name f);
     platform_tag := "manylinux_2_28_x86_64" |}.

(** The dotted integer components of a version string *)
Definition is_int (x : string) : bool :=
  match PyStr.int x with Some _ => true | None => false end.

Definition numeric (v : string) : bool :=
  List.forallb is_int (PyStr.split "." v).

Definition components (v : string) : list Z :=
  map (fun x => match PyStr.int x with Some n => n | None => 0%Z end)
    (PyStr.split "." v).

(** [a] is not below [b] in the numeric order of versions *)
Definition version_ge (a b : string) : Prop :=
  list_ltb (components a) (components b) = false.

(** A well-formed architecture token: "sm_", digits, then letters a-z. *)
Definition arch_token (s : string) : Prop :=
  exists ds ls : string,
    s = ("sm_" ++ ds ++ ls)%string
    /\ ds <> EmptyString
    /\ PyStr.forallb PyStr.is_digit ds = true
    /\ PyStr.forallb PyStr.is_lower_az ls = true.

(** What the try block of one wheel does before its result is built *)
Definition process_wheel (w : wheel_world) : M (list string) :=
  download_wheel w ;;
  mkdir w ;;
  extract_wheel w ;;
  get_cuda_architectures (inspect w).

(** The temporary directory of a wheel is made and deleted without error *)
Definition temp_dir_ok (w : wheel_world) : Prop :=
  outcome (make_temp_dir w) = inr tt /\ outcome (remove_temp_dir w) = inr tt.

(** ... and so are those of the wheels 1 to [n] *)
Definition temp_dirs_ok (world : nat -> wheel_world) (n : nat) : Prop :=
  forall i, 1 <= i <= n -> temp_dir_ok (world i).

(** The (filename, architectures) pair a table row stands for *)
Definition row_pair (r : result) : string * list string :=
  (filename (result_wheel_info r), cuda_architectures r).

(** *** Reading the table back

    Modelled from the spec: the repository only writes the table; the reader
    of the round-trip property is missing.  It is modelled on the format the
    spec gives: lines separated by newlines, a header and a separator line,
    then one row per artifact, [| package | architectures |], whose cells are
    delimited by "|" and padded with blanks, the architectures cell being the
    identifiers joined with ", " or empty. *)

Definition parse_architectures (cell : string) : list string :=
  match cell with
  | EmptyString => []
  | _ => map PyStr.strip (PyStr.split "," cell)
  end.

Definition parse_row (row : string) : option (string * list string) :=
  match PyStr.split "|" row with
  | [EmptyString; name; archs; EmptyString] =>
      Some (PyStr.strip name, parse_architectures (PyStr.strip archs))
  | _ => None
  end.

Fixpoint parse_rows (rows : list string) : option (list (string * list string)) :=
  match rows with
  | [] => Some []
  | row :: rest =>
      match parse_row row, parse_rows rest with
      | Some p, Some ps => Some (p :: ps)
      | _, _ => None
      end
  end.

Definition parse_table (text : string) : option (list (string * list string)) :=
  match PyStr.split newline text with
  | _header :: _separator :: rows => parse_rows rows
  | _ => None
  end.

(** Cells that survive the format: no "|", no newline, no blank at either
    end; an identifier moreover is not empty and has no comma. *)
Definition no_char (c : ascii) (s : string) : bool :=
  PyStr.forallb (fun x => negb (Ascii.eqb x c)) s.

Definition plain_name (s : string) : bool :=
  no_char "|" s && no_char newline s && String.eqb (PyStr.strip s) s.

Definition plain_token (t : string) : bool :=
  plain_name t && no_char "," t && negb (String.eqb t EmptyString).

Definition readable (r : result) : bool :=
  plain_name (filename (result_wheel_info r))
  && List.forallb plain_token (cuda_architectures r).

Definition sortable (r : result) : bool :=
  numeric (package_version r)
  && numeric (python_version (result_wheel_info r)).


(** ** Inputs the examples run on *)

Definition example_releases : list (string * json) :=
  map (fun v => (v, JList [])) ["2.0.0"; "2.1.0rc1"; "2.1.0"; "1.13.0"].

Definition example_file (packagetype name : string) : json :=
  JDict [("filename", JStr name); ("packagetype", JStr packagetype);
         ("size", JInt 887000000); ("url", JStr ("https://files.example/" ++ name))].

Definition example_urls : list json :=
  [example_file "bdist_wheel" "torch-2.8.0-cp313-cp313-manylinux_2_28_x86_64.whl";
   example_file "bdist_wheel" "torch-2.8.0-cp310-cp310-manylinux_2_28_x86_64.whl";
   example_file "bdist_wheel" "torch-2.8.0-cp312-none-macosx_11_0_arm64.whl";
   example_file "sdist" "torch-2.8.0-manylinux_2_28_x86_64.tar.gz";
   example_file "bdist_wheel" "torch-2.8.0-cp39-cp39-manylinux_2_28_x86_64.whl"].

Definition example_inspector (stdout : string) : inspector :=
  {| libtorch_exists := ret true; cuobjdump := ret stdout |}.

(** Three lines of cuobjdump output, one architecture twice *)
Definition three_arch_lines : string :=
  PyStr.join (String newline EmptyString)
    ["arch = sm_90"; "arch = sm_80"; "arch = sm_90"].

(** A wheel whose temporary directory is made and deleted, whose archive is
    unpacked, and whose download and inspection go as given *)
Definition example_wheel_world (download : M unit) (stdout : string)
    : wheel_world :=
  {| make_temp_dir := ret tt;
     remove_temp_dir := ret tt;
     download_wheel := download;
     mkdir := ret tt;
     extract_wheel := ret tt;
     inspect := example_inspector stdout |}.

(** A wheel for which no temporary directory can be made *)
Definition full_disk : wheel_world :=
  {| make_temp_dir := raise (OSError "[Errno 28] No space left on device");
     remove_temp_dir := ret tt;
     download_wheel := ret tt;
     mkdir := ret tt;
     extract_wheel := ret tt;
     inspect := example_inspector "arch = sm_80" |}.

(** A wheel whose temporary directory cannot be deleted *)
Definition busy_temp_dir : wheel_world :=
  {| make_temp_dir := ret tt;
     remove_temp_dir := raise (OSError "[Errno 16] Device or resource busy");
     download_wheel := ret tt;
     mkdir := ret tt;
     extract_wheel := ret tt;
     inspect := example_inspector "arch = sm_80" |}.

(** Eleven lines "sm_80", one per line *)
Definition eleven_sm_lines : string :=
  PyStr.join (String newline EmptyString) (repeat "sm_80" 11).


(** The result [analyze_all_wheels] records for a wheel that meets [w] *)
Definition wheel_result (w : wheel_world) (version : string)
    (wheel : wheel_info) : result :=
  {| result_wheel_info := wheel;
     cuda_architectures :=
       match outcome (process_wheel w) with
       | inr archs => sorted (set (clean archs))
       | inl _ => []
       end;
     package_version := version |}.

Definition example_wheel (name version : string) : wheel_info :=
  {| filename := name;
     url := JStr ("https://files.example/" ++ name);
     size := JInt 887000000;
     python_version := version;
     platform_tag := "manylinux_2_28_x86_64" |}.

(** A wheel that is not built for one CPython version *)
Definition untagged_wheel_name : string :=
  "torch-2.8.0-py3-none-manylinux_2_28_x86_64.whl".

Definition untagged_result : result :=
  {| result_wheel_info := example_wheel untagged_wheel_name "unknown";
     cuda_architectures := ["sm_80"; "sm_90"];
     package_version := "2.8.0" |}.

Definition example_result (name python version : string)
    (archs : list string) : result :=
  {| result_wheel_info := example_wheel name python;
     cuda_architectures := archs;
     package_version := version |}.

Definition example_results : list result :=
  [example_result "torch-2.7.1-cp313-cp313-manylinux_2_28_x86_64.whl"
     "3.13" "2.7.1" ["sm_75"; "sm_80"; "sm_90a"];
   example_result "torch-2.8.0-cp310-cp310-manylinux_2_28_x86_64.whl"
     "3.10" "2.8.0" [];
   example_result "torch-2.8.0-cp39-cp39-manylinux_2_28_x86_64.whl"
     "3.9" "2.8.0" ["sm_100"]].

(** A filename that spells the end of one row and the start of the next *)
Definition two_row_name : string :=
  ("a.whl |  |" ++ String newline "| b.whl")%string.

(** The architectures cell of a row *)
Definition arch_cell (archs : list string) : string :=
  if nonempty archs then PyStr.join ", " archs else EmptyString.


(** ** Further notions *)

(** What every wheel record built by [get_wheel_download_links] satisfies *)
Definition target_wheel (w : wheel_info) : Prop :=
  PyStr.contains "manylinux_2_28_x86_64" (filename w) = true
  /\ platform_tag w = "manylinux_2_28_x86_64"
  /\ python_version w = interpreter_version (filename w).

(** cuobjdump output with architecture lines and other lines *)
Definition mixed_output : string :=
  PyStr.join (String newline EmptyString)
    ["Fatbin elf code:"; "  Arch = sm_90"; "code for sm_75"; "ARCH = sm_80  ";
     "  Arch = sm_90"; ""].

(** The characters of an architecture token *)
Definition token_char (c : ascii) : bool :=
  PyStr.is_digit c || PyStr.is_lower_az c || Ascii.eqb c "_".

(** A wheel whose download and unpacking succeed and whose cuobjdump run
    prints [stdout] *)
Definition example_world (stdout : string) : wheel_world :=
  {| make_temp_dir := ret tt; remove_temp_dir := ret tt;
     download_wheel := ret tt; mkdir := ret tt; extract_wheel := ret tt;
     inspect := example_inspector stdout |}.

(** Making the temporary directory of a wheel raises [e], or deleting it
    does *)
Definition temp_dir_fails (w : wheel_world) (e : exn) : Prop :=
  outcome (make_temp_dir w) = inl e
  \/ (outcome (make_temp_dir w) = inr tt
      /\ outcome (remove_temp_dir w) = inl e).

(** A filename whose third dash-separated part is "cp" and at least two
    decimal digits (within the digit limit of [int]) *)
Definition cpython_tagged (name : string) : Prop :=
  exists p0 p1 M NN tl,
    PyStr.split "-" name = p0 :: p1 :: ("cp" ++ String M NN)%string :: tl
    /\ PyStr.is_digit M = true
    /\ NN <> EmptyString
    /\ PyStr.forallb PyStr.is_digit NN = true
    /\ (String.length NN <= PyStr.int_max_str_digits)%nat.

(** In the table, [a] may stand before [b]: its version is greater, or the
    versions have the same components and its interpreter version is not
    greater. *)
Definition row_before (a b : result) : Prop :=
  list_compare (components (package_version b)) (components (package_version a)) = Lt
  \/ (components (package_version a) = components (package_version b)
      /\ list_compare (components (python_version (result_wheel_info a)))
           (components (python_version (result_wheel_info b))) <> Gt).

(** The key [sort_key] computes for a sortable result *)
Definition key_of (r : result) : list Z * list Z :=
  (map Z.opp (components (package_version r)),
   components (python_version (result_wheel_info r))).

(** ** The rest of the program

    [analyze_first_wheel], [save_table_to_file] and [main] print lines of
    their own, write the table file and ask the operator.  [console] adds
    these to the lines of the functions above; [Q] is the monad [M] over
    [console]. *)

Inductive console : Type :=
| Printed (p : printed)             (* a line of the functions above *)
| Requested (url : string)          (* requests.get(url) *)
| Writing (filename content : string)
                                    (* open(filename, "w") and f.write(content) *)
| PNoWheels                         (* No wheels to analyze *)
| PAnalyzingFirst (filename : string)
| PTableSaved (filename : string)   (* Table saved to {filename} *)
| PFetchingVersions                 (* Fetching all PyTorch 2.x versions ... *)
| PNoVersions                       (* No PyTorch 2.x versions found! *)
| PFoundVersions (n : nat)
| PVersion (i : nat) (version : string)
| PBlank
| PCounting                         (* Counting total wheels ... *)
| PWheelCount (version : string) (count : nat)
| PTotalWheels (total : nat)
| PNoWheelsFound                    (* No wheels found to process! *)
| PEstimate (total : nat)           (* Estimated download size: ... *)
| PSignificant                      (* This will take significant time ... *)
| PPrompt                           (* Do you want to proceed? (y/N): *)
| PAborted                          (* Aborted. *)
| PAbortedOnInterrupt               (* a newline and Aborted. *)
| PSkipping (version : string)
| PBanner80                         (* a row of 80 "=" *)
| PProcessing (idx n : nat) (package version : string) (count : nat)
| PSummaryFor (version : string)
| PSummaryLine (python_ver : string) (arch_count : nat) (archs : string)
| PGenerating (n : nat)
| PTotalProcessed (total : nat)
| PFinalSummary
| PTotalVersions (n : nat)
| PTotalAnalyzed (n : nat)
| PFinalCount (version : string) (count : nat)
| PNoResults.                       (* No results to save! *)

Definition Q (A : Type) : Type := list console * (exn + A).

Definition qret {A} (x : A) : Q A := ([], inr x).
Definition qraise {A} (e : exn) : Q A := ([], inl e).
Definition say (c : console) : Q unit := ([c], inr tt).

Definition qbind {A B} (m : Q A) (f : A -> Q B) : Q B :=
  match snd m with
  | inl e => (fst m, inl e)
  | inr x => let k := f x in (fst m ++ fst k, snd k)
  end.

(** A computation of the functions above, run in the larger console *)
Definition lift {A} (m : M A) : Q A := (map Printed (fst m), snd m).

Declare Scope console_scope.
Delimit Scope console_scope with console.
Notation "x <- m ;; k" := (qbind m (fun x => k))
  (at level 61, m at next level, right associativity) : console_scope.
Notation "m ;; k" := (qbind m (fun _ => k))
  (at level 61, right associativity) : console_scope.

Fixpoint say_each {A} (c : A -> console) (l : list A) : Q unit :=
  match l with
  | [] => qret tt
  | x :: t => (say (c x) ;; say_each c t)%console
  end.

(** [get_pypi_package_info]: [requests_get url] is what the request, the
    status check and the JSON decoding give for [url].  [if version:] is
    false for [None] and for the empty string. *)
Definition package_info_url (package_name : string) (version : option string)
    : string :=
  match version with
  | Some (String c v) =>
      ("https://pypi.org/pypi/" ++ package_name ++ "/" ++ String c v ++ "/json")%string
  | _ => ("https://pypi.org/pypi/" ++ package_name ++ "/json")%string
  end.

Definition get_pypi_package_info (requests_get : string -> M json)
    (package_name : string) (version : option string) : M json :=
  requests_get (package_info_url package_name version).

(** The result of [analyze_first_wheel]: it has no "package_version". *)
Record first_result : Type := {
  first_wheel_info : wheel_info;
  first_cuda_architectures : list string
}.

(** The whole analysis is the body of the [with] block of the temporary
    directory, which is deleted when the body returns or raises. *)
Definition analyze_first_wheel (w : wheel_world) (wheels : list wheel_info)
    : Q (option first_result) :=
  match wheels with
  | [] => (say PNoWheels ;; qret None)%console
  | first_wheel :: _ =>
      (say (PAnalyzingFirst (filename first_wheel)) ;;
       lift (make_temp_dir w) ;;
       leaving
         (lift (download_wheel w) ;;
          lift (mkdir w) ;;
          lift (extract_wheel w) ;;
          archs <- lift (get_cuda_architectures (inspect w)) ;;
          qret (Some {| first_wheel_info := first_wheel;
                        first_cuda_architectures := archs |}))
         (lift (remove_temp_dir w)))%console
  end.

(** [save_table_to_file]; [file_system] is what opening and writing the
    file meets. *)
Definition save_table_to_file (file_system : M unit)
    (table_content filename : string) : Q unit :=
  (say (Writing filename table_content) ;;
   lift file_system ;;
   say (PTableSaved filename))%console.

(** *** [main] *)

(** What [input] gives at the prompt *)
Inductive prompt_answer : Type :=
| Line (s : string)        (* the line the operator typed *)
| Interrupted              (* KeyboardInterrupt *)
| InputRaised (e : exn).   (* any other exception of [input] *)

(** What a run of [main] meets: the index at each request (the listing, the
    request for version [i] of the counting pass, counted from 0, and the one
    for version number [idx] of the processing pass, counted from 1), each
    wheel of each version, the operator, and the table file. *)
Record main_world : Type := {
  versions_response : string -> M json;
  count_response : nat -> string -> M json;
  process_response : nat -> string -> M json;
  wheel_worlds : nat -> nat -> wheel_world;
  answer : prompt_answer;
  table_file : M unit
}.

(** The calls of [main] with the package name and version, which request the
    metadata first *)
Definition call_get_all_pytorch_2x_versions (requests_get : string -> M json)
    (package : string) : Q (list string) :=
  (say (Requested (package_info_url package None)) ;;
   lift (get_all_pytorch_2x_versions
           (get_pypi_package_info requests_get package None)))%console.

Definition call_get_wheel_download_links (requests_get : string -> M json)
    (package version : string) : Q (list wheel_info) :=
  (say (Requested (package_info_url package (Some version))) ;;
   lift (get_wheel_download_links
           (get_pypi_package_info requests_get package (Some version))))%console.

(** [d[k] = v] on a dict kept as the list of its items *)
Fixpoint dict_set (k : string) (v : nat) (d : list (string * nat))
    : list (string * nat) :=
  match d with
  | [] => [(k, v)]
  | (k', v') :: t =>
      if String.eqb k' k then (k', v) :: t else (k', v') :: dict_set k v t
  end.

(** The counting loop; [total] and [counts] are [total_wheels_estimate] and
    [version_wheel_counts] so far. *)
Fixpoint count_wheels (responses : nat -> string -> M json) (package : string)
    (i : nat) (versions : list string) (total : nat)
    (counts : list (string * nat)) : Q (nat * list (string * nat)) :=
  match versions with
  | [] => qret (total, counts)
  | version :: rest =>
      (wheels <- call_get_wheel_download_links (responses i) package version ;;
       let wheel_count := List.length wheels in
       say (PWheelCount version wheel_count) ;;
       count_wheels responses package (S i) rest (total + wheel_count)
         (dict_set version wheel_count counts))%console
  end.

(** The prompt: [true] when the run goes on *)
Definition confirm (a : prompt_answer) : Q bool :=
  (say PPrompt ;;
   match a with
   | Line s =>
       let confirm := PyStr.lower (PyStr.strip s) in
       if String.eqb confirm "y" || String.eqb confirm "yes" then qret true
       else (say PAborted ;; qret false)
   | Interrupted => (say PAbortedOnInterrupt ;; qret false)
   | InputRaised e => qraise e
   end)%console.

Definition summary_line (r : result) : console :=
  PSummaryLine (python_version (result_wheel_info r))
    (List.length (cuda_architectures r))
    (if nonempty (cuda_architectures r)
     then PyStr.join ", " (cuda_architectures r) else "None").

(** The processing loop; [all_results] and [total_wheels] so far. *)
Fixpoint process_versions (w : main_world) (package : string) (n : nat)
    (counts : list (string * nat)) (version_idx : nat) (versions : list string)
    (all_results : list result) (total_wheels : nat)
    : Q (list result * nat) :=
  match versions with
  | [] => qret (all_results, total_wheels)
  | version :: rest =>
      match lookup version counts with
      | None => qraise (KeyError version)
      | Some wheel_count =>
          if (wheel_count =? 0)%nat then
            (say (PSkipping version) ;;
             process_versions w package n counts (S version_idx) rest
               all_results total_wheels)%console
          else
            (say PBanner80 ;;
             say (PProcessing version_idx n package version wheel_count) ;;
             say PBanner80 ;;
             wheels <- call_get_wheel_download_links
                         (process_response w version_idx) package version ;;
             version_results <- lift (analyze_all_wheels
                                        (wheel_worlds w version_idx)
                                        wheels version) ;;
             say (PSummaryFor version) ;;
             say_each summary_line version_results ;;
             process_versions w package n counts (S version_idx) rest
               (all_results ++ version_results)
               (total_wheels + List.length wheels))%console
      end
  end.

(** [version_counts[version] += 1], a missing key counting from 0 *)
Fixpoint dict_incr (k : string) (d : list (string * nat)) : list (string * nat) :=
  match d with
  | [] => [(k, 1)]
  | (k', v') :: t =>
      if String.eqb k' k then (k', S v') :: t else (k', v') :: dict_incr k t
  end.

Definition count_versions (all_results : list result) : list (string * nat) :=
  fold_left (fun d r => dict_incr (package_version r) d) all_results [].

(** [<] on the items of [version_counts], as Python compares tuples *)
Definition item_ltb (a b : string * nat) : bool :=
  String.ltb (fst a) (fst b)
  || (String.eqb (fst a) (fst b) && (snd a <? snd b)%nat).

(** The end of [main]: the table and the final summary *)
Definition report (w : main_world) (versions : list string)
    (all_results : list result) (total_wheels : nat) : Q unit :=
  if nonempty all_results then
    (say PBanner80 ;;
     say (PGenerating (List.length versions)) ;;
     say (PTotalProcessed total_wheels) ;;
     say PBanner80 ;;
     table_content <- lift (generate_comprehensive_pip_table all_results) ;;
     save_table_to_file (table_file w) table_content "table_pip.md" ;;
     let version_counts := count_versions all_results in
     say PFinalSummary ;;
     say (PTotalVersions (List.length version_counts)) ;;
     say (PTotalAnalyzed (List.length all_results)) ;;
     say_each (fun vc => PFinalCount (fst vc) (snd vc))
       (sort_reverse item_ltb version_counts))%console
  else say PNoResults.

Definition main (w : main_world) : Q unit :=
  let package := "torch" in
  (say PFetchingVersions ;;
   versions <- call_get_all_pytorch_2x_versions (versions_response w) package ;;
   if negb (nonempty versions) then say PNoVersions
   else
     say (PFoundVersions (List.length versions)) ;;
     say_each (fun iv => PVersion (fst iv + 1) (snd iv)) (enumerate 0 versions) ;;
     say PBlank ;;
     say PCounting ;;
     counted <- count_wheels (count_response w) package 0 versions 0 [] ;;
     say (PTotalWheels (fst counted)) ;;
     if (fst counted =? 0)%nat then say PNoWheelsFound
     else
       say (PEstimate (fst counted)) ;;
       say PSignificant ;;
       say PBlank ;;
       proceed <- confirm (answer w) ;;
       if negb proceed then qret tt
       else
         processed <- process_versions w package (List.length versions)
                        (snd counted) 1 versions [] 0 ;;
         report w versions (fst processed) (snd processed))%console.

(** The table file is opened for writing *)
Definition writes (c : console) : bool :=
  match c with
  | Writing _ _ => true
  | _ => false
  end.

(** A request goes to the index *)
Definition requests (c : console) : bool :=
  match c with
  | Requested _ => true
  | _ => false
  end.

(** The operator does not consent: anything but "y" or "yes" (after
    [strip] and [lower]), or an interrupt *)
Definition declines (a : prompt_answer) : Prop :=
  a = Interrupted
  \/ exists s, a = Line s
               /\ String.eqb (PyStr.lower (PyStr.strip s)) "y"
                  || String.eqb (PyStr.lower (PyStr.strip s)) "yes" = false.

Definition accepts (a : prompt_answer) : Prop :=
  exists s, a = Line s
            /\ String.eqb (PyStr.lower (PyStr.strip s)) "y"
               || String.eqb (PyStr.lower (PyStr.strip s)) "yes" = true.

(** The index does not answer, and nothing is downloaded *)
Definition silent_world (a : prompt_answer) : main_world :=
  {| versions_response := fun _ => raise (RequestException "unreachable");
     count_response := fun _ _ => raise (RequestException "unreachable");
     process_response := fun _ _ => raise (RequestException "unreachable");
     wheel_worlds := fun _ _ => example_world EmptyString;
     answer := a;
     table_file := ret tt |}.

(** The index lists version 2.8.0 with the wheels of [urls], and every wheel
    is downloaded and inspected with the output [stdout]. *)
Definition example_main_world (urls : list json) (stdout : string)
    (a : prompt_answer) : main_world :=
  {| versions_response := fun _ => ret (JDict [("releases", JDict [("2.8.0", JList [])])]);
     count_response := fun _ _ => ret (JDict [("urls", JList urls)]);
     process_response := fun _ _ => ret (JDict [("urls", JList urls)]);
     wheel_worlds := fun _ _ => example_world stdout;
     answer := a;
     table_file := ret tt |}.

(** A wheel whose download fails *)
Definition failing_download : wheel_world :=
  {| make_temp_dir := ret tt; remove_temp_dir := ret tt;
     download_wheel := raise (RequestException "503");
     mkdir := ret tt; extract_wheel := ret tt;
     inspect := example_inspector EmptyString |}.

(** The index lists one wheel that has no CPython tag. *)
Definition untagged_main_world : main_world :=
  example_main_world [example_file "bdist_wheel" untagged_wheel_name]
    mixed_output (Line " Yes ").

(** The index lists version 2.8.0 and no file for it. *)
Definition empty_main_world : main_world :=
  example_main_world [] EmptyString (Line "y").

(** The versions the processing pass does not skip *)
Definition counted_nonzero (counts : list (string * nat)) (version : string)
    : bool :=
  match lookup version counts with
  | Some c => negb (c =? 0)%nat
  | None => false
  end.
(** * Properties *)

(** ** The monad *)

Lemma bind_ret {A B} (x : A) (f : A -> M B) : bind (ret x) f = f x.
Proof. unfold bind, ret; simpl. destruct (f x); reflexivity. Qed.

Lemma bind_raise {A B} (e : exn) (f : A -> M B) : bind (raise e) f = raise e.
Proof. reflexivity. Qed.

Lemma outcome_bind {A B} (m : M A) (f : A -> M B) :
  outcome (bind m f)
  = match outcome m with
    | inl e => inl e
    | inr x => outcome (f x)
    end.
Proof. unfold outcome, bind. destruct (snd m); reflexivity. Qed.

Lemma output_bind {A B} (m : M A) (f : A -> M B) :
  output (bind m f)
  = match outcome m with
    | inl _ => output m
    | inr x => output m ++ output (f x)
    end.
Proof. unfold output, outcome, bind. destruct (snd m); reflexivity. Qed.

Lemma outcome_try_except {A} (m : M A) h :
  outcome (try_except m h)
  = match outcome m with
    | inl e =>
        match h e with
        | Some k => outcome k
        | None => inl e
        end
    | inr x => inr x
    end.
Proof.
  unfold outcome, try_except.
  destruct (snd m) as [e|x] eqn:E; [destruct (h e)|]; simpl; auto.
Qed.

Lemma output_try_except {A} (m : M A) h :
  output (try_except m h)
  = match outcome m with
    | inl e =>
        match h e with
        | Some k => output m ++ output k
        | None => output m
        end
    | inr _ => output m
    end.
Proof.
  unfold output, outcome, try_except.
  destruct (snd m) as [e|x] eqn:E; [destruct (h e)|]; simpl; auto.
Qed.

Lemma M_eq {A} (m : M A) : m = (output m, outcome m).
Proof. destruct m; reflexivity. Qed.

(** ** [extract_python_version_from_filename] *)

Lemma startswith_app p r : PyStr.startswith p (p ++ r)%string = true.
Proof. induction p; simpl; [reflexivity|]. now rewrite Ascii.eqb_refl. Qed.

Lemma startswith_inv p s :
  PyStr.startswith p s = true -> exists r, s = (p ++ r)%string.
Proof.
  revert s; induction p as [|a p IH]; intros s H; simpl in *.
  - now exists s.
  - destruct s as [|b s]; [discriminate|].
    apply andb_true_iff in H as [Hab Hp]. apply Ascii.eqb_eq in Hab; subst b.
    destruct (IH _ Hp) as [r ->]. now exists r.
Qed.

Lemma extract_few_parts filename :
  (List.length (PyStr.split "-" filename) < 3)%nat ->
  extract_python_version_from_filename filename = ret "unknown".
Proof.
  intros H. unfold extract_python_version_from_filename.
  destruct (Nat.leb_spec 3 (List.length (PyStr.split "-" filename))); [lia|reflexivity].
Qed.

Lemma extract_third_part filename p0 p1 tag tl :
  PyStr.split "-" filename = p0 :: p1 :: tag :: tl ->
  extract_python_version_from_filename filename
  = if PyStr.startswith "cp" tag then
      match PyStr.drop 2 tag with
      | String c1 (String c2 r) => ret (String c1 (String "." (String c2 r)))
      | _ => ret "unknown"
      end
    else ret "unknown".
Proof.
  intros H. unfold extract_python_version_from_filename. rewrite H.
  cbn [List.length Nat.leb list_index nth_error]. rewrite bind_ret.
  destruct (PyStr.startswith "cp" tag); [|reflexivity].
  destruct (PyStr.drop 2 tag) as [|c1 [|c2 r]]; reflexivity.
Qed.

(** C10.  [extract_python_version_from_filename] never raises and prints
    nothing, on any string.  It returns something other than "unknown" exactly
    when the string splits on "-" into at least three parts of which the third
    is "cp" followed by at least two characters; the result is then the first
    of these characters, a dot, and the remaining ones, digits or not. *)
Theorem C10_extract_python_version_total (filename : string) :
  exists v : string,
    extract_python_version_from_filename filename = ret v
    /\ (v <> "unknown" <->
        exists p0 p1 c1 c2 r tl,
          PyStr.split "-" filename
          = p0 :: p1 :: ("cp" ++ String c1 (String c2 r))%string :: tl)
    /\ (forall p0 p1 c1 c2 r tl,
          PyStr.split "-" filename
          = p0 :: p1 :: ("cp" ++ String c1 (String c2 r))%string :: tl ->
          v = (String c1 EmptyString ++ "." ++ String c2 r)%string).
Proof.
  destruct (PyStr.split "-" filename) as [|p0 [|p1 [|tag tl]]] eqn:E.
  1-3: exists "unknown"; split;
       [apply extract_few_parts; rewrite E; simpl; lia|];
       split; [split; [congruence|intros (?&?&?&?&?&?&?); discriminate]
              |intros; discriminate].
  rewrite (extract_third_part _ _ _ _ _ E).
  destruct (PyStr.startswith "cp" tag) eqn:Hcp.
  - apply startswith_inv in Hcp as [rest ->]. simpl PyStr.drop.
    destruct rest as [|c1 [|c2 r]].
    1-2: exists "unknown"; split; [reflexivity|];
         split; [split; [congruence|intros (?&?&?&?&?&?&?); discriminate]
                |intros; discriminate].
    exists (String c1 (String "." (String c2 r))). split; [reflexivity|]. split.
    + split; [|discriminate]. intros _. now exists p0, p1, c1, c2, r, tl.
    + intros ? ? ? ? ? ? H. now inversion H.
  - exists "unknown". split; [reflexivity|]. split.
    + split; [congruence|]. intros (?&?&?&?&?&?&H). inversion H; subst.
      discriminate.
    + intros ? ? ? ? ? ? H. inversion H; subst. discriminate.
Qed.

(** ** Sorting *)

Section SortFacts.
Context {A : Type} (lt : A -> A -> bool).

Local Abbreviation not_above := (not_above lt).
Local Abbreviation not_below := (not_below lt).

Lemma insert_perm x l : Permutation (insert lt x l) (x :: l).
Proof.
  induction l as [|y t IH]; simpl; [reflexivity|].
  destruct (lt y x); [|reflexivity].
  rewrite IH. apply perm_swap.
Qed.

Lemma sort_perm l : Permutation (sort lt l) l.
Proof.
  induction l as [|x t IH]; simpl; [reflexivity|].
  rewrite insert_perm. now constructor.
Qed.

Lemma sort_reverse_perm l : Permutation (sort_reverse lt l) l.
Proof.
  unfold sort_reverse.
  rewrite <- Permutation_rev, sort_perm, <- Permutation_rev. reflexivity.
Qed.

Hypothesis lt_asym : forall a b, lt a b = true -> lt b a = false.
Hypothesis ge_trans :
  forall a b c, lt a b = false -> lt b c = false -> lt a c = false.

Lemma insert_sorted x l :
  StronglySorted not_above l -> StronglySorted not_above (insert lt x l).
Proof.
  induction 1 as [|y t Ht IH Hy]; simpl.
  - repeat constructor.
  - destruct (lt y x) eqn:E.
    + constructor; [exact IH|].
      eapply Permutation_Forall; [symmetry; apply insert_perm|].
      constructor; [apply lt_asym, E|exact Hy].
    + constructor; [now constructor|].
      constructor; [exact E|].
      eapply Forall_impl; [|exact Hy].
      intros z Hz. unfold not_above in *. eapply ge_trans; eauto.
Qed.

Lemma sort_sorted l : StronglySorted not_above (sort lt l).
Proof.
  induction l; simpl; [constructor|now apply insert_sorted].
Qed.

Lemma StronglySorted_snoc (R : A -> A -> Prop) l a :
  StronglySorted R l -> Forall (fun x => R x a) l ->
  StronglySorted R (l ++ [a]).
Proof.
  induction 1 as [|y t Ht IH Hy]; intros Ha; simpl.
  - repeat constructor.
  - inversion Ha; subst. constructor; [now apply IH|].
    apply Forall_app; split; [exact Hy|now constructor].
Qed.

Lemma StronglySorted_rev (R : A -> A -> Prop) l :
  StronglySorted R l -> StronglySorted (fun a b => R b a) (rev l).
Proof.
  induction 1 as [|y t Ht IH Hy]; simpl; [constructor|].
  apply StronglySorted_snoc; [exact IH|].
  apply Forall_rev. exact Hy.
Qed.

Lemma sort_reverse_sorted l : StronglySorted not_below (sort_reverse lt l).
Proof.
  unfold sort_reverse.
  apply (StronglySorted_rev not_above), sort_sorted.
Qed.
End SortFacts.

(** Decorating with the keys, sorting and undecorating is sorting by the
    key. *)
Section Decorate.
Context {A K : Type} (f : A -> K) (ltk : K -> K -> bool).

Local Abbreviation dec := (fun v : A => (f v, v)).
Local Abbreviation lt_dec := (fun a b : K * A => ltk (fst a) (fst b)).
Local Abbreviation lt_key := (fun a b : A => ltk (f a) (f b)).

Lemma insert_decorated x l :
  insert lt_dec (dec x) (map dec l) = map dec (insert lt_key x l).
Proof.
  induction l as [|y t IH]; simpl; [reflexivity|].
  destruct (ltk (f y) (f x)); simpl; [now rewrite IH|reflexivity].
Qed.

Lemma sort_decorated l :
  sort lt_dec (map dec l) = map dec (sort lt_key l).
Proof.
  induction l as [|x t IH]; simpl; [reflexivity|].
  rewrite IH. apply insert_decorated.
Qed.

Lemma combine_keys l : combine (map f l) l = map dec l.
Proof. induction l; simpl; [reflexivity|now f_equal]. Qed.

Lemma undecorate l : map snd (map dec l) = l.
Proof. rewrite map_map. simpl. apply map_id. Qed.

Lemma sort_undecorated l :
  map snd (sort lt_dec (combine (map f l) l)) = sort lt_key l.
Proof. now rewrite combine_keys, sort_decorated, undecorate. Qed.

Lemma sort_reverse_undecorated l :
  map snd (sort_reverse lt_dec (combine (map f l) l)) = sort_reverse lt_key l.
Proof.
  unfold sort_reverse.
  now rewrite combine_keys, <- map_rev, sort_decorated, <- map_rev, undecorate.
Qed.
End Decorate.

Lemma mapM_ret {A B} (f : A -> M B) (g : A -> B) l :
  (forall x, In x l -> f x = ret (g x)) -> mapM f l = ret (map g l).
Proof.
  induction l as [|x t IH]; intros H; simpl; [reflexivity|].
  rewrite (H x) by now left. rewrite bind_ret.
  rewrite IH by (intros; apply H; now right).
  now rewrite !bind_ret.
Qed.

Lemma sort_by_key_ret {A K} (key : A -> M K) (f : A -> K) ltk l :
  (forall x, In x l -> key x = ret (f x)) ->
  sort_by_key key ltk l = ret (sort (fun a b => ltk (f a) (f b)) l).
Proof.
  intros H. unfold sort_by_key. rewrite (mapM_ret _ f) by exact H.
  rewrite bind_ret. now rewrite sort_undecorated.
Qed.

Lemma sort_by_key_reverse_ret {A K} (key : A -> M K) (f : A -> K) ltk l :
  (forall x, In x l -> key x = ret (f x)) ->
  sort_by_key_reverse key ltk l
  = ret (sort_reverse (fun a b => ltk (f a) (f b)) l).
Proof.
  intros H. unfold sort_by_key_reverse. rewrite (mapM_ret _ f) by exact H.
  rewrite bind_ret. now rewrite sort_reverse_undecorated.
Qed.

(** ** The orders the program sorts by *)

Lemma list_compare_antisym a b :
  list_compare b a = CompOpp (list_compare a b).
Proof.
  revert b; induction a as [|x a IH]; intros [|y b]; simpl; try reflexivity.
  rewrite (Z.compare_antisym x y).
  destruct (x ?= y)%Z; simpl; auto.
Qed.

Lemma list_compare_refl a : list_compare a a = Eq.
Proof. induction a; simpl; [reflexivity|]. now rewrite Z.compare_refl. Qed.

Lemma list_compare_ge_trans a b c :
  list_compare a b <> Lt -> list_compare b c <> Lt -> list_compare a c <> Lt.
Proof.
  revert b c; induction a as [|x a IH]; intros [|y b] [|z c]; simpl;
    try congruence.
  destruct (Z.compare_spec x y), (Z.compare_spec y z), (Z.compare_spec x z);
    try congruence; try lia; subst; eauto.
Qed.

Lemma list_ltb_false a b : list_ltb a b = false <-> list_compare a b <> Lt.
Proof. unfold list_ltb. destruct (list_compare a b); split; congruence. Qed.

Lemma list_ltb_asym a b : list_ltb a b = true -> list_ltb b a = false.
Proof.
  unfold list_ltb. rewrite (list_compare_antisym a b).
  destruct (list_compare a b); simpl; congruence.
Qed.

Lemma list_ltb_ge_trans a b c :
  list_ltb a b = false -> list_ltb b c = false -> list_ltb a c = false.
Proof. rewrite !list_ltb_false. apply list_compare_ge_trans. Qed.

Lemma ascii_compare_N a b :
  Ascii.compare a b = (N_of_ascii a ?= N_of_ascii b)%N.
Proof. reflexivity. Qed.

Lemma ascii_compare_eq a b : Ascii.compare a b = Eq <-> a = b.
Proof.
  split; [apply Ascii.compare_eq_iff|intros ->].
  rewrite ascii_compare_N. apply N.compare_refl.
Qed.

Lemma string_compare_ge_trans a b c :
  String.compare a b <> Lt -> String.compare b c <> Lt ->
  String.compare a c <> Lt.
Proof.
  revert b c; induction a as [|x a IH]; intros [|y b] [|z c]; simpl;
    try congruence.
  rewrite !ascii_compare_N.
  destruct (N.compare_spec (N_of_ascii x) (N_of_ascii y)),
           (N.compare_spec (N_of_ascii y) (N_of_ascii z)),
           (N.compare_spec (N_of_ascii x) (N_of_ascii z));
    try congruence; try lia; eauto.
Qed.

Lemma string_ltb_false a b : String.ltb a b = false <-> String.compare a b <> Lt.
Proof. unfold String.ltb. destruct (String.compare a b); split; congruence. Qed.

Lemma string_ltb_asym a b : String.ltb a b = true -> String.ltb b a = false.
Proof.
  unfold String.ltb. rewrite (String.compare_antisym b a).
  destruct (String.compare a b); simpl; congruence.
Qed.

Lemma string_ltb_ge_trans a b c :
  String.ltb a b = false -> String.ltb b c = false -> String.ltb a c = false.
Proof. rewrite !string_ltb_false. apply string_compare_ge_trans. Qed.

Lemma string_ltb_irrefl a : String.ltb a a = false.
Proof.
  destruct (String.ltb a a) eqn:E; [|reflexivity].
  now rewrite (string_ltb_asym _ _ E) in E.
Qed.

(** Two strings neither of which is below the other are equal. *)
Lemma string_ltb_antisym a b :
  String.ltb a b = false -> String.ltb b a = false -> a = b.
Proof.
  unfold String.ltb. rewrite (String.compare_antisym b a).
  destruct (String.compare a b) eqn:E; simpl; try congruence.
  intros _ _. now apply String.compare_eq_iff.
Qed.

Lemma string_leb_ltb a b : String.leb a b = negb (String.ltb b a).
Proof.
  unfold String.leb, String.ltb. rewrite (String.compare_antisym b a).
  destruct (String.compare a b); reflexivity.
Qed.

Lemma extract_ret filename :
  extract_python_version_from_filename filename
  = ret (interpreter_version filename).
Proof.
  assert (H : exists v, extract_python_version_from_filename filename = ret v).
  { destruct (PyStr.split "-" filename) as [|p0 [|p1 [|tag tl]]] eqn:E.
    1-3: exists "unknown"; apply extract_few_parts; rewrite E; simpl; lia.
    rewrite (extract_third_part _ _ _ _ _ E).
    destruct (PyStr.startswith "cp" tag); [|now eexists].
    destruct (PyStr.drop 2 tag) as [|c1 [|c2 r]]; now eexists. }
  destruct H as [v H]. unfold interpreter_version. now rewrite H.
Qed.

Lemma StronglySorted_impl {A} (R R' : A -> A -> Prop) l :
  (forall a b, R a b -> R' a b) -> StronglySorted R l -> StronglySorted R' l.
Proof.
  intros H. induction 1; constructor; auto.
  eapply Forall_impl; [|eassumption]. auto.
Qed.

(** ** [get_all_pytorch_2x_versions] *)

Lemma to_int_ret x :
  is_int x = true ->
  to_int x = ret (match PyStr.int x with Some n => n | None => 0%Z end).
Proof. unfold is_int, to_int. destruct (PyStr.int x); [reflexivity|discriminate]. Qed.

Lemma version_key_ret v : numeric v = true -> version_key v = ret (components v).
Proof.
  unfold numeric, version_key, components. intros H.
  apply mapM_ret. intros x Hx. apply to_int_ret.
  rewrite List.forallb_forall in H. now apply H.
Qed.

Lemma is_release_2x_spec v :
  is_release_2x v = true <->
  PyStr.startswith "2." v = true
  /\ PyStr.contains "rc" v = false /\ PyStr.contains "dev" v = false
  /\ PyStr.contains "a" v = false /\ PyStr.contains "b" v = false.
Proof.
  unfold is_release_2x, markers. cbn [existsb].
  rewrite andb_true_iff, negb_true_iff, !orb_false_iff. tauto.
Qed.

Lemma versions_sorted fetch doc releases :
  outcome fetch = inr (JDict doc) ->
  lookup "releases" doc = Some (JDict releases) ->
  (forall v, In v (map fst releases) -> is_release_2x v = true ->
             numeric v = true) ->
  outcome (get_all_pytorch_2x_versions fetch)
  = inr (sort_reverse (fun a b => list_ltb (components a) (components b))
           (filter is_release_2x (map fst releases))).
Proof.
  intros Hf Hr Hn. unfold get_all_pytorch_2x_versions.
  rewrite outcome_try_except, outcome_bind, Hf.
  cbn [getitem]. rewrite Hr, bind_ret. cbn [keys]. rewrite bind_ret.
  rewrite (sort_by_key_reverse_ret _ components); [reflexivity|].
  intros v Hv. apply filter_In in Hv as [Hin Hrel].
  apply version_key_ret. now apply Hn.
Qed.

(** C1, amended.  When every dotted component of every kept version string is
    an integer for [int], [get_all_pytorch_2x_versions] returns the versions
    of the index that start with "2." and contain none of "rc", "dev", "a",
    "b", each as often as the index lists it, in descending numeric order of
    their components. *)
Theorem C1_versions_filtered_and_sorted
    (fetch : M json) (doc releases : list (string * json)) :
  outcome fetch = inr (JDict doc) ->
  lookup "releases" doc = Some (JDict releases) ->
  (forall v, In v (map fst releases) -> is_release_2x v = true ->
             numeric v = true) ->
  exists versions,
    outcome (get_all_pytorch_2x_versions fetch) = inr versions
    /\ (forall v, In v versions <->
          In v (map fst releases)
          /\ PyStr.startswith "2." v = true
          /\ PyStr.contains "rc" v = false /\ PyStr.contains "dev" v = false
          /\ PyStr.contains "a" v = false /\ PyStr.contains "b" v = false)
    /\ Permutation versions (filter is_release_2x (map fst releases))
    /\ StronglySorted version_ge versions.
Proof.
  intros Hf Hr Hn. eexists. split; [now apply (versions_sorted _ doc releases)|].
  split; [|split].
  - intros v. rewrite <- is_release_2x_spec, <- filter_In.
    split; apply Permutation_in;
      [|symmetry]; apply sort_reverse_perm.
  - apply sort_reverse_perm.
  - apply (sort_reverse_sorted
             (fun a b => list_ltb (components a) (components b))).
    + intros a b. apply list_ltb_asym.
    + intros a b c. apply list_ltb_ge_trans.
Qed.

Lemma C1_versions_filtered_and_sorted_witness :
  exists versions,
    outcome (get_all_pytorch_2x_versions
               (ret (JDict [("releases", JDict example_releases)])))
    = inr versions
    /\ (forall v, In v versions <->
          In v (map fst example_releases)
          /\ PyStr.startswith "2." v = true
          /\ PyStr.contains "rc" v = false /\ PyStr.contains "dev" v = false
          /\ PyStr.contains "a" v = false /\ PyStr.contains "b" v = false)
    /\ Permutation versions (filter is_release_2x (map fst example_releases))
    /\ StronglySorted version_ge versions.
Proof.
  apply (C1_versions_filtered_and_sorted _
           [("releases", JDict example_releases)] example_releases).
  - reflexivity.
  - reflexivity.
  - intros v Hv Hrel. simpl in Hv.
    destruct Hv as [<-|[<-|[<-|[<-|[]]]]]; try reflexivity; discriminate Hrel.
Defined.

Example versions_example :
  get_all_pytorch_2x_versions (ret (JDict [("releases", JDict example_releases)]))
  = ret ["2.1.0"; "2.0.0"].
Proof. vm_compute. reflexivity. Qed.

(** C1 as stated fails: a post-release is a version that starts with "2." and
    has none of the markers, [int] refuses its last component, and the
    function then returns no version at all, not even "2.1.0". *)
Lemma C1_post_release_empties_the_list :
  let releases := map (fun v => (v, JList [])) ["2.0.0.post1"; "2.1.0"] in
  outcome (get_all_pytorch_2x_versions (ret (JDict [("releases", JDict releases)])))
  = inr []
  /\ In "2.1.0" (map fst releases)
  /\ PyStr.startswith "2." "2.1.0" = true
  /\ PyStr.contains "rc" "2.1.0" = false /\ PyStr.contains "dev" "2.1.0" = false
  /\ PyStr.contains "a" "2.1.0" = false /\ PyStr.contains "b" "2.1.0" = false.
Proof. vm_compute. intuition. Qed.

(** ** [get_wheel_download_links] *)

Lemma is_file_info_inv f :
  is_file_info f = true ->
  exists items pt name u sz,
    f = JDict items
    /\ lookup "packagetype" items = Some pt
    /\ lookup "filename" items = Some (JStr name)
    /\ lookup "url" items = Some u
    /\ lookup "size" items = Some sz.
Proof.
  destruct f as [| | | | | |items]; try discriminate. unfold is_file_info.
  destruct (lookup "packagetype" items) as [pt|] eqn:Hpt; [|discriminate].
  destruct (lookup "filename" items) as [[| | | |name| |]|] eqn:Hname;
    try discriminate.
  destruct (lookup "url" items) as [u|] eqn:Hu; [|discriminate].
  destruct (lookup "size" items) as [sz|] eqn:Hsz; [|discriminate].
  intros _. exists items, pt, name, u, sz. repeat split; assumption.
Qed.

Lemma collect_wheels_file_infos files wheels :
  Forall (fun f => is_file_info f = true) files ->
  collect_wheels files wheels
  = ret (wheels ++ map wheel_of (filter is_target_wheel files)).
Proof.
  intros H. revert wheels.
  induction H as [|f files Hf _ IH]; intros wheels; simpl.
  - now rewrite app_nil_r.
  - destruct (is_file_info_inv f Hf) as (items & pt & name & u & sz & -> & Hpt & Hname & Hu & Hsz).
    assert (Ht : is_target_wheel (JDict items)
                 = eq_str pt "bdist_wheel"
                   && PyStr.contains "manylinux_2_28_x86_64" name).
    { unfold is_target_wheel, file_name, field. now rewrite Hpt, Hname. }
    assert (Hw : wheel_of (JDict items)
                 = {| filename := name; url := u; size := sz;
                      python_version := interpreter_version name;
                      platform_tag := "manylinux_2_28_x86_64" |}).
    { unfold wheel_of, file_name, field. now rewrite Hname, Hu, Hsz. }
    cbn [filter]. rewrite Ht. clear Ht.
    cbn [getitem]. rewrite Hpt, Hname, Hu, Hsz, bind_ret.
    destruct (eq_str pt "bdist_wheel"); cbn [andb]; [|apply IH].
    rewrite bind_ret. cbn [json_contains]. rewrite bind_ret.
    destruct (PyStr.contains "manylinux_2_28_x86_64" name); cbn [negb];
      [|apply IH].
    cbn [call_extract]. rewrite extract_ret, !bind_ret. cbn [fst snd].
    rewrite IH. cbn [map]. rewrite Hw. now rewrite <- app_assoc.
Qed.

Lemma wheel_links_file_infos fetch doc files :
  outcome fetch = inr (JDict doc) ->
  lookup "urls" doc = Some (JList files) ->
  Forall (fun f => is_file_info f = true) files ->
  outcome (get_wheel_download_links fetch)
  = inr (sort_wheels (map wheel_of (filter is_target_wheel files))).
Proof.
  intros Hf Hu Hfiles. unfold get_wheel_download_links, wheel_links_body.
  rewrite outcome_try_except, outcome_bind, Hf.
  cbn [getitem]. rewrite Hu, bind_ret. cbn [iter]. rewrite bind_ret.
  rewrite collect_wheels_file_infos by assumption.
  now rewrite bind_ret.
Qed.

(** C2.  On an artifact list of file-metadata objects the function returns
    the wheels made from exactly the entries whose package type is
    "bdist_wheel" and whose filename contains "manylinux_2_28_x86_64", in
    ascending order of their [python_version] strings. *)
Theorem C2_wheel_links_selected_and_sorted
    (fetch : M json) (doc : list (string * json)) (files : list json) :
  outcome fetch = inr (JDict doc) ->
  lookup "urls" doc = Some (JList files) ->
  Forall (fun f => is_file_info f = true) files ->
  exists wheels,
    outcome (get_wheel_download_links fetch) = inr wheels
    /\ Permutation wheels (map wheel_of (filter is_target_wheel files))
    /\ StronglySorted
         (fun a b => String.leb (python_version a) (python_version b) = true)
         wheels.
Proof.
  intros Hf Hu Hfiles. eexists. split; [exact (wheel_links_file_infos _ doc files Hf Hu Hfiles)|].
  split; [apply sort_perm|].
  eapply StronglySorted_impl;
    [|apply (sort_sorted
               (fun a b => String.ltb (python_version a) (python_version b)))].
  - unfold not_above. intros a b H. now rewrite string_leb_ltb, H.
  - intros a b. apply string_ltb_asym.
  - intros a b c. apply string_ltb_ge_trans.
Qed.

Lemma C2_wheel_links_selected_and_sorted_witness :
  exists wheels,
    outcome (get_wheel_download_links (ret (JDict [("urls", JList example_urls)])))
    = inr wheels
    /\ Permutation wheels (map wheel_of (filter is_target_wheel example_urls))
    /\ StronglySorted
         (fun a b => String.leb (python_version a) (python_version b) = true)
         wheels.
Proof.
  apply (C2_wheel_links_selected_and_sorted _ [("urls", JList example_urls)]).
  - reflexivity.
  - reflexivity.
  - repeat constructor.
Defined.

Example wheel_links_example :
  option_map (map (fun w => (filename w, python_version w)))
    (match outcome (get_wheel_download_links
                      (ret (JDict [("urls", JList example_urls)]))) with
     | inr wheels => Some wheels
     | inl _ => None
     end)
  = Some [("torch-2.8.0-cp310-cp310-manylinux_2_28_x86_64.whl", "3.10");
          ("torch-2.8.0-cp313-cp313-manylinux_2_28_x86_64.whl", "3.13");
          ("torch-2.8.0-cp39-cp39-manylinux_2_28_x86_64.whl", "3.9")].
Proof. vm_compute. reflexivity. Qed.

Lemma wheel_links_caught fetch e p :
  outcome (wheel_links_body fetch) = inl e ->
  match e with
  | RequestException _ => Some (PFetchError e)
  | KeyError _ => Some (PParseError e)
  | _ => None
  end = Some p ->
  get_wheel_download_links fetch
  = (output (wheel_links_body fetch) ++ [p], inr []).
Proof.
  intros He Hp. rewrite (M_eq (get_wheel_download_links fetch)).
  unfold get_wheel_download_links.
  rewrite output_try_except, outcome_try_except, He.
  destruct e; inversion Hp; subst; reflexivity.
Qed.

Lemma wheel_links_propagated fetch e :
  outcome (get_wheel_download_links fetch) = inl e ->
  outcome (wheel_links_body fetch) = inl e
  /\ match e with
     | RequestException _ | KeyError _ => False
     | _ => True
     end.
Proof.
  unfold get_wheel_download_links. rewrite outcome_try_except.
  destruct (outcome (wheel_links_body fetch)) as [e'|x]; [|discriminate].
  destruct e'; cbn; intros H; inversion H; subst; auto.
Qed.

(** C8, amended.  A [RequestException] of the fetch, and a [KeyError] raised
    while the metadata is read (a missing "urls" key among them), end in an
    empty list and one printed error line.  An exception the function does
    let through is neither of the two. *)
Theorem C8_request_and_key_errors_are_caught (fetch : M json) :
  (forall msg,
     outcome fetch = inl (RequestException msg) ->
     get_wheel_download_links fetch
     = (output fetch ++ [PFetchError (RequestException msg)], inr []))
  /\ (forall key,
        outcome (wheel_links_body fetch) = inl (KeyError key) ->
        get_wheel_download_links fetch
        = (output (wheel_links_body fetch) ++ [PParseError (KeyError key)],
           inr []))
  /\ (forall doc,
        outcome fetch = inr (JDict doc) -> lookup "urls" doc = None ->
        get_wheel_download_links fetch
        = (output fetch ++ [PParseError (KeyError "urls")], inr []))
  /\ (forall e,
        outcome (get_wheel_download_links fetch) = inl e ->
        match e with
        | RequestException _ | KeyError _ => False
        | _ => True
        end).
Proof.
  split; [|split; [|split]].
  - intros msg H.
    assert (Hb : outcome (wheel_links_body fetch) = inl (RequestException msg)).
    { unfold wheel_links_body. now rewrite outcome_bind, H. }
    assert (Ho : output (wheel_links_body fetch) = output fetch).
    { unfold wheel_links_body. now rewrite output_bind, H. }
    rewrite <- Ho. now apply (wheel_links_caught _ (RequestException msg)).
  - intros key H. now apply (wheel_links_caught _ (KeyError key)).
  - intros doc Hf Hu.
    assert (Hb : outcome (wheel_links_body fetch) = inl (KeyError "urls")).
    { unfold wheel_links_body. rewrite outcome_bind, Hf. cbn [getitem].
      now rewrite Hu. }
    assert (Ho : output (wheel_links_body fetch) = output fetch).
    { unfold wheel_links_body. rewrite output_bind, Hf. cbn [getitem].
      rewrite Hu. cbn. apply app_nil_r. }
    rewrite <- Ho. now apply (wheel_links_caught _ (KeyError "urls")).
  - intros e H. now apply wheel_links_propagated in H.
Qed.

Lemma C8_request_and_key_errors_are_caught_witness :
  get_wheel_download_links (raise (RequestException "404 Client Error"))
  = ([PFetchError (RequestException "404 Client Error")], inr [])
  /\ get_wheel_download_links (ret (JDict [("info", JNone)]))
     = ([PParseError (KeyError "urls")], inr []).
Proof.
  split.
  - apply (proj1 (C8_request_and_key_errors_are_caught
                    (raise (RequestException "404 Client Error")))
             "404 Client Error").
    reflexivity.
  - apply (proj1 (proj2 (proj2 (C8_request_and_key_errors_are_caught
                                  (ret (JDict [("info", JNone)])))))
             [("info", JNone)]); reflexivity.
Defined.

(** C8 as stated fails: metadata whose "urls" is null makes the loop raise a
    [TypeError], which no clause catches. *)
Lemma C8_type_error_propagates :
  outcome (get_wheel_download_links (ret (JDict [("urls", JNone)])))
  = inl TypeError.
Proof. reflexivity. Qed.

(** C3, amended.  A filename of five dash-separated segments whose third is
    "cp", a character M and at least one more character NN gives "M.NN" (M and
    NN need not be digits).  A filename with fewer than three segments, or
    whose third segment does not start with "cp" or is shorter than four
    characters, gives "unknown". *)
Theorem C3_extract_python_version (filename : string) :
  (forall pkg ver abi plat M NN,
     PyStr.split "-" filename
     = [pkg; ver; ("cp" ++ String M NN)%string; abi; plat] ->
     NN <> EmptyString ->
     extract_python_version_from_filename filename
     = ret (String M EmptyString ++ "." ++ NN)%string)
  /\ ((List.length (PyStr.split "-" filename) < 3)%nat
      \/ (exists third,
            nth_error (PyStr.split "-" filename) 2 = Some third
            /\ (PyStr.startswith "cp" third = false
                \/ (String.length third < 4)%nat)) ->
      extract_python_version_from_filename filename = ret "unknown").
Proof.
  split.
  - intros pkg ver abi plat M NN H HNN.
    rewrite (extract_third_part _ _ _ _ _ H). cbn.
    destruct NN; [congruence|reflexivity].
  - intros [H|(third & Hth & H)]; [now apply extract_few_parts|].
    destruct (PyStr.split "-" filename) as [|p0 [|p1 [|tag tl]]] eqn:E;
      try discriminate.
    injection Hth as ->. rewrite (extract_third_part _ _ _ _ _ E).
    destruct H as [->|H]; [reflexivity|].
    destruct (PyStr.startswith "cp" third) eqn:Hcp; [|reflexivity].
    apply startswith_inv in Hcp as [r ->]. cbn in H |- *.
    destruct r as [|c1 [|c2 r]]; try reflexivity. cbn in H. lia.
Qed.

Lemma C3_extract_python_version_witness :
  extract_python_version_from_filename
    "torch-2.8.0-cp313-cp313-manylinux_2_28_x86_64.whl" = ret "3.13"
  /\ extract_python_version_from_filename "torch-2.8.0.tar.gz" = ret "unknown".
Proof.
  split.
  - apply (proj1 (C3_extract_python_version
                    "torch-2.8.0-cp313-cp313-manylinux_2_28_x86_64.whl")
             "torch" "2.8.0" "cp313" "manylinux_2_28_x86_64.whl" "3"%char "13").
    + reflexivity.
    + discriminate.
  - apply (proj2 (C3_extract_python_version "torch-2.8.0.tar.gz")).
    left. cbn. lia.
Defined.

(** C3 as stated fails: three segments are enough, and the characters after
    "cp" need not be digits. *)
Lemma C3_other_shapes_are_decoded :
  PyStr.split "-" "torch-2.8.0-cp313" = ["torch"; "2.8.0"; "cp313"]
  /\ extract_python_version_from_filename "torch-2.8.0-cp313" = ret "3.13"
  /\ extract_python_version_from_filename "torch-2.8.0-cpython-x-y.whl"
     = ret "y.thon".
Proof. repeat split. Qed.

(** ** [get_cuda_architectures] *)

(** Evaluates the output and the outcome of a computation bind by bind. *)
Ltac run_M :=
  repeat (rewrite ?output_bind, ?outcome_bind, ?output_try_except,
            ?outcome_try_except;
          cbn [outcome output print ret raise fst snd negb nonempty]).

Lemma output_print_each {A} (p : A -> printed) l :
  print_each p l = (map p l, inr tt).
Proof.
  induction l as [|x t IH]; simpl; [reflexivity|].
  rewrite IH. reflexivity.
Qed.

Lemma nonempty_false {A} (l : list A) : nonempty l = false -> l = [].
Proof. destruct l; [reflexivity|discriminate]. Qed.

Lemma lines_with_none marker stdout :
  (forall line, In line (PyStr.split newline stdout) ->
                PyStr.contains marker (PyStr.lower line) = false) ->
  lines_with marker stdout = [].
Proof.
  intros H. unfold lines_with.
  induction (PyStr.split newline stdout) as [|l t IH]; simpl; [reflexivity|].
  rewrite (H l) by now left. apply IH. intros; apply H; now right.
Qed.

(** What the function does once cuobjdump has answered and no line has
    "arch": the second tier. *)
Lemma cuda_architectures_second_tier w stdout :
  outcome (libtorch_exists w) = inr true ->
  outcome (cuobjdump w) = inr stdout ->
  lines_with "arch" stdout = [] ->
  lines_with "sm_" stdout <> [] ->
  get_cuda_architectures w
  = (output (libtorch_exists w) ++ [PRunning] ++ output (cuobjdump w)
       ++ [POutputLength (String.length stdout); PNoArchLines; PFoundSmLines]
       ++ map PSmLine (firstn 10 (lines_with "sm_" stdout)),
     inr (lines_with "sm_" stdout)).
Proof.
  intros He Hc Ha Hs. rewrite (M_eq (get_cuda_architectures w)).
  unfold get_cuda_architectures.
  destruct (lines_with "sm_" stdout) as [|l t] eqn:E; [congruence|].
  repeat (rewrite ?output_bind, ?outcome_bind, ?output_try_except,
            ?outcome_try_except, ?He, ?Hc, ?Ha, ?E, ?output_print_each;
          cbn [outcome output print ret raise fst snd negb nonempty]).
  now rewrite app_nil_r.
Qed.

Lemma cuda_architectures_third_tier w stdout :
  outcome (libtorch_exists w) = inr true ->
  outcome (cuobjdump w) = inr stdout ->
  lines_with "arch" stdout = [] ->
  lines_with "sm_" stdout = [] ->
  outcome (get_cuda_architectures w) = inr [].
Proof.
  intros He Hc Ha Hs. unfold get_cuda_architectures.
  repeat (rewrite ?outcome_bind, ?outcome_try_except, ?He, ?Hc, ?Ha, ?Hs,
            ?output_print_each;
          cbn [outcome output print ret raise fst snd negb nonempty]).
  reflexivity.
Qed.

(** C7, amended.  When cuobjdump answers and no line of its output has
    "arch" in any case, the function returns every line that has "sm_" in any
    case, stripped and in order, however many there are; the limit of ten
    applies to the lines it prints. *)
Theorem C7_second_tier_returns_every_sm_line (w : inspector) (stdout : string) :
  outcome (libtorch_exists w) = inr true ->
  outcome (cuobjdump w) = inr stdout ->
  (forall line, In line (PyStr.split newline stdout) ->
                PyStr.contains "arch" (PyStr.lower line) = false) ->
  let sm_lines :=
    map PyStr.strip
      (filter (fun line => PyStr.contains "sm_" (PyStr.lower line))
         (PyStr.split newline stdout)) in
  outcome (get_cuda_architectures w) = inr sm_lines
  /\ (sm_lines <> [] ->
      output (get_cuda_architectures w)
      = output (libtorch_exists w) ++ [PRunning] ++ output (cuobjdump w)
        ++ [POutputLength (String.length stdout); PNoArchLines; PFoundSmLines]
        ++ map PSmLine (firstn 10 sm_lines)).
Proof.
  intros He Hc Harch sm_lines.
  pose proof (lines_with_none "arch" stdout Harch) as Ha.
  change sm_lines with (lines_with "sm_" stdout).
  destruct (lines_with "sm_" stdout) as [|l t] eqn:E.
  - split; [|congruence]. now apply (cuda_architectures_third_tier w stdout).
  - assert (Hs : lines_with "sm_" stdout <> []) by congruence.
    rewrite (cuda_architectures_second_tier w stdout He Hc Ha Hs), E.
    split; reflexivity.
Qed.

Lemma C7_second_tier_returns_every_sm_line_witness :
  outcome (get_cuda_architectures (example_inspector eleven_sm_lines))
  = inr (repeat "sm_80" 11)
  /\ (repeat "sm_80" 11 <> [] ->
      output (get_cuda_architectures (example_inspector eleven_sm_lines))
      = [PRunning; POutputLength 65; PNoArchLines; PFoundSmLines]
        ++ map PSmLine (repeat "sm_80" 10)).
Proof.
  apply (C7_second_tier_returns_every_sm_line
           (example_inspector eleven_sm_lines) eleven_sm_lines).
  - reflexivity.
  - reflexivity.
  - intros line H. vm_compute in H.
    repeat (destruct H as [<-|H]; [reflexivity|]). destruct H.
Defined.

(** C7 as stated fails: from eleven matching lines the function returns
    eleven, not ten. *)
Lemma C7_eleven_lines_returned :
  (forall line, In line (PyStr.split newline eleven_sm_lines) ->
                PyStr.contains "arch" (PyStr.lower line) = false)
  /\ exists lines,
       outcome (get_cuda_architectures (example_inspector eleven_sm_lines))
       = inr lines
       /\ List.length lines = 11%nat.
Proof.
  split.
  - intros line H. vm_compute in H.
    repeat (destruct H as [<-|H]; [reflexivity|]). destruct H.
  - eexists. split; [vm_compute; reflexivity|reflexivity].
Qed.

(** ** [analyze_all_wheels] *)

Lemma process_wheel_outcome w :
  outcome (process_wheel w)
  = match outcome (download_wheel w), outcome (mkdir w),
          outcome (extract_wheel w) with
    | inl e, _, _ => inl e
    | inr _, inl e, _ => inl e
    | inr _, inr _, inl e => inl e
    | inr _, inr _, inr _ => outcome (get_cuda_architectures (inspect w))
    end.
Proof.
  unfold process_wheel. run_M.
  destruct (outcome (download_wheel w)); [reflexivity|].
  run_M. destruct (outcome (mkdir w)); [reflexivity|].
  run_M. destruct (outcome (extract_wheel w)); reflexivity.
Qed.

Lemma outcome_leaving {A} (body : M A) (exit : M unit) :
  outcome (leaving body exit)
  = match outcome exit with
    | inl e => inl e
    | inr _ => outcome body
    end.
Proof. reflexivity. Qed.

Lemma output_leaving {A} (body : M A) (exit : M unit) :
  output (leaving body exit) = output body ++ output exit.
Proof. reflexivity. Qed.

(** A turn of the loop raises what making or deleting the temporary directory
    raises, and returns the result of the wheel otherwise. *)
Lemma analyze_wheel_cases w version i n wheel :
  outcome (analyze_wheel w version i n wheel)
  = match outcome (make_temp_dir w) with
    | inl e => inl e
    | inr _ =>
        match outcome (remove_temp_dir w) with
        | inl e => inl e
        | inr _ => inr (wheel_result w version wheel)
        end
    end.
Proof.
  unfold analyze_wheel, wheel_result. rewrite process_wheel_outcome. run_M.
  destruct (outcome (make_temp_dir w)); [reflexivity|].
  rewrite outcome_leaving.
  destruct (outcome (remove_temp_dir w)); [reflexivity|].
  run_M. destruct (outcome (download_wheel w)); [reflexivity|].
  run_M. destruct (outcome (mkdir w)); [reflexivity|].
  run_M. destruct (outcome (extract_wheel w)); [reflexivity|].
  run_M. destruct (outcome (get_cuda_architectures (inspect w))) as [e|archs];
    [reflexivity|].
  run_M. destruct (nonempty (clean archs)); reflexivity.
Qed.

Lemma analyze_wheel_outcome w version i n wheel :
  temp_dir_ok w ->
  outcome (analyze_wheel w version i n wheel)
  = inr (wheel_result w version wheel).
Proof. intros [Hm Hr]. now rewrite analyze_wheel_cases, Hm, Hr. Qed.

Lemma analyze_wheel_returned w version i n wheel r :
  outcome (analyze_wheel w version i n wheel) = inr r ->
  r = wheel_result w version wheel.
Proof.
  rewrite analyze_wheel_cases.
  destruct (outcome (make_temp_dir w)); [discriminate|].
  destruct (outcome (remove_temp_dir w)); [discriminate|].
  now intros [= <-].
Qed.

Lemma analyze_loop_outcome world version n wheels : forall i results,
  (forall k, k < List.length wheels -> temp_dir_ok (world (i + k))) ->
  outcome (analyze_loop world version n i wheels results)
  = inr (results
         ++ map (fun iw => wheel_result (world (fst iw)) version (snd iw))
              (enumerate i wheels)).
Proof.
  induction wheels as [|wheel rest IH]; intros i results Hok; simpl.
  - now rewrite app_nil_r.
  - rewrite outcome_bind, analyze_wheel_outcome, IH, <- app_assoc.
    + reflexivity.
    + intros k Hk. replace (S i + k) with (i + S k) by lia.
      apply Hok. simpl. lia.
    + replace i with (i + 0) by lia. apply Hok. simpl. lia.
Qed.

Lemma analyze_loop_returned world version n wheels : forall i results rs,
  outcome (analyze_loop world version n i wheels results) = inr rs ->
  rs = results
       ++ map (fun iw => wheel_result (world (fst iw)) version (snd iw))
            (enumerate i wheels).
Proof.
  induction wheels as [|wheel rest IH]; intros i results rs; simpl.
  - intros [= <-]. now rewrite app_nil_r.
  - rewrite outcome_bind.
    destruct (outcome (analyze_wheel (world i) version i n wheel))
      as [e|r] eqn:Hr; [discriminate|].
    apply analyze_wheel_returned in Hr. subst r.
    intros H. apply IH in H. now rewrite <- app_assoc in H.
Qed.

(** When every temporary directory is made and deleted, [analyze_all_wheels]
    returns the results of the wheels. *)
Lemma analyze_all_wheels_outcome world wheels version :
  temp_dirs_ok world (List.length wheels) ->
  outcome (analyze_all_wheels world wheels version)
  = inr (map (fun iw => wheel_result (world (fst iw)) version (snd iw))
           (enumerate 1 wheels)).
Proof.
  intros Hok. unfold analyze_all_wheels. rewrite analyze_loop_outcome.
  - reflexivity.
  - intros k Hk. apply Hok. lia.
Qed.

(** Whatever [analyze_all_wheels] returns is the results of the wheels. *)
Lemma analyze_all_wheels_returned world wheels version results :
  outcome (analyze_all_wheels world wheels version) = inr results ->
  results = map (fun iw => wheel_result (world (fst iw)) version (snd iw))
              (enumerate 1 wheels).
Proof. intros H. now apply analyze_loop_returned in H. Qed.

Lemma map_snd_enumerate {A} (l : list A) : forall i,
  map snd (enumerate i l) = l.
Proof. induction l; intros i; simpl; [reflexivity|now rewrite IHl]. Qed.

Lemma nth_error_enumerate {A} (l : list A) : forall i k x,
  nth_error l k = Some x -> nth_error (enumerate i l) k = Some (i + k, x).
Proof.
  induction l as [|y t IH]; intros i [|k] x H; simpl in *; try discriminate.
  - injection H as ->. now rewrite Nat.add_0_r.
  - rewrite (IH (S i) k x H). f_equal. f_equal. lia.
Qed.

(** *** The cleaned architecture list *)

Lemma forallb_take_while p s : PyStr.forallb p (PyStr.take_while p s) = true.
Proof.
  induction s as [|c r IH]; simpl; [reflexivity|].
  destruct (p c) eqn:E; simpl; [now rewrite E|reflexivity].
Qed.

Lemma re_match_sm_token s m : PyStr.re_match_sm s = Some m -> arch_token m.
Proof.
  unfold PyStr.re_match_sm. cbv zeta.
  destruct (PyStr.startswith "sm_" s); [|discriminate].
  destruct (PyStr.take_while PyStr.is_digit (PyStr.drop 3 s)) as [|d ds] eqn:E;
    [discriminate|].
  intros [= <-].
  exists (String d ds),
    (PyStr.take_while PyStr.is_lower_az
       (PyStr.drop_while PyStr.is_digit (PyStr.drop 3 s))).
  split; [reflexivity|split; [discriminate|split]].
  - rewrite <- E. apply forallb_take_while.
  - apply forallb_take_while.
Qed.

Lemma re_search_sm_token s m : PyStr.re_search_sm s = Some m -> arch_token m.
Proof.
  induction s as [|c r IH]; cbn [PyStr.re_search_sm];
    destruct (PyStr.re_match_sm _) eqn:E; try discriminate; try exact IH;
    intros [= <-]; now apply re_match_sm_token in E.
Qed.

Lemma clean_tokens archs : Forall arch_token (clean archs).
Proof.
  induction archs as [|a t IH]; simpl; [constructor|].
  destruct (PyStr.contains "sm_" a); [|exact IH].
  destruct (PyStr.re_search_sm a) eqn:E; [|exact IH].
  constructor; [now apply re_search_sm_token in E|exact IH].
Qed.

Lemma sorted_perm l : Permutation (sorted l) l.
Proof. apply sort_perm. Qed.

Lemma sorted_ascending l :
  StronglySorted (fun a b => String.leb a b = true) (sorted l).
Proof.
  eapply StronglySorted_impl; [|apply (sort_sorted String.ltb)].
  - unfold not_above. intros a b H. now rewrite string_leb_ltb, H.
  - apply string_ltb_asym.
  - apply string_ltb_ge_trans.
Qed.

Lemma sorted_set_nodup l : NoDup (sorted (set l)).
Proof.
  eapply Permutation_NoDup; [symmetry; apply sorted_perm|].
  apply NoDup_nodup.
Qed.

Lemma sorted_set_Forall (P : string -> Prop) l :
  Forall P l -> Forall P (sorted (set l)).
Proof.
  intros H. eapply Permutation_Forall; [symmetry; apply sorted_perm|].
  rewrite Forall_forall in *. intros x Hx. apply H.
  unfold set in Hx. now apply nodup_In in Hx.
Qed.

Lemma cuda_architectures_run_failed w e :
  outcome (libtorch_exists w) = inr true ->
  outcome (cuobjdump w) = inl e ->
  outcome (get_cuda_architectures w) = inr [].
Proof.
  intros He Hc. unfold get_cuda_architectures.
  repeat (rewrite ?outcome_bind, ?outcome_try_except, ?He, ?Hc;
          cbn [outcome output print ret raise fst snd negb nonempty]).
  destruct e; reflexivity.
Qed.

Lemma cuda_architectures_lib_missing w :
  outcome (libtorch_exists w) = inr false ->
  outcome (get_cuda_architectures w) = inr [].
Proof.
  intros He. unfold get_cuda_architectures.
  repeat (rewrite ?outcome_bind, ?He;
          cbn [outcome output print ret raise fst snd negb nonempty]).
  reflexivity.
Qed.

Lemma wheel_result_architectures w version wheel :
  let archs := cuda_architectures (wheel_result w version wheel) in
  NoDup archs
  /\ StronglySorted (fun a b => String.leb a b = true) archs
  /\ Forall arch_token archs.
Proof.
  unfold wheel_result; cbn [cuda_architectures].
  destruct (outcome (process_wheel w)) as [e|archs].
  - repeat constructor.
  - split; [apply sorted_set_nodup|].
    split; [apply sorted_ascending|].
    apply sorted_set_Forall, clean_tokens.
Qed.

(** C4.  In every result that [analyze_all_wheels] returns the architecture
    list has no duplicate, ascends in the order of strings, and consists of
    tokens "sm_", digits, letters a-z; and [analyze_all_wheels] returns
    results when the temporary directory of every wheel is made and deleted
    without error. *)
Theorem C4_architectures_deduplicated_sorted_tokens
    (world : nat -> wheel_world) (wheels : list wheel_info) (version : string) :
  (forall results,
     outcome (analyze_all_wheels world wheels version) = inr results ->
     Forall (fun r =>
               NoDup (cuda_architectures r)
               /\ StronglySorted (fun a b => String.leb a b = true)
                    (cuda_architectures r)
               /\ Forall arch_token (cuda_architectures r))
       results)
  /\ (temp_dirs_ok world (List.length wheels) ->
      exists results,
        outcome (analyze_all_wheels world wheels version) = inr results).
Proof.
  split.
  - intros results H. apply analyze_all_wheels_returned in H. subst results.
    apply Forall_map, Forall_forall. intros iw _.
    apply wheel_result_architectures.
  - intros Hok. eexists. now apply analyze_all_wheels_outcome.
Qed.

Lemma C4_architectures_deduplicated_sorted_tokens_witness :
  exists results,
    outcome (analyze_all_wheels
               (fun i =>
                  example_wheel_world
                    (if Nat.eqb i 2 then raise (RequestException "503")
                     else ret tt)
                    three_arch_lines)
               [example_wheel
                  "torch-2.8.0-cp313-cp313-manylinux_2_28_x86_64.whl" "3.13";
                example_wheel
                  "torch-2.8.0-cp312-cp312-manylinux_2_28_x86_64.whl" "3.12";
                example_wheel
                  "torch-2.8.0-cp39-cp39-manylinux_2_28_x86_64.whl" "3.9"]
               "2.8.0")
    = inr results
    /\ map cuda_architectures results
       = [["sm_80"; "sm_90"]; []; ["sm_80"; "sm_90"]]
    /\ Forall (fun r =>
                 NoDup (cuda_architectures r)
                 /\ StronglySorted (fun a b => String.leb a b = true)
                      (cuda_architectures r)
                 /\ Forall arch_token (cuda_architectures r))
         results.
Proof.
  eexists. split; [vm_compute; reflexivity|]. split; [reflexivity|].
  apply (C4_architectures_deduplicated_sorted_tokens
           (fun i =>
              example_wheel_world
                (if Nat.eqb i 2 then raise (RequestException "503") else ret tt)
                three_arch_lines)
           [example_wheel
              "torch-2.8.0-cp313-cp313-manylinux_2_28_x86_64.whl" "3.13";
            example_wheel
              "torch-2.8.0-cp312-cp312-manylinux_2_28_x86_64.whl" "3.12";
            example_wheel
              "torch-2.8.0-cp39-cp39-manylinux_2_28_x86_64.whl" "3.9"]
           "2.8.0").
  vm_compute; reflexivity.
Defined.

(** C5, as the code has it.  When the temporary directory of every wheel is
    made and deleted without error, [analyze_all_wheels] returns one result
    per wheel, in the order of the wheels and with the version it was given;
    the result of a wheel whose download, unpacking or inspection raises has
    no architectures, and so has the result of a wheel whose cuobjdump run
    fails.  [world (S i)] is what the wheel at position [i] meets. *)
Theorem C5_one_result_per_wheel
    (world : nat -> wheel_world) (wheels : list wheel_info) (version : string) :
  temp_dirs_ok world (List.length wheels) ->
  exists results,
    outcome (analyze_all_wheels world wheels version) = inr results
    /\ map result_wheel_info results = wheels
    /\ (forall i wheel,
          nth_error wheels i = Some wheel ->
          exists r,
            nth_error results i = Some r
            /\ result_wheel_info r = wheel
            /\ package_version r = version
            /\ (forall e, outcome (process_wheel (world (S i))) = inl e ->
                          cuda_architectures r = [])
            /\ (forall e,
                  outcome (download_wheel (world (S i))) = inr tt ->
                  outcome (mkdir (world (S i))) = inr tt ->
                  outcome (extract_wheel (world (S i))) = inr tt ->
                  outcome (libtorch_exists (inspect (world (S i)))) = inr true ->
                  outcome (cuobjdump (inspect (world (S i)))) = inl e ->
                  cuda_architectures r = [])).
Proof.
  intros Hok.
  eexists. split; [now apply analyze_all_wheels_outcome|]. split.
  - rewrite map_map. cbn [wheel_result result_wheel_info].
    apply map_snd_enumerate.
  - intros i wheel H.
    exists (wheel_result (world (S i)) version wheel).
    split; [|split; [reflexivity|split; [reflexivity|split]]].
    + rewrite (nth_error_map _ i (enumerate 1 wheels)).
      now rewrite (nth_error_enumerate wheels 1 i wheel H).
    + intros e He. unfold wheel_result; cbn. now rewrite He.
    + intros e Hd Hm Hx He Hc. unfold wheel_result; cbn.
      rewrite process_wheel_outcome, Hd, Hm, Hx.
      now rewrite (cuda_architectures_run_failed _ e He Hc).
Qed.

(** The first download fails, the cuobjdump run of the second wheel fails,
    the third wheel is analyzed: three results, the first two without
    architectures. *)
Lemma C5_one_result_per_wheel_witness :
  exists results,
    outcome (analyze_all_wheels
               (fun i =>
                  {| make_temp_dir := ret tt;
                     remove_temp_dir := ret tt;
                     download_wheel :=
                       if Nat.eqb i 1 then raise (RequestException "503")
                       else ret tt;
                     mkdir := ret tt;
                     extract_wheel := ret tt;
                     inspect :=
                       {| libtorch_exists := ret true;
                          cuobjdump :=
                            if Nat.eqb i 2
                            then raise (CalledProcessError "" "not an ELF file")
                            else ret three_arch_lines |} |})
               [example_wheel
                  "torch-2.8.0-cp313-cp313-manylinux_2_28_x86_64.whl" "3.13";
                example_wheel
                  "torch-2.8.0-cp312-cp312-manylinux_2_28_x86_64.whl" "3.12";
                example_wheel
                  "torch-2.8.0-cp39-cp39-manylinux_2_28_x86_64.whl" "3.9"]
               "2.8.0")
    = inr results
    /\ map (fun r => filename (result_wheel_info r)) results
       = ["torch-2.8.0-cp313-cp313-manylinux_2_28_x86_64.whl";
          "torch-2.8.0-cp312-cp312-manylinux_2_28_x86_64.whl";
          "torch-2.8.0-cp39-cp39-manylinux_2_28_x86_64.whl"]
    /\ map cuda_architectures results = [[]; []; ["sm_80"; "sm_90"]].
Proof.
  destruct (C5_one_result_per_wheel
              (fun i =>
                 {| make_temp_dir := ret tt;
                    remove_temp_dir := ret tt;
                    download_wheel :=
                      if Nat.eqb i 1 then raise (RequestException "503")
                      else ret tt;
                    mkdir := ret tt;
                    extract_wheel := ret tt;
                    inspect :=
                      {| libtorch_exists := ret true;
                         cuobjdump :=
                           if Nat.eqb i 2
                           then raise (CalledProcessError "" "not an ELF file")
                           else ret three_arch_lines |} |})
              [example_wheel
                 "torch-2.8.0-cp313-cp313-manylinux_2_28_x86_64.whl" "3.13";
               example_wheel
                 "torch-2.8.0-cp312-cp312-manylinux_2_28_x86_64.whl" "3.12";
               example_wheel
                 "torch-2.8.0-cp39-cp39-manylinux_2_28_x86_64.whl" "3.9"]
              "2.8.0")
    as (results & Hres & _ & _).
  - intros i _. split; reflexivity.
  - exists results. split; [exact Hres|].
    vm_compute in Hres. injection Hres as <-. split; reflexivity.
Defined.

(** C5 as the spec has it fails: the temporary directory of a wheel is made
    outside the [try] block, so when it cannot be made the exception leaves
    [analyze_all_wheels], which returns no result for any wheel, the wheels
    analyzed before included. *)
Lemma C5_temp_dir_failure_aborts :
  outcome (analyze_all_wheels
             (fun i =>
                if Nat.eqb i 2 then full_disk
                else example_wheel_world (ret tt) "arch = sm_80")
             [example_wheel
                "torch-2.8.0-cp313-cp313-manylinux_2_28_x86_64.whl" "3.13";
              example_wheel
                "torch-2.8.0-cp312-cp312-manylinux_2_28_x86_64.whl" "3.12";
              example_wheel
                "torch-2.8.0-cp39-cp39-manylinux_2_28_x86_64.whl" "3.9"]
             "2.8.0")
  = inl (OSError "[Errno 28] No space left on device").
Proof. vm_compute. reflexivity. Qed.

(** ** [generate_comprehensive_pip_table] *)

Lemma mapM_raise {A B} (f : A -> M B) (e : exn) l :
  (forall x, In x l -> (exists y, f x = ret y) \/ f x = raise e) ->
  (exists x, In x l /\ f x = raise e) ->
  mapM f l = raise e.
Proof.
  induction l as [|x t IH]; intros Hall (x0 & Hin & Hx0); [destruct Hin|].
  simpl. destruct (Hall x (or_introl eq_refl)) as [[y Hy]|Hr].
  - rewrite Hy, bind_ret.
    rewrite IH; [reflexivity|intros; apply Hall; now right|].
    destruct Hin as [->|Hin]; [|now exists x0].
    rewrite Hy in Hx0. unfold ret, raise in Hx0. discriminate.
  - now rewrite Hr.
Qed.

Lemma to_int_cases x :
  (exists n, to_int x = ret n) \/ to_int x = raise ValueError.
Proof. unfold to_int. destruct (PyStr.int x); [left; now eexists|now right]. Qed.

Lemma version_key_raise v :
  numeric v = false -> version_key v = raise ValueError.
Proof.
  unfold numeric, version_key. intros H.
  apply mapM_raise; [intros; apply to_int_cases|].
  induction (PyStr.split "." v) as [|x t IH]; [discriminate|].
  simpl in H. apply andb_false_iff in H as [H|H].
  - exists x. split; [now left|]. unfold is_int, to_int in *.
    now destruct (PyStr.int x).
  - destruct (IH H) as (y & Hy & Hr). exists y. split; [now right|assumption].
Qed.

Lemma sort_key_ret r :
  sortable r = true ->
  sort_key r
  = ret (map Z.opp (components (package_version r)),
         components (python_version (result_wheel_info r))).
Proof.
  unfold sortable, sort_key. intros H. apply andb_true_iff in H as [Hv Hp].
  now rewrite (version_key_ret _ Hv), bind_ret, (version_key_ret _ Hp), bind_ret.
Qed.

Lemma sort_key_raise r :
  sortable r = false -> sort_key r = raise ValueError.
Proof.
  unfold sortable, sort_key. intros H.
  destruct (numeric (package_version r)) eqn:Hv.
  - rewrite (version_key_ret _ Hv), bind_ret.
    simpl in H. now rewrite (version_key_raise _ H).
  - now rewrite (version_key_raise _ Hv).
Qed.

(** C6 fails on the code.  As soon as one result has a version or an
    interpreter version with a component [int] refuses (the "unknown" that
    [extract_python_version_from_filename] itself returns is one), the
    function raises [ValueError] and produces no table. *)
Theorem C6_unsortable_result_raises (all_results : list result) :
  (exists r, In r all_results /\ sortable r = false) ->
  generate_comprehensive_pip_table all_results = raise ValueError.
Proof.
  intros (r & Hin & Hr). unfold generate_comprehensive_pip_table, sort_by_key.
  rewrite (mapM_raise sort_key ValueError); [reflexivity| |].
  - intros x _. destruct (sortable x) eqn:E.
    + left. eexists. now apply sort_key_ret.
    + right. now apply sort_key_raise.
  - exists r. split; [assumption|now apply sort_key_raise].
Qed.

Lemma C6_unsortable_result_raises_witness :
  generate_comprehensive_pip_table [untagged_result] = raise ValueError.
Proof.
  apply C6_unsortable_result_raises.
  exists untagged_result. split; [now left|reflexivity].
Defined.

(** The interpreter version "unknown" is what the selection step gives an
    untagged wheel. *)
Example untagged_wheel_is_selected :
  outcome (get_wheel_download_links
             (ret (JDict [("urls",
                      JList [example_file "bdist_wheel" untagged_wheel_name])])))
  = inr [example_wheel untagged_wheel_name "unknown"].
Proof. vm_compute. reflexivity. Qed.

(** Negating the components does not reverse the order of a version and its
    extension: "2.8" is listed before "2.8.0". *)
Example prefix_version_listed_first :
  let r v name :=
    {| result_wheel_info := example_wheel name "3.10";
       cuda_architectures := []; package_version := v |} in
  generate_comprehensive_pip_table [r "2.8.0" "b.whl"; r "2.8" "a.whl"]
  = ret (PyStr.join (String newline EmptyString)
           (table_header ++ ["| a.whl |  |"; "| b.whl |  |"])).
Proof. vm_compute. reflexivity. Qed.

(** ** Writing the table and reading it back *)

Lemma append_assoc (a b c : string) :
  ((a ++ b) ++ c)%string = (a ++ (b ++ c))%string.
Proof. induction a; simpl; [reflexivity|now f_equal]. Qed.

Lemma append_nil_r (a : string) : (a ++ "")%string = a.
Proof. induction a; simpl; [reflexivity|now f_equal]. Qed.

Lemma no_char_app c a b :
  no_char c (a ++ b)%string = no_char c a && no_char c b.
Proof.
  unfold no_char. induction a as [|x a IH]; simpl; [reflexivity|].
  now rewrite IH, andb_assoc.
Qed.

Lemma split_no_sep c s : no_char c s = true -> PyStr.split c s = [s].
Proof.
  unfold no_char. induction s as [|x s IH]; simpl; [reflexivity|].
  intros H. apply andb_true_iff in H as [Hx Hs].
  apply negb_true_iff in Hx. rewrite Hx, (IH Hs). reflexivity.
Qed.

Lemma split_app_sep c a b :
  no_char c a = true ->
  PyStr.split c (a ++ String c b) = a :: PyStr.split c b.
Proof.
  unfold no_char. induction a as [|x a IH]; simpl.
  - now rewrite Ascii.eqb_refl.
  - intros H. apply andb_true_iff in H as [Hx Ha].
    apply negb_true_iff in Hx. now rewrite Hx, (IH Ha).
Qed.

Lemma join_cons sep x y ys :
  PyStr.join sep (x :: y :: ys) = (x ++ sep ++ PyStr.join sep (y :: ys))%string.
Proof. reflexivity. Qed.

Lemma join_prefix sep p x xs :
  (p ++ PyStr.join sep (x :: xs))%string = PyStr.join sep ((p ++ x)%string :: xs).
Proof.
  destruct xs as [|y ys]; [reflexivity|].
  rewrite !join_cons. now rewrite append_assoc.
Qed.

(** Splitting what was joined with a one-character separator *)
Lemma split_join c x xs :
  Forall (fun s => no_char c s = true) (x :: xs) ->
  PyStr.split c (PyStr.join (String c EmptyString) (x :: xs)) = x :: xs.
Proof.
  revert x; induction xs as [|y ys IH]; intros x H.
  - inversion H; subst. now apply split_no_sep.
  - inversion H as [|? ? Hx Hrest]; subst. rewrite join_cons. cbn [append].
    rewrite split_app_sep by assumption. now rewrite IH.
Qed.

(** Splitting at the commas what was joined with ", " *)
Lemma split_comma_join x xs :
  Forall (fun s => no_char "," s = true) (x :: xs) ->
  PyStr.split "," (PyStr.join ", " (x :: xs))
  = x :: map (fun s => (" " ++ s)%string) xs.
Proof.
  revert x; induction xs as [|y ys IH]; intros x H.
  - inversion H; subst. now apply split_no_sep.
  - inversion H as [|? ? Hx Hrest]; subst. rewrite join_cons. cbn [append].
    rewrite split_app_sep by assumption.
    change (String " " (PyStr.join ", " (y :: ys)))
      with (" " ++ PyStr.join ", " (y :: ys))%string.
    rewrite join_prefix, IH; [reflexivity|].
    inversion Hrest; subst. constructor; [|assumption].
    now rewrite no_char_app.
Qed.

(** *** [strip] on padded cells *)

Lemma rstrip_length s : (String.length (PyStr.rstrip s) <= String.length s)%nat.
Proof.
  induction s as [|c r IH]; simpl; [lia|].
  destruct (PyStr.rstrip r); [destruct (PyStr.is_space c)|]; simpl in *; lia.
Qed.

Lemma lstrip_length s : (String.length (PyStr.lstrip s) <= String.length s)%nat.
Proof.
  induction s as [|c r IH]; simpl; [lia|].
  destruct (PyStr.is_space c); simpl; lia.
Qed.

Lemma lstrip_fixed s : PyStr.strip s = s -> PyStr.lstrip s = s.
Proof.
  unfold PyStr.strip. intros H.
  destruct s as [|c r]; [reflexivity|]. simpl in *.
  destruct (PyStr.is_space c) eqn:E; [|reflexivity].
  exfalso. pose proof (rstrip_length (PyStr.lstrip r)) as H1.
  pose proof (lstrip_length r) as H2. rewrite H in H1. simpl in H1. lia.
Qed.

Lemma rstrip_fixed s : PyStr.strip s = s -> PyStr.rstrip s = s.
Proof. intros H. pose proof (lstrip_fixed s H) as Hl. unfold PyStr.strip in H. now rewrite Hl in H. Qed.

Lemma rstrip_space s : PyStr.rstrip (s ++ " ")%string = PyStr.rstrip s.
Proof.
  induction s as [|c r IH]; simpl; [reflexivity|]. now rewrite IH.
Qed.

Lemma strip_padded s :
  PyStr.strip s = s -> PyStr.strip (" " ++ s ++ " ")%string = s.
Proof.
  intros H. unfold PyStr.strip. cbn [append PyStr.lstrip].
  change (PyStr.is_space " ") with true. cbn iota.
  destruct s as [|c r]; [reflexivity|].
  pose proof (lstrip_fixed _ H) as Hl. pose proof (rstrip_fixed _ H) as Hr.
  cbn [append PyStr.lstrip] in *.
  destruct (PyStr.is_space c) eqn:E.
  - exfalso. pose proof (lstrip_length r). rewrite Hl in *. simpl in *. lia.
  - change (String c (r ++ " ")) with (String c r ++ " ")%string.
    now rewrite rstrip_space.
Qed.

Lemma strip_space_before s :
  PyStr.strip s = s -> PyStr.strip (" " ++ s)%string = s.
Proof.
  intros H. unfold PyStr.strip. cbn [append PyStr.lstrip].
  change (PyStr.is_space " ") with true. cbn iota. exact H.
Qed.

Lemma lstrip_app a b :
  a <> EmptyString -> PyStr.lstrip a = a ->
  PyStr.lstrip (a ++ b)%string = (a ++ b)%string.
Proof.
  destruct a as [|c r]; [congruence|]. intros _ H. simpl in *.
  destruct (PyStr.is_space c); [|reflexivity].
  exfalso. pose proof (lstrip_length r). rewrite H in *. simpl in *. lia.
Qed.

Lemma rstrip_app a b :
  b <> EmptyString -> PyStr.rstrip b = b ->
  PyStr.rstrip (a ++ b)%string = (a ++ b)%string.
Proof.
  intros Hb H. induction a as [|c r IH]; simpl; [exact H|].
  rewrite IH. destruct (r ++ b)%string eqn:E; [|reflexivity].
  destruct r; simpl in E; [congruence|discriminate].
Qed.

Lemma strip_app a m b :
  a <> EmptyString -> b <> EmptyString ->
  PyStr.strip a = a -> PyStr.strip b = b ->
  PyStr.strip (a ++ m ++ b)%string = (a ++ m ++ b)%string.
Proof.
  intros Ha Hb Hsa Hsb. unfold PyStr.strip.
  rewrite lstrip_app by auto using lstrip_fixed.
  rewrite <- append_assoc. apply rstrip_app; auto using rstrip_fixed.
Qed.

Lemma plain_name_inv s :
  plain_name s = true ->
  no_char "|" s = true /\ no_char newline s = true /\ PyStr.strip s = s.
Proof.
  unfold plain_name. rewrite !andb_true_iff, String.eqb_eq. tauto.
Qed.

Lemma plain_token_inv t :
  plain_token t = true ->
  no_char "|" t = true /\ no_char newline t = true /\ PyStr.strip t = t
  /\ no_char "," t = true /\ t <> EmptyString.
Proof.
  unfold plain_token. rewrite !andb_true_iff, negb_true_iff, String.eqb_neq.
  intros [[H Hc] Hn]. apply plain_name_inv in H. tauto.
Qed.

Lemma join_nonempty sep x xs :
  x <> EmptyString -> PyStr.join sep (x :: xs) <> EmptyString.
Proof.
  destruct x; [congruence|]. intros _. destruct xs; simpl; discriminate.
Qed.

Lemma strip_join x xs :
  Forall (fun t => plain_token t = true) (x :: xs) ->
  PyStr.strip (PyStr.join ", " (x :: xs)) = PyStr.join ", " (x :: xs).
Proof.
  revert x; induction xs as [|y ys IH]; intros x H;
    inversion H as [|? ? Hx Hrest]; subst;
    apply plain_token_inv in Hx as (_ & _ & Hs & _ & Hne).
  - exact Hs.
  - rewrite join_cons. apply strip_app; auto.
    apply join_nonempty. inversion Hrest as [|? ? Hy _]; subst.
    now apply plain_token_inv in Hy.
Qed.

Lemma no_char_join c sep x xs :
  no_char c sep = true ->
  Forall (fun t => no_char c t = true) (x :: xs) ->
  no_char c (PyStr.join sep (x :: xs)) = true.
Proof.
  intros Hsep. revert x; induction xs as [|y ys IH]; intros x H;
    inversion H as [|? ? Hx Hrest]; subst.
  - exact Hx.
  - rewrite join_cons, !no_char_app, Hx, Hsep. now apply IH.
Qed.

Lemma arch_cell_facts archs :
  Forall (fun t => plain_token t = true) archs ->
  PyStr.strip (arch_cell archs) = arch_cell archs
  /\ no_char "|" (arch_cell archs) = true
  /\ no_char newline (arch_cell archs) = true
  /\ parse_architectures (arch_cell archs) = archs.
Proof.
  intros H. destruct archs as [|x xs]; [now repeat split|].
  unfold arch_cell; cbn [nonempty].
  assert (Hbar : Forall (fun t => no_char "|" t = true) (x :: xs)).
  { eapply Forall_impl; [|exact H]. intros t Ht. now apply plain_token_inv in Ht. }
  assert (Hnl : Forall (fun t => no_char newline t = true) (x :: xs)).
  { eapply Forall_impl; [|exact H]. intros t Ht. now apply plain_token_inv in Ht. }
  assert (Hcomma : Forall (fun t => no_char "," t = true) (x :: xs)).
  { eapply Forall_impl; [|exact H]. intros t Ht. now apply plain_token_inv in Ht. }
  split; [now apply strip_join|].
  split; [now apply no_char_join|].
  split; [now apply no_char_join|].
  unfold parse_architectures.
  destruct (PyStr.join ", " (x :: xs)) eqn:E.
  - exfalso. revert E. apply join_nonempty.
    inversion H as [|? ? Hx _]; subst. now apply plain_token_inv in Hx.
  - rewrite <- E, split_comma_join by assumption. cbn [map].
    inversion H as [|? ? Hx Hxs]; subst.
    apply plain_token_inv in Hx as (_ & _ & -> & _). f_equal.
    rewrite map_map. clear -Hxs.
    induction Hxs as [|y ys Hy _ IH]; cbn [map]; [reflexivity|].
    apply plain_token_inv in Hy as (_ & _ & Hy & _).
    now rewrite (strip_space_before _ Hy), IH.
Qed.

Lemma table_row_shape r :
  table_row r
  = String "|"
      ((" " ++ filename (result_wheel_info r) ++ " ")
       ++ String "|"
            ((" " ++ arch_cell (cuda_architectures r) ++ " ")
             ++ String "|" EmptyString))%string.
Proof.
  unfold table_row, arch_cell. cbn [append]. do 2 f_equal.
  rewrite !append_assoc. reflexivity.
Qed.

Lemma no_char_cons c x s :
  no_char c (String x s) = negb (Ascii.eqb x c) && no_char c s.
Proof. reflexivity. Qed.

Lemma no_char_padded c s :
  Ascii.eqb " " c = false ->
  no_char c s = true -> no_char c (" " ++ s ++ " ")%string = true.
Proof.
  intros Hc Hs. rewrite !no_char_app, Hs. unfold no_char.
  cbn [PyStr.forallb]. now rewrite Hc.
Qed.

Lemma parse_row_table_row r :
  readable r = true -> parse_row (table_row r) = Some (row_pair r).
Proof.
  unfold readable. rewrite andb_true_iff, List.forallb_forall, <- Forall_forall.
  intros [Hname Harchs]. apply plain_name_inv in Hname as (Hbar & _ & Hstrip).
  destruct (arch_cell_facts _ Harchs) as (Hcs & Hcb & _ & Hparse).
  unfold parse_row. rewrite table_row_shape.
  cbn [PyStr.split]. change (Ascii.eqb "|" "|") with true. cbn iota.
  rewrite split_app_sep by now apply no_char_padded.
  rewrite split_app_sep by now apply no_char_padded.
  cbn [PyStr.split].
  rewrite (strip_padded _ Hstrip), (strip_padded _ Hcs), Hparse.
  reflexivity.
Qed.

Lemma table_row_one_line r :
  readable r = true -> no_char newline (table_row r) = true.
Proof.
  unfold readable. rewrite andb_true_iff, List.forallb_forall, <- Forall_forall.
  intros [Hname Harchs]. apply plain_name_inv in Hname as (_ & Hnl & _).
  destruct (arch_cell_facts _ Harchs) as (_ & _ & Hcn & _).
  rewrite table_row_shape.
  repeat (rewrite ?no_char_app, ?no_char_cons). rewrite Hnl, Hcn. reflexivity.
Qed.

Lemma parse_rows_table_rows results :
  Forall (fun r => readable r = true) results ->
  parse_rows (map table_row results) = Some (map row_pair results).
Proof.
  induction 1 as [|r rs Hr _ IH]; simpl; [reflexivity|].
  now rewrite (parse_row_table_row _ Hr), IH.
Qed.

Lemma parse_rendered results :
  Forall (fun r => readable r = true) results ->
  parse_table
    (PyStr.join (String newline EmptyString)
       (table_header ++ map table_row results))
  = Some (map row_pair results).
Proof.
  intros H. unfold parse_table, table_header. cbn [app].
  rewrite split_join.
  - now apply parse_rows_table_rows.
  - constructor; [reflexivity|]. constructor; [reflexivity|].
    apply Forall_map. eapply Forall_impl; [|exact H].
    apply table_row_one_line.
Qed.

Lemma comprehensive_table_sorted results :
  Forall (fun r => sortable r = true) results ->
  generate_comprehensive_pip_table results
  = ret (PyStr.join (String newline EmptyString)
           (table_header
            ++ map table_row
                 (sort (fun a b =>
                          pair_ltb
                            (map Z.opp (components (package_version a)),
                             components (python_version (result_wheel_info a)))
                            (map Z.opp (components (package_version b)),
                             components (python_version (result_wheel_info b))))
                    results))).
Proof.
  intros H. unfold generate_comprehensive_pip_table.
  rewrite (sort_by_key_ret sort_key
             (fun r => (map Z.opp (components (package_version r)),
                        components (python_version (result_wheel_info r))))).
  - now rewrite bind_ret.
  - intros r Hr. apply sort_key_ret. rewrite Forall_forall in H. now apply H.
Qed.

(** C9, amended.  Modelled reader.  For results whose filenames have no "|",
    no newline and no blank at either end, and whose architecture identifiers
    moreover are not empty and have no comma, reading the table of
    [generate_pip_table] back gives the (filename, architectures) pairs of
    the results, in order.  When moreover every version and interpreter
    version is numeric, [generate_comprehensive_pip_table] returns a table,
    and reading it back gives the pairs of a rearrangement of the results. *)
Theorem C9_table_round_trip (package version : string) (results : list result) :
  Forall (fun r => readable r = true) results ->
  parse_table (generate_pip_table package version results)
  = Some (map row_pair results)
  /\ (Forall (fun r => sortable r = true) results ->
      exists table sorted_results,
        generate_comprehensive_pip_table results = ret table
        /\ Permutation sorted_results results
        /\ parse_table table = Some (map row_pair sorted_results)).
Proof.
  intros H. split; [now apply parse_rendered|].
  intros Hs. eexists. eexists.
  split; [now apply comprehensive_table_sorted|].
  split; [apply sort_perm|].
  apply parse_rendered.
  eapply Permutation_Forall; [symmetry; apply sort_perm|exact H].
Qed.

Lemma C9_table_round_trip_witness :
  parse_table (generate_pip_table "torch" "2.8.0" example_results)
  = Some (map row_pair example_results)
  /\ (exists table sorted_results,
        generate_comprehensive_pip_table example_results = ret table
        /\ Permutation sorted_results example_results
        /\ parse_table table = Some (map row_pair sorted_results)).
Proof.
  assert (H : Forall (fun r => readable r = true) example_results)
    by (repeat constructor).
  split.
  - exact (proj1 (C9_table_round_trip "torch" "2.8.0" example_results H)).
  - apply (proj2 (C9_table_round_trip "torch" "2.8.0" example_results H)).
    repeat constructor.
Defined.

Example comprehensive_table_example :
  generate_comprehensive_pip_table example_results
  = ret (PyStr.join (String newline EmptyString)
           ["| package | architectures |";
            "|---------|---------------|";
            "| torch-2.8.0-cp39-cp39-manylinux_2_28_x86_64.whl | sm_100 |";
            "| torch-2.8.0-cp310-cp310-manylinux_2_28_x86_64.whl |  |";
            "| torch-2.7.1-cp313-cp313-manylinux_2_28_x86_64.whl | sm_75, sm_80, sm_90a |"]).
Proof. vm_compute. reflexivity. Qed.

(** C9 as stated fails, whatever the reader: a result list of one and a
    result list of two are written as the same table. *)
Lemma C9_two_result_lists_one_table :
  let one := [example_result two_row_name "3.10" "2.8.0" []] in
  let two := [example_result "a.whl" "3.10" "2.8.0" [];
              example_result "b.whl" "3.10" "2.8.0" []] in
  generate_pip_table "torch" "2.8.0" one = generate_pip_table "torch" "2.8.0" two
  /\ generate_comprehensive_pip_table one = generate_comprehensive_pip_table two
  /\ map row_pair one <> map row_pair two
  /\ parse_table (generate_pip_table "torch" "2.8.0" one)
     <> Some (map row_pair one).
Proof.
  repeat split; try (vm_compute; reflexivity); vm_compute; discriminate.
Qed.


(** * Further properties of the program *)

(** ** Stability of the sorts *)

Section Stable.
Context {A : Type} (lt : A -> A -> bool) (p : A -> bool).
Hypothesis ties : forall x y, p x = true -> p y = true -> lt x y = false.

Lemma insert_filter x l : filter p (insert lt x l) = filter p (x :: l).
Proof.
induction l as [|y t IH]; [reflexivity|].
cbn [insert]. destruct (lt y x) eqn:E; [|reflexivity].
cbn [filter] in *. rewrite IH.
destruct (p x) eqn:Hx, (p y) eqn:Hy; try reflexivity.
now rewrite (ties y x Hy Hx) in E.
Qed.

Lemma sort_filter l : filter p (sort lt l) = filter p l.
Proof.
induction l as [|x t IH]; [reflexivity|].
cbn [sort fold_right]. fold (sort lt t).
rewrite insert_filter. cbn [filter]. now rewrite IH.
Qed.

Lemma sort_reverse_filter l : filter p (sort_reverse lt l) = filter p l.
Proof.
unfold sort_reverse.
now rewrite filter_rev, sort_filter, <- filter_rev, rev_involutive.
Qed.
End Stable.

(** ** [get_wheel_download_links] on arbitrary metadata *)

Lemma call_extract_outcome name nv :
  outcome (call_extract name) = inr nv ->
  name = JStr (fst nv) /\ snd nv = interpreter_version (fst nv).
Proof.
destruct name; try discriminate. cbn [call_extract].
rewrite extract_ret, bind_ret. intros [= <-]. now split.
Qed.

Lemma collect_wheels_invariant (P : wheel_info -> Prop) :
  (forall w, target_wheel w -> P w) ->
  forall files wheels result,
    outcome (collect_wheels files wheels) = inr result ->
    Forall P wheels -> Forall P result.
Proof.
intros HP. induction files as [|f rest IH]; intros wheels result.
- cbn. now intros [= <-].
- cbn [collect_wheels]. rewrite outcome_bind.
  destruct (outcome (getitem f "packagetype")) as [e|pt]; [discriminate|].
  destruct (eq_str pt "bdist_wheel"); [|apply IH].
  rewrite outcome_bind.
  destruct (outcome (getitem f "filename")) as [e|name]; [discriminate|].
  rewrite outcome_bind.
  destruct (outcome (json_contains "manylinux_2_28_x86_64" name))
    as [e|found] eqn:Hfound; [discriminate|].
  destruct found; cbn [negb]; [|apply IH].
  rewrite outcome_bind.
  destruct (outcome (call_extract name)) as [e|nv] eqn:Hnv; [discriminate|].
  apply call_extract_outcome in Hnv as [-> Hv].
  rewrite outcome_bind.
  destruct (outcome (getitem f "url")) as [e|u]; [discriminate|].
  rewrite outcome_bind.
  destruct (outcome (getitem f "size")) as [e|sz]; [discriminate|].
  intros H Hacc. apply (IH _ _ H). apply Forall_app. split; [assumption|].
  constructor; [|constructor]. apply HP. repeat split; cbn.
  + cbn in Hfound. now injection Hfound.
  + exact Hv.
Qed.

Lemma collect_wheels_length files : forall wheels result,
  outcome (collect_wheels files wheels) = inr result ->
  (List.length result <= List.length wheels + List.length files)%nat.
Proof.
induction files as [|f rest IH]; intros wheels result.
- cbn. intros [= <-]. lia.
- cbn [collect_wheels List.length]. rewrite outcome_bind.
  destruct (outcome (getitem f "packagetype")) as [e|pt]; [discriminate|].
  destruct (eq_str pt "bdist_wheel");
    [|intros H; apply IH in H; lia].
  rewrite outcome_bind.
  destruct (outcome (getitem f "filename")) as [e|name]; [discriminate|].
  rewrite outcome_bind.
  destruct (outcome (json_contains "manylinux_2_28_x86_64" name))
    as [e|found]; [discriminate|].
  destruct found; cbn [negb]; [|intros H; apply IH in H; lia].
  rewrite outcome_bind.
  destruct (outcome (call_extract name)) as [e|nv]; [discriminate|].
  rewrite outcome_bind.
  destruct (outcome (getitem f "url")) as [e|u]; [discriminate|].
  rewrite outcome_bind.
  destruct (outcome (getitem f "size")) as [e|sz]; [discriminate|].
  intros H. apply IH in H. rewrite length_app in H. cbn in H. lia.
Qed.

Lemma wheel_links_returned fetch wheels :
  outcome (get_wheel_download_links fetch) = inr wheels ->
  wheels = []
  \/ exists package_info urls files collected,
       outcome fetch = inr package_info
       /\ outcome (getitem package_info "urls") = inr urls
       /\ outcome (iter urls) = inr files
       /\ outcome (collect_wheels files []) = inr collected
       /\ wheels = sort_wheels collected.
Proof.
unfold get_wheel_download_links. rewrite outcome_try_except.
destruct (outcome (wheel_links_body fetch)) as [e|ws] eqn:Hb.
- destruct e; cbn; try discriminate; intros [= <-]; now left.
- intros [= <-]. right. unfold wheel_links_body in Hb.
  rewrite outcome_bind in Hb.
  destruct (outcome fetch) as [e|package_info]; [discriminate|].
  rewrite outcome_bind in Hb.
  destruct (outcome (getitem package_info "urls")) as [e|urls] eqn:Hu;
    [discriminate|].
  rewrite outcome_bind in Hb.
  destruct (outcome (iter urls)) as [e|files] eqn:Hi; [discriminate|].
  rewrite outcome_bind in Hb.
  destruct (outcome (collect_wheels files [])) as [e|collected] eqn:Hc;
    [discriminate|].
  cbn in Hb. injection Hb as <-.
  now exists package_info, urls, files, collected.
Qed.

(** X1.  Whatever the index answers, every wheel that
    [get_wheel_download_links] returns has a filename containing
    "manylinux_2_28_x86_64", carries that platform tag, and has the
    interpreter version derived from its filename; the wheels ascend by that
    version string. *)
Theorem wheel_links_always_target_wheels (fetch : M json) (wheels : list wheel_info) :
  outcome (get_wheel_download_links fetch) = inr wheels ->
  Forall target_wheel wheels
  /\ StronglySorted
       (fun a b => String.leb (python_version a) (python_version b) = true)
       wheels.
Proof.
intros H. apply wheel_links_returned in H as [->|H]; [split; constructor|].
destruct H as (package_info & urls & files & collected & _ & _ & _ & Hc & ->).
split.
- eapply Permutation_Forall; [symmetry; apply sort_perm|].
  now apply (collect_wheels_invariant target_wheel (fun w H => H) files []).
- eapply StronglySorted_impl;
    [|apply (sort_sorted
               (fun a b => String.ltb (python_version a) (python_version b)))].
  + unfold not_above. intros a b E. now rewrite string_leb_ltb, E.
  + intros a b. apply string_ltb_asym.
  + intros a b c. apply string_ltb_ge_trans.
Qed.

Lemma wheel_links_always_target_wheels_witness :
  Forall target_wheel
    [example_wheel "torch-2.8.0-cp39-cp39-manylinux_2_28_x86_64.whl" "3.9"]
  /\ StronglySorted
       (fun a b => String.leb (python_version a) (python_version b) = true)
       [example_wheel "torch-2.8.0-cp39-cp39-manylinux_2_28_x86_64.whl" "3.9"].
Proof.
apply (wheel_links_always_target_wheels
         (ret (JDict [("urls",
                 JList [example_file "bdist_wheel"
                          "torch-2.8.0-cp39-cp39-manylinux_2_28_x86_64.whl"])]))).
vm_compute. reflexivity.
Defined.

Lemma collect_wheels_app good : forall more wheels,
  Forall (fun f => is_file_info f = true) good ->
  collect_wheels (good ++ more) wheels
  = collect_wheels more (wheels ++ map wheel_of (filter is_target_wheel good)).
Proof.
induction good as [|f good IH]; intros more wheels H.
- cbn. now rewrite app_nil_r.
- inversion H as [|? ? Hf Hgood]; subst.
  destruct (is_file_info_inv f Hf)
    as (items & pt & name & u & sz & -> & Hpt & Hname & Hu & Hsz).
  assert (Ht : is_target_wheel (JDict items)
               = eq_str pt "bdist_wheel"
                 && PyStr.contains "manylinux_2_28_x86_64" name).
  { unfold is_target_wheel, file_name, field. now rewrite Hpt, Hname. }
  assert (Hw : wheel_of (JDict items)
               = {| filename := name; url := u; size := sz;
                    python_version := interpreter_version name;
                    platform_tag := "manylinux_2_28_x86_64" |}).
  { unfold wheel_of, file_name, field. now rewrite Hname, Hu, Hsz. }
  cbn [app collect_wheels filter]. rewrite Ht. clear Ht.
  cbn [getitem]. rewrite Hpt, Hname, Hu, Hsz, bind_ret.
  destruct (eq_str pt "bdist_wheel"); cbn [andb]; [|now apply IH].
  rewrite bind_ret. cbn [json_contains]. rewrite bind_ret.
  destruct (PyStr.contains "manylinux_2_28_x86_64" name); cbn [negb];
    [|now apply IH].
  cbn [call_extract]. rewrite extract_ret, !bind_ret. cbn [fst snd].
  rewrite IH by assumption. cbn [map]. rewrite Hw. now rewrite <- app_assoc.
Qed.

(** X2.  Wheels with the same interpreter version stay in the order in which
    the index lists them. *)
Theorem wheel_links_keep_index_order
    (fetch : M json) (doc : list (string * json)) (files : list json)
    (version : string) :
  outcome fetch = inr (JDict doc) ->
  lookup "urls" doc = Some (JList files) ->
  Forall (fun f => is_file_info f = true) files ->
  exists wheels,
    outcome (get_wheel_download_links fetch) = inr wheels
    /\ filter (fun w => String.eqb (python_version w) version) wheels
       = filter (fun w => String.eqb (python_version w) version)
           (map wheel_of (filter is_target_wheel files)).
Proof.
intros Hf Hu Hfiles. eexists.
split; [exact (wheel_links_file_infos _ doc files Hf Hu Hfiles)|].
apply sort_filter. intros x y Hx Hy.
apply String.eqb_eq in Hx, Hy. rewrite Hx, Hy. apply string_ltb_irrefl.
Qed.

Lemma wheel_links_keep_index_order_witness :
  exists wheels,
    outcome (get_wheel_download_links (ret (JDict [("urls", JList example_urls)])))
    = inr wheels
    /\ filter (fun w => String.eqb (python_version w) "3.13") wheels
       = filter (fun w => String.eqb (python_version w) "3.13")
           (map wheel_of (filter is_target_wheel example_urls)).
Proof.
apply (wheel_links_keep_index_order _ [("urls", JList example_urls)]).
- reflexivity.
- reflexivity.
- repeat constructor.
Defined.

(** X3.  One entry without a "packagetype" key discards the wheels of all
    the others: the function prints the [KeyError] and returns the empty
    list. *)
Theorem wheel_links_one_bad_entry_discards_all
    (fetch : M json) (doc : list (string * json))
    (good rest : list json) (bad : list (string * json)) :
  outcome fetch = inr (JDict doc) ->
  lookup "urls" doc = Some (JList (good ++ JDict bad :: rest)) ->
  Forall (fun f => is_file_info f = true) good ->
  lookup "packagetype" bad = None ->
  get_wheel_download_links fetch
  = (output fetch ++ [PParseError (KeyError "packagetype")], inr []).
Proof.
intros Hf Hu Hgood Hbad.
assert (Hc : forall wheels,
          collect_wheels (good ++ JDict bad :: rest) wheels
          = raise (KeyError "packagetype")).
{ intros wheels. rewrite collect_wheels_app by assumption.
  cbn [collect_wheels getitem]. now rewrite Hbad. }
assert (Hb : wheel_links_body fetch = (output fetch, inl (KeyError "packagetype"))).
{ rewrite (M_eq (wheel_links_body fetch)). unfold wheel_links_body.
  rewrite output_bind, outcome_bind, Hf. cbn [getitem]. rewrite Hu, !bind_ret.
  cbn [iter]. rewrite bind_ret, Hc. cbn. now rewrite app_nil_r. }
rewrite (wheel_links_caught fetch (KeyError "packagetype")
           (PParseError (KeyError "packagetype"))).
- now rewrite Hb.
- now rewrite Hb.
- reflexivity.
Qed.

Lemma wheel_links_one_bad_entry_discards_all_witness :
  get_wheel_download_links
    (ret (JDict [("urls", JList (example_urls
                                 ++ JDict [("filename", JStr "x.whl")] :: []))]))
  = ([PParseError (KeyError "packagetype")], inr []).
Proof.
apply (wheel_links_one_bad_entry_discards_all
         (ret (JDict [("urls", JList (example_urls
                                      ++ JDict [("filename", JStr "x.whl")] :: []))]))
         [("urls", JList (example_urls
                          ++ JDict [("filename", JStr "x.whl")] :: []))]
         example_urls [] [("filename", JStr "x.whl")]).
- reflexivity.
- reflexivity.
- repeat constructor.
- reflexivity.
Defined.

(** ** [get_all_pytorch_2x_versions] on arbitrary metadata *)

Lemma mapM_returned {A B} (f : A -> M B) l ys :
  outcome (mapM f l) = inr ys ->
  forall x, In x l -> exists y, outcome (f x) = inr y.
Proof.
revert ys; induction l as [|a t IH]; intros ys H x Hx; [destruct Hx|].
cbn [mapM] in H. rewrite outcome_bind in H.
destruct (outcome (f a)) as [e|y] eqn:Ha; [discriminate|].
rewrite outcome_bind in H.
destruct (outcome (mapM f t)) as [e|ys'] eqn:Ht; [discriminate|].
destruct Hx as [<-|Hx]; [now exists y|]. now apply (IH ys').
Qed.

Lemma version_key_returned v k :
  outcome (version_key v) = inr k -> numeric v = true.
Proof.
intros H. destruct (numeric v) eqn:E; [reflexivity|].
rewrite (version_key_raise v E) in H. discriminate.
Qed.

Lemma versions_returned fetch versions :
  outcome (get_all_pytorch_2x_versions fetch) = inr versions ->
  versions = []
  \/ exists all_versions,
       Forall (fun v => numeric v = true) (filter is_release_2x all_versions)
       /\ versions
          = sort_reverse (fun a b => list_ltb (components a) (components b))
              (filter is_release_2x all_versions).
Proof.
unfold get_all_pytorch_2x_versions. rewrite outcome_try_except.
match goal with |- context [outcome ?b] => destruct (outcome b) as [e|vs] eqn:Hb end.
- cbn. intros [= <-]. now left.
- intros [= <-]. right.
  rewrite outcome_bind in Hb.
  destruct (outcome fetch) as [e|package_info]; [discriminate|].
  rewrite outcome_bind in Hb.
  destruct (outcome (getitem package_info "releases")) as [e|releases];
    [discriminate|].
  rewrite outcome_bind in Hb.
  destruct (outcome (keys releases)) as [e|all_versions]; [discriminate|].
  exists all_versions.
  assert (Hnum : Forall (fun v => numeric v = true)
                   (filter is_release_2x all_versions)).
  { unfold sort_by_key_reverse in Hb. rewrite outcome_bind in Hb.
    destruct (outcome (mapM version_key (filter is_release_2x all_versions)))
      as [e|ks] eqn:Hk; [discriminate|].
    apply Forall_forall. intros v Hv.
    destruct (mapM_returned _ _ _ Hk v Hv) as [k Hkv].
    now apply version_key_returned in Hkv. }
  split; [exact Hnum|].
  rewrite (sort_by_key_reverse_ret _ components) in Hb.
  + cbn in Hb. now injection Hb.
  + intros v Hv. apply version_key_ret. rewrite Forall_forall in Hnum. now apply Hnum.
Qed.

(** X4.  [get_all_pytorch_2x_versions] never raises: whatever the fetch does
    it returns a list, and when the fetch raises it prints the error and
    returns the empty list. *)
Theorem versions_never_raises (fetch : M json) :
  (exists versions, outcome (get_all_pytorch_2x_versions fetch) = inr versions)
  /\ (forall e,
        outcome fetch = inl e ->
        get_all_pytorch_2x_versions fetch
        = (output fetch ++ [PVersionsError e], inr [])).
Proof.
split.
- unfold get_all_pytorch_2x_versions. rewrite outcome_try_except.
  match goal with |- context [outcome ?b] => destruct (outcome b) end;
    now eexists.
- intros e He. rewrite (M_eq (get_all_pytorch_2x_versions fetch)).
  unfold get_all_pytorch_2x_versions.
  rewrite output_try_except, outcome_try_except, outcome_bind, output_bind, He.
  reflexivity.
Qed.

(** X5.  Whatever the index answers, every version that
    [get_all_pytorch_2x_versions] returns starts with "2.", contains none of
    the markers, and has integer components only; the versions descend. *)
Theorem versions_always_numeric_releases (fetch : M json) (versions : list string) :
  outcome (get_all_pytorch_2x_versions fetch) = inr versions ->
  Forall (fun v => is_release_2x v = true /\ numeric v = true) versions
  /\ StronglySorted version_ge versions.
Proof.
intros H. apply versions_returned in H as [->|(all_versions & Hnum & ->)];
  [split; constructor|].
split.
- eapply Permutation_Forall; [symmetry; apply sort_reverse_perm|].
  rewrite Forall_forall in *. intros v Hv. split; [|now apply Hnum].
  now apply filter_In in Hv.
- apply (sort_reverse_sorted
           (fun a b => list_ltb (components a) (components b))).
  + intros a b. apply list_ltb_asym.
  + intros a b c. apply list_ltb_ge_trans.
Qed.

Lemma versions_always_numeric_releases_witness :
  Forall (fun v => is_release_2x v = true /\ numeric v = true) ["2.1.0"; "2.0.0"]
  /\ StronglySorted version_ge ["2.1.0"; "2.0.0"].
Proof.
apply (versions_always_numeric_releases
         (ret (JDict [("releases", JDict example_releases)]))).
vm_compute. reflexivity.
Defined.

(** ** More on [get_cuda_architectures] *)

Lemma cuda_architectures_first_tier w stdout :
  outcome (libtorch_exists w) = inr true ->
  outcome (cuobjdump w) = inr stdout ->
  lines_with "arch" stdout <> [] ->
  get_cuda_architectures w
  = (output (libtorch_exists w) ++ [PRunning] ++ output (cuobjdump w)
       ++ [POutputLength (String.length stdout); PFoundArchitectures]
       ++ map PArch (sorted (set (lines_with "arch" stdout))),
     inr (sorted (set (lines_with "arch" stdout)))).
Proof.
intros He Hc Ha. rewrite (M_eq (get_cuda_architectures w)).
unfold get_cuda_architectures.
destruct (lines_with "arch" stdout) as [|l t] eqn:E; [congruence|].
repeat (rewrite ?output_bind, ?outcome_bind, ?output_try_except,
          ?outcome_try_except, ?He, ?Hc, ?E, ?output_print_each;
        cbn [outcome output print ret raise fst snd negb nonempty]).
now rewrite app_nil_r.
Qed.

Lemma In_sorted_set x l : In x (sorted (set l)) <-> In x l.
Proof.
unfold set. rewrite <- (nodup_In string_dec l x).
split; apply Permutation_in; [|symmetry]; apply sorted_perm.
Qed.

Lemma In_lines_with marker stdout x :
  In x (lines_with marker stdout) <->
  exists line,
    In line (PyStr.split newline stdout)
    /\ PyStr.contains marker (PyStr.lower line) = true
    /\ x = PyStr.strip line.
Proof.
unfold lines_with. rewrite in_map_iff. split.
- intros (line & <- & H). apply filter_In in H as [H1 H2]. now exists line.
- intros (line & H1 & H2 & ->). exists line. split; [reflexivity|].
  apply filter_In. now split.
Qed.

(** X6.  As soon as one line of the cuobjdump output has "arch" in any case,
    the function returns exactly the stripped lines that have it, without
    duplicates and in ascending order; a line that only has "sm_" is not
    returned. *)
Theorem cuda_architectures_arch_lines_win (w : inspector) (stdout : string) :
  outcome (libtorch_exists w) = inr true ->
  outcome (cuobjdump w) = inr stdout ->
  (exists line, In line (PyStr.split newline stdout)
                /\ PyStr.contains "arch" (PyStr.lower line) = true) ->
  exists archs,
    outcome (get_cuda_architectures w) = inr archs
    /\ NoDup archs
    /\ StronglySorted (fun a b => String.leb a b = true) archs
    /\ (forall x, In x archs <->
          exists line,
            In line (PyStr.split newline stdout)
            /\ PyStr.contains "arch" (PyStr.lower line) = true
            /\ x = PyStr.strip line).
Proof.
intros He Hc (line & Hin & Harch).
assert (Ha : lines_with "arch" stdout <> []).
{ intros E. assert (H : In (PyStr.strip line) (lines_with "arch" stdout)).
  { apply In_lines_with. now exists line. }
  rewrite E in H. destruct H. }
exists (sorted (set (lines_with "arch" stdout))).
split; [now rewrite (cuda_architectures_first_tier w stdout He Hc Ha)|].
split; [apply sorted_set_nodup|].
split; [apply sorted_ascending|].
intros x. rewrite In_sorted_set. apply In_lines_with.
Qed.

Lemma cuda_architectures_arch_lines_win_witness :
  exists archs,
    outcome (get_cuda_architectures (example_inspector mixed_output)) = inr archs
    /\ NoDup archs
    /\ StronglySorted (fun a b => String.leb a b = true) archs
    /\ (forall x, In x archs <->
          exists line,
            In line (PyStr.split newline mixed_output)
            /\ PyStr.contains "arch" (PyStr.lower line) = true
            /\ x = PyStr.strip line).
Proof.
apply (cuda_architectures_arch_lines_win (example_inspector mixed_output)).
- reflexivity.
- reflexivity.
- exists "  Arch = sm_90". split; [vm_compute; tauto|reflexivity].
Defined.

Example mixed_output_example :
  outcome (get_cuda_architectures (example_inspector mixed_output))
  = inr ["ARCH = sm_80"; "Arch = sm_90"].
Proof. vm_compute. reflexivity. Qed.

(** X7.  Once [libtorch_path.exists()] has answered, the function returns a
    list whatever cuobjdump does; it propagates only an exception of the
    existence test itself. *)
Theorem cuda_architectures_never_raises_after_exists (w : inspector) :
  (forall found, outcome (libtorch_exists w) = inr found ->
                 exists archs, outcome (get_cuda_architectures w) = inr archs)
  /\ (forall e, outcome (libtorch_exists w) = inl e ->
                outcome (get_cuda_architectures w) = inl e).
Proof.
split.
- intros [|] He.
  + destruct (outcome (cuobjdump w)) as [e|stdout] eqn:Hc.
    * exists []. now apply (cuda_architectures_run_failed w e).
    * destruct (lines_with "arch" stdout) as [|a] eqn:Ha.
      -- destruct (lines_with "sm_" stdout) as [|s ss] eqn:Hs.
         ++ exists []. now apply (cuda_architectures_third_tier w stdout).
         ++ eexists.
            rewrite (cuda_architectures_second_tier w stdout); try assumption;
              [reflexivity|now rewrite Hs].
      -- eexists.
         rewrite (cuda_architectures_first_tier w stdout); try assumption;
           [reflexivity|now rewrite Ha].
  + exists []. now apply cuda_architectures_lib_missing.
- intros e He. unfold get_cuda_architectures. now rewrite outcome_bind, He.
Qed.

Lemma cuda_architectures_never_raises_after_exists_witness :
  exists archs,
    outcome (get_cuda_architectures
               {| libtorch_exists := ret true;
                  cuobjdump := raise (CalledProcessError "" "not an ELF file") |})
    = inr archs.
Proof.
apply (proj1 (cuda_architectures_never_raises_after_exists
                {| libtorch_exists := ret true;
                   cuobjdump := raise (CalledProcessError "" "not an ELF file") |})
         true).
reflexivity.
Defined.

(** X8.  When the library is missing cuobjdump is not run: the function
    prints the warning only and returns the empty list. *)
Theorem cuda_architectures_missing_library (w : inspector) :
  outcome (libtorch_exists w) = inr false ->
  get_cuda_architectures w = (output (libtorch_exists w) ++ [PLibNotFound], inr []).
Proof.
intros He. rewrite (M_eq (get_cuda_architectures w)).
unfold get_cuda_architectures.
repeat (rewrite ?output_bind, ?outcome_bind, ?He;
        cbn [outcome output print ret raise fst snd negb nonempty]).
now rewrite app_nil_r.
Qed.

Lemma cuda_architectures_missing_library_witness :
  get_cuda_architectures
    {| libtorch_exists := ret false; cuobjdump := ret "arch = sm_80" |}
  = ([PLibNotFound], inr []).
Proof.
apply (cuda_architectures_missing_library
         {| libtorch_exists := ret false; cuobjdump := ret "arch = sm_80" |}).
reflexivity.
Defined.

(** X9.  A failed cuobjdump run gives the empty list, and the error, the
    captured stdout and the captured stderr are printed. *)
Theorem cuda_architectures_failed_run (w : inspector) (out err : string) :
  outcome (libtorch_exists w) = inr true ->
  outcome (cuobjdump w) = inl (CalledProcessError out err) ->
  get_cuda_architectures w
  = (output (libtorch_exists w) ++ [PRunning] ++ output (cuobjdump w)
       ++ [PCuobjdumpError (CalledProcessError out err); PStdout out; PStderr err],
     inr []).
Proof.
intros He Hc. rewrite (M_eq (get_cuda_architectures w)).
unfold get_cuda_architectures.
repeat (rewrite ?output_bind, ?outcome_bind, ?output_try_except,
          ?outcome_try_except, ?He, ?Hc;
        cbn [outcome output print ret raise fst snd negb nonempty]).
now rewrite <- !app_assoc.
Qed.

Lemma cuda_architectures_failed_run_witness :
  get_cuda_architectures
    {| libtorch_exists := ret true;
       cuobjdump := raise (CalledProcessError "" "not an ELF file") |}
  = ([PRunning; PCuobjdumpError (CalledProcessError "" "not an ELF file");
      PStdout ""; PStderr "not an ELF file"], inr []).
Proof.
apply (cuda_architectures_failed_run
         {| libtorch_exists := ret true;
            cuobjdump := raise (CalledProcessError "" "not an ELF file") |}
         "" "not an ELF file"); reflexivity.
Defined.

(** ** The sorted set does not depend on the set's order *)

Lemma strictly_ascending l :
  NoDup l ->
  StronglySorted (not_above String.ltb) l ->
  StronglySorted (fun a b => String.ltb a b = true) l.
Proof.
intros Hnd Hs. induction Hs as [|a l Hs IH Ha]; [constructor|].
inversion Hnd as [|? ? Hnotin Hnd']; subst.
constructor; [now apply IH|].
rewrite Forall_forall in *. intros b Hb.
destruct (String.ltb a b) eqn:E; [reflexivity|]. exfalso. apply Hnotin.
now rewrite (string_ltb_antisym a b E (Ha b Hb)).
Qed.

Lemma strictly_ascending_unique l : forall l',
  StronglySorted (fun a b => String.ltb a b = true) l ->
  StronglySorted (fun a b => String.ltb a b = true) l' ->
  (forall x, In x l <-> In x l') ->
  l = l'.
Proof.
induction l as [|a l IH]; intros [|a' l'] Hs Hs' Hin.
- reflexivity.
- exfalso. apply (proj2 (Hin a')). now left.
- exfalso. apply (proj1 (Hin a)). now left.
- inversion Hs as [|? ? Hsl Ha]; inversion Hs' as [|? ? Hsl' Ha']; subst.
  rewrite Forall_forall in Ha, Ha'.
  assert (a = a').
  { destruct (proj1 (Hin a) (or_introl eq_refl)) as [E|Hal']; [now symmetry|].
    destruct (proj2 (Hin a') (or_introl eq_refl)) as [E|Ha'l]; [assumption|].
    pose proof (Ha' a Hal') as H1. pose proof (Ha a' Ha'l) as H2.
    now rewrite (string_ltb_asym _ _ H1) in H2. }
  subst a'. f_equal. apply IH; try assumption.
  intros x. split; intros Hx.
  + destruct (proj1 (Hin x) (or_intror Hx)) as [<-|H]; [|assumption].
    pose proof (Ha a Hx) as H. now rewrite string_ltb_irrefl in H.
  + destruct (proj2 (Hin x) (or_intror Hx)) as [<-|H]; [|assumption].
    pose proof (Ha' a Hx) as H. now rewrite string_ltb_irrefl in H.
Qed.

Lemma sort_set_order l l' :
  NoDup l -> Permutation l' l -> sorted l' = sorted l.
Proof.
intros Hnd Hp. apply strictly_ascending_unique.
- apply strictly_ascending.
  + eapply Permutation_NoDup; [|exact Hnd].
    symmetry. now rewrite sorted_perm.
  + apply sort_sorted; [apply string_ltb_asym|apply string_ltb_ge_trans].
- apply strictly_ascending.
  + eapply Permutation_NoDup; [symmetry; apply sorted_perm|exact Hnd].
  + apply sort_sorted; [apply string_ltb_asym|apply string_ltb_ge_trans].
- intros x. split; intros H.
  + eapply Permutation_in; [symmetry; apply sorted_perm|].
    eapply Permutation_in; [exact Hp|].
    eapply Permutation_in; [apply sorted_perm|exact H].
  + eapply Permutation_in; [symmetry; apply sorted_perm|].
    eapply Permutation_in; [symmetry; exact Hp|].
    eapply Permutation_in; [apply sorted_perm|exact H].
Qed.

(** X10.  The architecture list [sorted(set(clean_archs))] is the same in
    whatever order the set hands its elements to [sorted]. *)
Theorem architectures_independent_of_set_order (clean_archs elements : list string) :
  Permutation elements (set clean_archs) ->
  sorted elements = sorted (set clean_archs).
Proof. apply sort_set_order. apply NoDup_nodup. Qed.

Lemma architectures_independent_of_set_order_witness :
  sorted ["sm_90"; "sm_80"; "sm_100"] = sorted (set ["sm_80"; "sm_100"; "sm_80"; "sm_90"]).
Proof.
apply architectures_independent_of_set_order.
apply (Permutation_rev ["sm_90"; "sm_80"; "sm_100"]).
Defined.

(** ** Architecture tokens survive the table *)

Lemma token_char_plain c :
  token_char c = true ->
  PyStr.is_space c = false
  /\ Ascii.eqb c "|" = false /\ Ascii.eqb c "," = false
  /\ Ascii.eqb c newline = false.
Proof.
destruct c as [[] [] [] [] [] [] [] []]; vm_compute; intros H;
  try discriminate H; repeat split.
Qed.

Lemma lower_not_digit c : PyStr.is_lower_az c = true -> PyStr.is_digit c = false.
Proof.
destruct c as [[] [] [] [] [] [] [] []]; vm_compute; intros H;
  try discriminate H; reflexivity.
Qed.

Lemma forallb_app p a b :
  PyStr.forallb p (a ++ b)%string = PyStr.forallb p a && PyStr.forallb p b.
Proof.
induction a as [|x a IH]; simpl; [reflexivity|]. now rewrite IH, andb_assoc.
Qed.

Lemma forallb_impl (p q : ascii -> bool) s :
  (forall c, p c = true -> q c = true) ->
  PyStr.forallb p s = true -> PyStr.forallb q s = true.
Proof.
intros H. induction s as [|x s IH]; simpl; [reflexivity|].
rewrite !andb_true_iff. intros [Hx Hs]. split; [now apply H|now apply IH].
Qed.

Lemma arch_token_chars t : arch_token t -> PyStr.forallb token_char t = true.
Proof.
intros (ds & ls & -> & _ & Hds & Hls).
rewrite !forallb_app, andb_true_iff. split; [reflexivity|].
rewrite andb_true_iff. split.
- eapply forallb_impl; [|exact Hds]. unfold token_char. intros c ->. reflexivity.
- eapply forallb_impl; [|exact Hls]. unfold token_char. intros c ->.
  now rewrite orb_true_r.
Qed.

Lemma strip_no_space s :
  PyStr.forallb (fun c => negb (PyStr.is_space c)) s = true -> PyStr.strip s = s.
Proof.
intros H. unfold PyStr.strip.
assert (Hl : PyStr.lstrip s = s).
{ destruct s as [|c r]; [reflexivity|]. simpl in *.
  apply andb_true_iff in H as [Hc _]. apply negb_true_iff in Hc.
  now rewrite Hc. }
rewrite Hl. clear Hl. induction s as [|c r IH]; [reflexivity|].
simpl in *. apply andb_true_iff in H as [Hc Hr]. apply negb_true_iff in Hc.
rewrite (IH Hr), Hc. now destruct r.
Qed.

Lemma arch_token_plain t : arch_token t -> plain_token t = true.
Proof.
intros Ht. pose proof (arch_token_chars t Ht) as Hc.
assert (Hno : forall c,
          (forall x, token_char x = true -> Ascii.eqb x c = false) ->
          no_char c t = true).
{ intros c H. unfold no_char. eapply forallb_impl; [|exact Hc].
  intros x Hx. now rewrite (H x Hx). }
unfold plain_token, plain_name.
rewrite !Hno by (intros x Hx; now apply token_char_plain in Hx).
rewrite strip_no_space, String.eqb_refl.
- destruct Ht as (ds & ls & -> & _). reflexivity.
- eapply forallb_impl; [|exact Hc]. intros x Hx.
  apply token_char_plain in Hx as [-> _]. reflexivity.
Qed.

(** X11.  The table written from the results of [analyze_all_wheels] can
    always be read back when the filenames of the wheels have no "|", no
    newline and no blank at either end: the architecture lists never stand in
    the way.  This holds of whatever [analyze_all_wheels] returns, and it
    returns results when the temporary directory of every wheel is made and
    deleted without error. *)
Theorem analysis_results_round_trip
    (world : nat -> wheel_world) (wheels : list wheel_info)
    (package version : string) :
  Forall (fun w => plain_name (filename w) = true) wheels ->
  (forall results,
     outcome (analyze_all_wheels world wheels version) = inr results ->
     parse_table (generate_pip_table package version results)
     = Some (map row_pair results))
  /\ (temp_dirs_ok world (List.length wheels) ->
      exists results,
        outcome (analyze_all_wheels world wheels version) = inr results).
Proof.
intros H. split;
  [|intros Hok; eexists; now apply analyze_all_wheels_outcome].
intros results Hres. apply analyze_all_wheels_returned in Hres. subst results.
apply parse_rendered. apply Forall_map, Forall_forall. intros [i w] Hiw.
unfold readable. apply andb_true_iff. split.
- cbn. rewrite Forall_forall in H. apply H.
  rewrite <- (map_snd_enumerate wheels 1). now apply (in_map snd) in Hiw.
- apply List.forallb_forall. intros t Ht. apply arch_token_plain.
  destruct (wheel_result_architectures (world (fst (i, w))) version (snd (i, w)))
    as (_ & _ & Htok).
  rewrite Forall_forall in Htok. now apply Htok.
Qed.

Lemma analysis_results_round_trip_witness :
  exists results,
    outcome (analyze_all_wheels
               (fun i => if Nat.eqb i 2 then failing_download
                         else example_world mixed_output)
               [example_wheel
                  "torch-2.8.0-cp312-cp312-manylinux_2_28_x86_64.whl" "3.12";
                example_wheel
                  "torch-2.8.0-cp313-cp313-manylinux_2_28_x86_64.whl" "3.13";
                example_wheel
                  "torch-2.8.0-cp39-cp39-manylinux_2_28_x86_64.whl" "3.9"]
               "2.8.0")
    = inr results
    /\ map row_pair results
       = [("torch-2.8.0-cp312-cp312-manylinux_2_28_x86_64.whl",
           ["sm_80"; "sm_90"]);
          ("torch-2.8.0-cp313-cp313-manylinux_2_28_x86_64.whl", []);
          ("torch-2.8.0-cp39-cp39-manylinux_2_28_x86_64.whl",
           ["sm_80"; "sm_90"])]
    /\ parse_table (generate_pip_table "torch" "2.8.0" results)
       = Some (map row_pair results).
Proof.
eexists. split; [vm_compute; reflexivity|]. split; [reflexivity|].
apply (analysis_results_round_trip
         (fun i => if Nat.eqb i 2 then failing_download
                   else example_world mixed_output)
         [example_wheel
            "torch-2.8.0-cp312-cp312-manylinux_2_28_x86_64.whl" "3.12";
          example_wheel
            "torch-2.8.0-cp313-cp313-manylinux_2_28_x86_64.whl" "3.13";
          example_wheel
            "torch-2.8.0-cp39-cp39-manylinux_2_28_x86_64.whl" "3.9"]
         "torch" "2.8.0").
- repeat constructor.
- vm_compute. reflexivity.
Defined.

(** ** The recorded architecture lists are canonical *)

Lemma take_while_app p a b :
  PyStr.forallb p a = true ->
  PyStr.take_while p (a ++ b) = (a ++ PyStr.take_while p b)%string.
Proof.
induction a as [|x a IH]; simpl; [reflexivity|].
rewrite andb_true_iff. intros [-> Ha]. now rewrite IH.
Qed.

Lemma drop_while_app p a b :
  PyStr.forallb p a = true ->
  PyStr.drop_while p (a ++ b) = PyStr.drop_while p b.
Proof.
induction a as [|x a IH]; simpl; [reflexivity|].
rewrite andb_true_iff. intros [-> Ha]. now rewrite IH.
Qed.

Lemma take_while_all p s :
  PyStr.forallb p s = true -> PyStr.take_while p s = s.
Proof.
induction s as [|x s IH]; simpl; [reflexivity|].
rewrite andb_true_iff. intros [-> Hs]. now rewrite IH.
Qed.

Lemma letters_have_no_leading_digit ls :
  PyStr.forallb PyStr.is_lower_az ls = true ->
  PyStr.take_while PyStr.is_digit ls = EmptyString
  /\ PyStr.drop_while PyStr.is_digit ls = ls.
Proof.
destruct ls as [|c r]; [now split|]. simpl.
rewrite andb_true_iff. intros [Hc _].
now rewrite (lower_not_digit c Hc).
Qed.

Lemma re_search_sm_token_fixed t :
  arch_token t ->
  PyStr.contains "sm_" t = true /\ PyStr.re_search_sm t = Some t.
Proof.
intros (ds & ls & -> & Hne & Hds & Hls).
destruct (letters_have_no_leading_digit ls Hls) as [Htake Hdrop].
assert (Hm : PyStr.re_match_sm ("sm_" ++ ds ++ ls) = Some ("sm_" ++ ds ++ ls)%string).
{ unfold PyStr.re_match_sm. cbn [append PyStr.startswith PyStr.drop].
  change (Ascii.eqb "s" "s") with true. change (Ascii.eqb "m" "m") with true.
  change (Ascii.eqb "_" "_") with true. cbn [andb]. cbv zeta.
  rewrite take_while_app, drop_while_app, Htake, Hdrop, append_nil_r by assumption.
  rewrite take_while_all by assumption.
  destruct ds; [congruence|reflexivity]. }
split.
- cbn [append PyStr.contains PyStr.startswith].
  change (Ascii.eqb "s" "s") with true. change (Ascii.eqb "m" "m") with true.
  change (Ascii.eqb "_" "_") with true. reflexivity.
- change ("sm_" ++ ds ++ ls)%string with (String "s" ("m_" ++ ds ++ ls)) at 1.
  cbn [PyStr.re_search_sm].
  change (String "s" ("m_" ++ ds ++ ls)) with ("sm_" ++ ds ++ ls)%string.
  now rewrite Hm.
Qed.

Lemma clean_fixed l : Forall arch_token l -> clean l = l.
Proof.
induction 1 as [|t l Ht _ IH]; [reflexivity|].
cbn [clean]. destruct (re_search_sm_token_fixed t Ht) as [-> ->].
now rewrite IH.
Qed.

Lemma sort_fixed {A} (lt : A -> A -> bool) l :
  StronglySorted (not_above lt) l -> sort lt l = l.
Proof.
induction 1 as [|a l Hs IH Ha]; [reflexivity|].
cbn [sort fold_right]. fold (sort lt l). rewrite IH.
destruct l as [|y t]; [reflexivity|]. cbn [insert].
inversion Ha as [|? ? Hy _]; subst. unfold not_above in Hy. now rewrite Hy.
Qed.

Lemma sorted_set_fixed l :
  NoDup l -> StronglySorted (not_above String.ltb) l -> sorted (set l) = l.
Proof.
intros Hnd Hs. unfold set. rewrite (nodup_fixed_point string_dec Hnd).
now apply sort_fixed.
Qed.

(** X12.  The architecture list of every result is canonical: cleaning,
    deduplicating and sorting it again gives the same list.  This holds of
    whatever [analyze_all_wheels] returns, and it returns results when the
    temporary directory of every wheel is made and deleted without error. *)
Theorem analysis_results_canonical
    (world : nat -> wheel_world) (wheels : list wheel_info) (version : string) :
  (forall results,
     outcome (analyze_all_wheels world wheels version) = inr results ->
     Forall (fun r => sorted (set (clean (cuda_architectures r)))
                      = cuda_architectures r) results)
  /\ (temp_dirs_ok world (List.length wheels) ->
      exists results,
        outcome (analyze_all_wheels world wheels version) = inr results).
Proof.
split; [|intros Hok; eexists; now apply analyze_all_wheels_outcome].
intros results Hres. apply analyze_all_wheels_returned in Hres. subst results.
apply Forall_map, Forall_forall. intros iw _.
unfold wheel_result; cbn [cuda_architectures].
destruct (outcome (process_wheel (world (fst iw)))) as [e|archs];
  [reflexivity|].
rewrite clean_fixed by apply sorted_set_Forall, clean_tokens.
apply sorted_set_fixed; [apply sorted_set_nodup|].
apply sort_sorted; [apply string_ltb_asym|apply string_ltb_ge_trans].
Qed.

Lemma analysis_results_canonical_witness :
  exists results,
    outcome (analyze_all_wheels
               (fun i => if Nat.eqb i 1 then failing_download
                         else example_world mixed_output)
               [example_wheel
                  "torch-2.8.0-cp312-cp312-manylinux_2_28_x86_64.whl" "3.12";
                example_wheel
                  "torch-2.8.0-cp39-cp39-manylinux_2_28_x86_64.whl" "3.9"]
               "2.8.0")
    = inr results
    /\ map cuda_architectures results = [[]; ["sm_80"; "sm_90"]]
    /\ Forall (fun r => sorted (set (clean (cuda_architectures r)))
                        = cuda_architectures r) results.
Proof.
eexists. split; [vm_compute; reflexivity|]. split; [reflexivity|].
apply (analysis_results_canonical
         (fun i => if Nat.eqb i 1 then failing_download
                   else example_world mixed_output)
         [example_wheel
            "torch-2.8.0-cp312-cp312-manylinux_2_28_x86_64.whl" "3.12";
          example_wheel
            "torch-2.8.0-cp39-cp39-manylinux_2_28_x86_64.whl" "3.9"]
         "2.8.0").
vm_compute. reflexivity.
Defined.

(** ** [int] on plain decimal numerals *)

Lemma digit_or_underscore_all s :
  PyStr.forallb PyStr.is_digit s = true ->
  PyStr.forallb (fun c => PyStr.is_digit c || PyStr.is_underscore c) s = true.
Proof. apply forallb_impl. intros c ->. reflexivity. Qed.

Lemma drop_while_all p s :
  PyStr.forallb p s = true -> PyStr.drop_while p s = EmptyString.
Proof.
induction s as [|x s IH]; simpl; [reflexivity|].
rewrite andb_true_iff. intros [-> Hs]. now apply IH.
Qed.

Lemma numeral_digits_plain s : forall prev,
  PyStr.forallb PyStr.is_digit s = true -> (prev = true \/ s <> EmptyString) ->
  exists ds,
    PyStr.numeral_digits prev s = Some ds
    /\ List.length ds = String.length s.
Proof.
induction s as [|c r IH]; intros prev H Hp.
- destruct Hp as [->|Hp]; [|congruence]. now exists [].
- simpl in H. apply andb_true_iff in H as [Hc Hr].
  cbn [PyStr.numeral_digits]. rewrite Hc.
  destruct (IH true Hr (or_introl eq_refl)) as (ds & -> & Hlen).
  eexists. split; [reflexivity|]. simpl. now rewrite Hlen.
Qed.

Lemma int_plain_numeral d r :
  PyStr.is_digit d = true ->
  PyStr.forallb PyStr.is_digit r = true ->
  (String.length (String d r) <= PyStr.int_max_str_digits)%nat ->
  is_int (String d r) = true.
Proof.
intros Hd Hr Hlen.
assert (Hall : PyStr.forallb PyStr.is_digit (String d r) = true).
{ simpl. now rewrite Hd, Hr. }
assert (Hhead : PyStr.int (String d r)
                = let s2 := String d r in
                  let body := PyStr.take_while
                                (fun c => PyStr.is_digit c || PyStr.is_underscore c) s2 in
                  let rest := PyStr.drop_while
                                (fun c => PyStr.is_digit c || PyStr.is_underscore c) s2 in
                  if PyStr.forallb PyStr.is_int_space rest then
                    match PyStr.numeral_digits false body with
                    | Some ds =>
                        if (List.length ds <=? PyStr.int_max_str_digits)%nat
                        then Some (PyStr.digits_value ds)
                        else None
                    | None => None
                    end
                  else None).
{ clear -Hd. destruct d as [[] [] [] [] [] [] [] []];
    try discriminate Hd; reflexivity. }
unfold is_int. rewrite Hhead. cbv zeta.
rewrite (take_while_all _ _ (digit_or_underscore_all _ Hall)).
rewrite (drop_while_all _ _ (digit_or_underscore_all _ Hall)).
cbn [PyStr.forallb].
destruct (numeral_digits_plain (String d r) false Hall) as (ds & -> & Hds);
  [right; discriminate|].
rewrite Hds. apply Nat.leb_le in Hlen. now rewrite Hlen.
Qed.

Lemma digit_not_dot c : PyStr.is_digit c = true -> Ascii.eqb c "." = false.
Proof.
destruct c as [[] [] [] [] [] [] [] []]; vm_compute; intros H;
  try discriminate H; reflexivity.
Qed.

Lemma digits_no_dot s :
  PyStr.forallb PyStr.is_digit s = true -> no_char "." s = true.
Proof.
unfold no_char. apply forallb_impl. intros c Hc.
now rewrite (digit_not_dot c Hc).
Qed.

Lemma cpython_tagged_version name :
  cpython_tagged name ->
  exists M NN,
    interpreter_version name = (String M EmptyString ++ String "." NN)%string
    /\ PyStr.is_digit M = true
    /\ NN <> EmptyString
    /\ PyStr.forallb PyStr.is_digit NN = true
    /\ (String.length NN <= PyStr.int_max_str_digits)%nat.
Proof.
intros (p0 & p1 & M & NN & tl & Hs & HM & Hne & HNN & Hlen).
exists M, NN. repeat split; try assumption.
unfold interpreter_version. rewrite (extract_third_part _ _ _ _ _ Hs).
cbn. destruct NN; [congruence|reflexivity].
Qed.

Lemma cpython_tagged_numeric name :
  cpython_tagged name -> numeric (interpreter_version name) = true.
Proof.
intros H.
destruct (cpython_tagged_version name H) as (M & NN & -> & HM & Hne & HNN & Hlen).
unfold numeric.
rewrite split_app_sep by (unfold no_char; simpl; now rewrite (digit_not_dot M HM)).
rewrite split_no_sep by now apply digits_no_dot.
cbn [List.forallb].
rewrite (int_plain_numeral M EmptyString HM eq_refl)
  by (unfold PyStr.int_max_str_digits; simpl; lia).
destruct NN as [|d r]; [congruence|].
simpl in HNN. apply andb_true_iff in HNN as [Hd Hr].
now rewrite (int_plain_numeral d r Hd Hr Hlen).
Qed.

(** X13.  For a filename whose third part is "cp" followed by two or more
    decimal digits the derived interpreter version is the first digit, a dot
    and the other digits, and [int] accepts both of its components, so the key
    of the table sort exists for it; "unknown" has no such key. *)
Theorem cpython_tag_gives_numeric_version (name : string) :
  cpython_tagged name ->
  (exists M NN,
     interpreter_version name = (String M EmptyString ++ String "." NN)%string
     /\ PyStr.is_digit M = true /\ PyStr.forallb PyStr.is_digit NN = true)
  /\ numeric (interpreter_version name) = true
  /\ numeric "unknown" = false.
Proof.
intros H. split; [|split; [now apply cpython_tagged_numeric|reflexivity]].
destruct (cpython_tagged_version name H) as (M & NN & E & HM & _ & HNN & _).
now exists M, NN.
Qed.

Lemma cpython_tag_gives_numeric_version_witness :
  (exists M NN,
     interpreter_version "torch-2.8.0-cp313-cp313-manylinux_2_28_x86_64.whl"
     = (String M EmptyString ++ String "." NN)%string
     /\ PyStr.is_digit M = true /\ PyStr.forallb PyStr.is_digit NN = true)
  /\ numeric (interpreter_version "torch-2.8.0-cp313-cp313-manylinux_2_28_x86_64.whl")
     = true
  /\ numeric "unknown" = false.
Proof.
apply cpython_tag_gives_numeric_version.
exists "torch", "2.8.0", "3"%char, "13", ["cp313"; "manylinux_2_28_x86_64.whl"].
repeat split; try reflexivity; try discriminate.
unfold PyStr.int_max_str_digits. simpl. lia.
Defined.

(** ** The order of the comprehensive table *)

Lemma list_compare_eq a : forall b, list_compare a b = Eq -> a = b.
Proof.
induction a as [|x a IH]; intros [|y b]; simpl; try discriminate;
  [reflexivity|].
destruct (Z.compare_spec x y) as [Hxy|Hxy|Hxy]; try discriminate.
intros Hab. subst. f_equal. now apply IH.
Qed.

Lemma list_compare_opp a : forall b,
  List.length a = List.length b ->
  list_compare (map Z.opp a) (map Z.opp b) = list_compare b a.
Proof.
induction a as [|x a IH]; intros [|y b] H; simpl in *; try discriminate;
  [reflexivity|].
rewrite IH by lia. now rewrite (Z.compare_opp x y).
Qed.

Lemma list_compare_gt_trans a b c :
  list_compare a b = Gt -> list_compare b c = Gt -> list_compare a c = Gt.
Proof.
intros Hab Hbc.
assert (Hge : list_compare a c <> Lt).
{ apply (list_compare_ge_trans a b c); congruence. }
destruct (list_compare a c) eqn:E; [|congruence|reflexivity].
apply list_compare_eq in E. subst c.
rewrite (list_compare_antisym a b), Hab in Hbc. discriminate.
Qed.

Lemma pair_ltb_asym a b : pair_ltb a b = true -> pair_ltb b a = false.
Proof.
unfold pair_ltb. rewrite (list_compare_antisym (fst a) (fst b)).
destruct (list_compare (fst a) (fst b)); simpl; try congruence.
apply list_ltb_asym.
Qed.

Lemma pair_ltb_ge_trans a b c :
  pair_ltb a b = false -> pair_ltb b c = false -> pair_ltb a c = false.
Proof.
unfold pair_ltb.
destruct (list_compare (fst a) (fst b)) eqn:Hab; try discriminate;
  destruct (list_compare (fst b) (fst c)) eqn:Hbc; try discriminate.
- apply list_compare_eq in Hab, Hbc. rewrite Hab, Hbc, list_compare_refl.
  apply list_ltb_ge_trans.
- apply list_compare_eq in Hab. rewrite Hab, Hbc. reflexivity.
- apply list_compare_eq in Hbc. rewrite <- Hbc, Hab. reflexivity.
- now rewrite (list_compare_gt_trans _ _ _ Hab Hbc).
Qed.

Lemma StronglySorted_impl_In {A} (R R' : A -> A -> Prop) l :
  (forall a b, In a l -> In b l -> R a b -> R' a b) ->
  StronglySorted R l -> StronglySorted R' l.
Proof.
intros H Hs. induction Hs as [|a l Hs IH Ha]; constructor.
- apply IH. intros x y Hx Hy. apply H; now right.
- rewrite Forall_forall in *. intros b Hb.
  apply H; [now left|now right|now apply Ha].
Qed.

Lemma comprehensive_table_returned results :
  Forall (fun r => sortable r = true) results ->
  generate_comprehensive_pip_table results
  = ret (generate_pip_table EmptyString EmptyString
           (sort (fun a b => pair_ltb (key_of a) (key_of b)) results)).
Proof. apply comprehensive_table_sorted. Qed.

(** X14.  The comprehensive table is the plain table of the rearranged
    results when every version and interpreter version is numeric, and no
    table at all otherwise: then the function raises [ValueError]. *)
Theorem comprehensive_table_or_value_error (all_results : list result) :
  (List.forallb sortable all_results = true ->
   exists sorted_results,
     Permutation sorted_results all_results
     /\ generate_comprehensive_pip_table all_results
        = ret (generate_pip_table EmptyString EmptyString sorted_results))
  /\ (List.forallb sortable all_results = false ->
      generate_comprehensive_pip_table all_results = raise ValueError).
Proof.
split.
- intros H. eexists. split; [apply sort_perm|].
  apply comprehensive_table_returned.
  apply Forall_forall. now apply List.forallb_forall.
- intros H. unfold generate_comprehensive_pip_table, sort_by_key.
  rewrite (mapM_raise sort_key ValueError); [reflexivity| |].
  + intros x _. destruct (sortable x) eqn:E.
    * left. eexists. now apply sort_key_ret.
    * right. now apply sort_key_raise.
  + induction all_results as [|r rs IH]; [discriminate|].
    simpl in H. apply andb_false_iff in H as [H|H].
    * exists r. split; [now left|now apply sort_key_raise].
    * destruct (IH H) as (x & Hx & Hr). exists x. split; [now right|assumption].
Qed.

Lemma comprehensive_table_or_value_error_witness :
  (exists sorted_results,
     Permutation sorted_results example_results
     /\ generate_comprehensive_pip_table example_results
        = ret (generate_pip_table EmptyString EmptyString sorted_results))
  /\ generate_comprehensive_pip_table (example_results ++ [untagged_result])
     = raise ValueError.
Proof.
split.
- apply (proj1 (comprehensive_table_or_value_error example_results)).
  reflexivity.
- apply (proj2 (comprehensive_table_or_value_error
                  (example_results ++ [untagged_result]))).
  reflexivity.
Defined.

(** X15.  When all versions have the same number of components (and all keys
    are numeric) the rows descend by version and, within a version, ascend by
    interpreter version, both compared numerically. *)
Theorem comprehensive_table_order (all_results : list result) (n : nat) :
  Forall (fun r => sortable r = true) all_results ->
  Forall (fun r => List.length (components (package_version r)) = n) all_results ->
  exists sorted_results,
    generate_comprehensive_pip_table all_results
    = ret (generate_pip_table EmptyString EmptyString sorted_results)
    /\ Permutation sorted_results all_results
    /\ StronglySorted row_before sorted_results.
Proof.
intros Hs Hn. eexists. split; [now apply comprehensive_table_returned|].
split; [apply sort_perm|].
eapply StronglySorted_impl_In;
  [|apply (sort_sorted (fun a b => pair_ltb (key_of a) (key_of b)))].
- intros a b Ha Hb. unfold not_above, pair_ltb, key_of; cbn [fst snd].
  assert (Hlen : forall r, In r (sort (fun a b => pair_ltb (key_of a) (key_of b))
                                   all_results) ->
                           List.length (components (package_version r)) = n).
  { intros r Hr. rewrite Forall_forall in Hn. apply Hn.
    eapply Permutation_in; [apply sort_perm|exact Hr]. }
  rewrite list_compare_opp by now rewrite (Hlen a Ha), (Hlen b Hb).
  unfold row_before.
  rewrite (list_compare_antisym (components (package_version a))
             (components (package_version b))).
  destruct (list_compare (components (package_version a))
              (components (package_version b))) eqn:E; cbn [CompOpp].
  + intros H. right. split; [now apply list_compare_eq|].
    apply list_ltb_false in H.
    rewrite (list_compare_antisym
               (components (python_version (result_wheel_info b)))) .
    destruct (list_compare (components (python_version (result_wheel_info b)))
                (components (python_version (result_wheel_info a))));
      cbn; congruence.
  + discriminate.
  + intros _. now left.
- intros a b. apply pair_ltb_asym.
- intros a b c. apply pair_ltb_ge_trans.
Qed.

Lemma comprehensive_table_order_witness :
  exists sorted_results,
    generate_comprehensive_pip_table example_results
    = ret (generate_pip_table EmptyString EmptyString sorted_results)
    /\ Permutation sorted_results example_results
    /\ StronglySorted row_before sorted_results.
Proof.
apply (comprehensive_table_order example_results 3); repeat constructor.
Defined.

(** ** From the selected wheels to the table *)

Lemma wheel_links_target fetch wheels :
  outcome (get_wheel_download_links fetch) = inr wheels ->
  Forall target_wheel wheels.
Proof.
intros H. apply wheel_links_returned in H as [->|H]; [constructor|].
destruct H as (package_info & urls & files & collected & _ & _ & _ & Hc & ->).
eapply Permutation_Forall; [symmetry; apply sort_perm|].
now apply (collect_wheels_invariant target_wheel (fun w H => H) files []).
Qed.

(** X16.  End to end: when the version is numeric, every wheel that
    [get_wheel_download_links] returned has a CPython tag, and the temporary
    directory of every wheel is made and deleted without error, analysing the
    wheels and building the comprehensive table from the results returns a
    table, whatever happens to the downloads, the unpacking and the
    inspection inside the [try] block. *)
Theorem tagged_wheels_give_a_table
    (fetch : M json) (wheels : list wheel_info)
    (world : nat -> wheel_world) (version : string) :
  outcome (get_wheel_download_links fetch) = inr wheels ->
  Forall (fun w => cpython_tagged (filename w)) wheels ->
  numeric version = true ->
  temp_dirs_ok world (List.length wheels) ->
  exists results table,
    outcome (analyze_all_wheels world wheels version) = inr results
    /\ generate_comprehensive_pip_table results = ret table.
Proof.
intros Hw Htag Hv Hok. eexists. eexists.
split; [now apply analyze_all_wheels_outcome|].
apply comprehensive_table_returned.
apply Forall_map, Forall_forall. intros [i w] Hiw.
assert (Hin : In w wheels).
{ rewrite <- (map_snd_enumerate wheels 1). now apply (in_map snd) in Hiw. }
unfold sortable, wheel_result.
cbn [package_version result_wheel_info fst snd]. rewrite Hv. cbn [andb].
pose proof (wheel_links_target fetch wheels Hw) as Ht.
rewrite Forall_forall in Ht, Htag.
destruct (Ht w Hin) as (_ & _ & ->). now apply cpython_tagged_numeric, Htag.
Qed.

(** Three wheels from the index; the download of the second fails. *)
Lemma tagged_wheels_give_a_table_witness :
  exists results table,
    outcome (analyze_all_wheels
               (fun i => if Nat.eqb i 2 then failing_download
                         else example_world mixed_output)
               [example_wheel
                  "torch-2.8.0-cp312-cp312-manylinux_2_28_x86_64.whl" "3.12";
                example_wheel
                  "torch-2.8.0-cp313-cp313-manylinux_2_28_x86_64.whl" "3.13";
                example_wheel
                  "torch-2.8.0-cp39-cp39-manylinux_2_28_x86_64.whl" "3.9"]
               "2.8.0")
    = inr results
    /\ map cuda_architectures results
       = [["sm_80"; "sm_90"]; []; ["sm_80"; "sm_90"]]
    /\ generate_comprehensive_pip_table results = ret table.
Proof.
destruct (tagged_wheels_give_a_table
            (ret (JDict [("urls",
                    JList [example_file "bdist_wheel"
                             "torch-2.8.0-cp39-cp39-manylinux_2_28_x86_64.whl";
                           example_file "bdist_wheel"
                             "torch-2.8.0-cp313-cp313-manylinux_2_28_x86_64.whl";
                           example_file "sdist" "torch-2.8.0.tar.gz";
                           example_file "bdist_wheel"
                             "torch-2.8.0-cp312-cp312-manylinux_2_28_x86_64.whl"])]))
            [example_wheel
               "torch-2.8.0-cp312-cp312-manylinux_2_28_x86_64.whl" "3.12";
             example_wheel
               "torch-2.8.0-cp313-cp313-manylinux_2_28_x86_64.whl" "3.13";
             example_wheel
               "torch-2.8.0-cp39-cp39-manylinux_2_28_x86_64.whl" "3.9"]
            (fun i => if Nat.eqb i 2 then failing_download
                      else example_world mixed_output)
            "2.8.0")
  as (results & table & Hres & Htable).
- vm_compute. reflexivity.
- repeat constructor.
  + exists "torch", "2.8.0", "3"%char, "12",
      ["cp312"; "manylinux_2_28_x86_64.whl"].
    repeat split; try reflexivity; try discriminate.
    unfold PyStr.int_max_str_digits. simpl. lia.
  + exists "torch", "2.8.0", "3"%char, "13",
      ["cp313"; "manylinux_2_28_x86_64.whl"].
    repeat split; try reflexivity; try discriminate.
    unfold PyStr.int_max_str_digits. simpl. lia.
  + exists "torch", "2.8.0", "3"%char, "9",
      ["cp39"; "manylinux_2_28_x86_64.whl"].
    repeat split; try reflexivity; try discriminate.
    unfold PyStr.int_max_str_digits. simpl. lia.
- reflexivity.
- intros i _. destruct (Nat.eqb i 2); split; reflexivity.
- exists results, table. split; [exact Hres|]. split; [|exact Htable].
  vm_compute in Hres. now injection Hres as <-.
Defined.

(** ** The larger console *)

Lemma qbind_ret {A B} (x : A) (f : A -> Q B) : qbind (qret x) f = f x.
Proof. unfold qbind, qret; simpl. destruct (f x); reflexivity. Qed.

Lemma snd_qbind {A B} (m : Q A) (f : A -> Q B) :
  snd (qbind m f)
  = match snd m with
    | inl e => inl e
    | inr x => snd (f x)
    end.
Proof. unfold qbind. destruct (snd m); reflexivity. Qed.

Lemma fst_qbind {A B} (m : Q A) (f : A -> Q B) :
  fst (qbind m f)
  = match snd m with
    | inl _ => fst m
    | inr x => fst m ++ fst (f x)
    end.
Proof. unfold qbind. destruct (snd m); reflexivity. Qed.

Lemma Q_eq {A} (q : Q A) : q = (fst q, snd q).
Proof. destruct q; reflexivity. Qed.

Lemma say_each_eq {A} (c : A -> console) l : say_each c l = (map c l, inr tt).
Proof.
induction l as [|x t IH]; cbn [say_each map]; [reflexivity|].
rewrite IH. reflexivity.
Qed.

Ltac run_Q :=
  repeat (rewrite ?fst_qbind, ?snd_qbind;
          cbn [say qret qraise lift fst snd negb nonempty]).

(** ** [analyze_first_wheel] *)

Lemma analyze_first_wheel_result w wheel rest :
  temp_dir_ok w ->
  snd (analyze_first_wheel w (wheel :: rest))
  = match outcome (process_wheel w) with
    | inl e => inl e
    | inr archs => inr (Some {| first_wheel_info := wheel;
                                first_cuda_architectures := archs |})
    end.
Proof.
intros [Hm Hr].
rewrite process_wheel_outcome. unfold analyze_first_wheel, outcome in *. run_Q.
rewrite Hm. unfold leaving. cbn [lift snd]. rewrite Hr. run_Q.
destruct (snd (download_wheel w)); [reflexivity|].
run_Q. destruct (snd (mkdir w)); [reflexivity|].
run_Q. destruct (snd (extract_wheel w)); [reflexivity|].
run_Q. destruct (snd (get_cuda_architectures (inspect w))); reflexivity.
Qed.

(** X17.  [analyze_first_wheel] has no [try]: an exception of the download,
    of the unpacking or of the inspection reaches its caller, where
    [analyze_all_wheels] records an empty result for the same wheel.  In
    both, the temporary directory is made and deleted without error. *)
Theorem first_wheel_failure_propagates
    (w : wheel_world) (wheel : wheel_info) (rest : list wheel_info)
    (version : string) (e : exn) :
  temp_dir_ok w ->
  outcome (process_wheel w) = inl e ->
  snd (analyze_first_wheel w (wheel :: rest)) = inl e
  /\ exists results,
       outcome (analyze_all_wheels (fun _ => w) (wheel :: rest) version)
       = inr results
       /\ option_map cuda_architectures (nth_error results 0) = Some [].
Proof.
intros Hok H. split; [now rewrite analyze_first_wheel_result, H|].
eexists. split; [apply analyze_all_wheels_outcome; now intros i _|].
cbn [enumerate map nth_error option_map fst snd]. unfold wheel_result.
cbn [cuda_architectures]. now rewrite H.
Qed.

Lemma first_wheel_failure_propagates_witness :
  snd (analyze_first_wheel failing_download [example_wheel "a.whl" "3.9"])
  = inl (RequestException "503")
  /\ exists results,
       outcome (analyze_all_wheels (fun _ => failing_download)
                  [example_wheel "a.whl" "3.9"] "2.8.0")
       = inr results
       /\ option_map cuda_architectures (nth_error results 0) = Some [].
Proof.
apply (first_wheel_failure_propagates failing_download
         (example_wheel "a.whl" "3.9") [] "2.8.0" (RequestException "503")).
- split; reflexivity.
- reflexivity.
Defined.

(** X18.  [analyze_first_wheel] analyses the first wheel only and returns the
    lines of [get_cuda_architectures] as they are; the architecture list that
    [analyze_all_wheels] records for that wheel is their cleaned, deduplicated
    and sorted form.  In both, the temporary directory is made and deleted
    without error. *)
Theorem first_wheel_raw_architectures
    (w : wheel_world) (wheel : wheel_info) (rest : list wheel_info)
    (version : string) (archs : list string) :
  temp_dir_ok w ->
  outcome (process_wheel w) = inr archs ->
  snd (analyze_first_wheel w (wheel :: rest))
  = inr (Some {| first_wheel_info := wheel; first_cuda_architectures := archs |})
  /\ exists results,
       outcome (analyze_all_wheels (fun _ => w) (wheel :: rest) version)
       = inr results
       /\ option_map cuda_architectures (nth_error results 0)
          = Some (sorted (set (clean archs))).
Proof.
intros Hok H. split; [now rewrite analyze_first_wheel_result, H|].
eexists. split; [apply analyze_all_wheels_outcome; now intros i _|].
cbn [enumerate map nth_error option_map fst snd]. unfold wheel_result.
cbn [cuda_architectures]. now rewrite H.
Qed.

Lemma first_wheel_raw_architectures_witness :
  snd (analyze_first_wheel (example_world mixed_output)
         [example_wheel "a.whl" "3.9"; example_wheel "b.whl" "3.10"])
  = inr (Some {| first_wheel_info := example_wheel "a.whl" "3.9";
                 first_cuda_architectures := ["ARCH = sm_80"; "Arch = sm_90"] |})
  /\ exists results,
       outcome (analyze_all_wheels (fun _ => example_world mixed_output)
                  [example_wheel "a.whl" "3.9"; example_wheel "b.whl" "3.10"]
                  "2.8.0")
       = inr results
       /\ option_map cuda_architectures (nth_error results 0)
          = Some (sorted (set (clean ["ARCH = sm_80"; "Arch = sm_90"]))).
Proof.
apply (first_wheel_raw_architectures (example_world mixed_output)).
- split; reflexivity.
- vm_compute. reflexivity.
Defined.

(** ** The temporary directories *)

Lemma analyze_wheel_aborts w version i n wheel e :
  temp_dir_fails w e ->
  outcome (analyze_wheel w version i n wheel) = inl e.
Proof.
intros [Hm|[Hm Hr]]; rewrite analyze_wheel_cases, Hm; [reflexivity|].
now rewrite Hr.
Qed.

Lemma analyze_loop_aborts world version n e wheels : forall k i results,
  k < List.length wheels ->
  (forall j, j < k -> temp_dir_ok (world (i + j))) ->
  temp_dir_fails (world (i + k)) e ->
  outcome (analyze_loop world version n i wheels results) = inl e.
Proof.
induction wheels as [|wheel rest IH]; intros k i results Hk Hok He;
  [simpl in Hk; lia|].
cbn [analyze_loop]. rewrite outcome_bind. destruct k as [|k].
- rewrite Nat.add_0_r in He. now rewrite (analyze_wheel_aborts _ _ _ _ _ e).
- rewrite analyze_wheel_outcome.
  + apply (IH k); [simpl in Hk; lia| |].
    * intros j Hj. replace (S i + j) with (i + S j) by lia. apply Hok. lia.
    * now replace (S i + k) with (i + S k) by lia.
  + replace i with (i + 0) by lia. apply Hok. lia.
Qed.

(** X26.  The temporary directory of a wheel is made and deleted outside the
    [try] block: when that raises for one wheel, after the wheels before it
    went through, [analyze_all_wheels] raises the same exception and returns
    no result at all, whatever the [try] blocks of the wheels did. *)
Theorem temp_dir_failure_leaves_the_loop
    (world : nat -> wheel_world) (wheels : list wheel_info) (version : string)
    (i : nat) (e : exn) :
  1 <= i <= List.length wheels ->
  (forall j, 1 <= j < i -> temp_dir_ok (world j)) ->
  temp_dir_fails (world i) e ->
  outcome (analyze_all_wheels world wheels version) = inl e.
Proof.
intros Hi Hok He. unfold analyze_all_wheels.
apply (analyze_loop_aborts world version _ e wheels (i - 1)).
- lia.
- intros j Hj. apply Hok. lia.
- now replace (1 + (i - 1)) with i by lia.
Qed.

(** The second wheel is analyzed, and its temporary directory cannot be
    deleted. *)
Lemma temp_dir_failure_leaves_the_loop_witness :
  outcome (analyze_all_wheels
             (fun i => if Nat.eqb i 2 then busy_temp_dir
                       else example_world mixed_output)
             [example_wheel "a.whl" "3.9"; example_wheel "b.whl" "3.10";
              example_wheel "c.whl" "3.11"]
             "2.8.0")
  = inl (OSError "[Errno 16] Device or resource busy").
Proof.
apply (temp_dir_failure_leaves_the_loop
         (fun i => if Nat.eqb i 2 then busy_temp_dir
                   else example_world mixed_output)
         [example_wheel "a.whl" "3.9"; example_wheel "b.whl" "3.10";
          example_wheel "c.whl" "3.11"]
         "2.8.0" 2).
- simpl. lia.
- intros j Hj. assert (j = 1) as -> by lia. split; reflexivity.
- right. split; reflexivity.
Defined.

(** ** [main] *)

Lemma versions_call_returns requests_get package :
  exists versions,
    snd (call_get_all_pytorch_2x_versions requests_get package) = inr versions.
Proof.
unfold call_get_all_pytorch_2x_versions. run_Q.
unfold get_all_pytorch_2x_versions.
change (snd (try_except ?m ?h)) with (outcome (try_except m h)).
rewrite outcome_try_except.
match goal with |- context [outcome ?b] => destruct (outcome b) end;
  now eexists.
Qed.

(** X19.  When the listing of the versions gives no version (the request
    failed, or the index has no 2.x release), [main] stops after the one
    request: it prints that no version was found and returns. *)
Theorem main_stops_without_versions (w : main_world) :
  outcome (get_all_pytorch_2x_versions
             (get_pypi_package_info (versions_response w) "torch" None))
  = inr [] ->
  main w
  = ([PFetchingVersions; Requested "https://pypi.org/pypi/torch/json"]
       ++ map Printed
            (output (get_all_pytorch_2x_versions
                       (get_pypi_package_info (versions_response w) "torch" None)))
       ++ [PNoVersions],
     inr tt).
Proof.
intros H. unfold outcome in H. rewrite (Q_eq (main w)).
unfold main, call_get_all_pytorch_2x_versions.
repeat (rewrite ?fst_qbind, ?snd_qbind, ?H;
        cbn [say qret qraise lift fst snd negb nonempty]).
unfold output, package_info_url. cbn [append app]. reflexivity.
Qed.

Lemma main_stops_without_versions_witness :
  main (silent_world (Line "y"))
  = ([PFetchingVersions; Requested "https://pypi.org/pypi/torch/json";
      Printed (PVersionsError (RequestException "unreachable")); PNoVersions],
     inr tt).
Proof.
apply (main_stops_without_versions (silent_world (Line "y"))).
reflexivity.
Defined.

Lemma none_app (p : console -> bool) a b :
  existsb p a = false -> existsb p b = false -> existsb p (a ++ b) = false.
Proof. intros Ha Hb. now rewrite existsb_app, Ha, Hb. Qed.

Lemma none_qbind (p : console -> bool) {A B} (m : Q A) (f : A -> Q B) :
  existsb p (fst m) = false ->
  (forall x, snd m = inr x -> existsb p (fst (f x)) = false) ->
  existsb p (fst (qbind m f)) = false.
Proof.
intros Hm Hf. rewrite fst_qbind. destruct (snd m) as [e|x]; [exact Hm|].
apply none_app; [exact Hm|now apply Hf].
Qed.

Lemma none_say_each (p : console -> bool) {A} (c : A -> console) l :
  (forall x, p (c x) = false) -> existsb p (fst (say_each c l)) = false.
Proof.
intros H. rewrite say_each_eq. cbn [fst].
induction l as [|x t IH]; [reflexivity|]. cbn [map existsb]. now rewrite H.
Qed.

Lemma lifted_no_writes {A} (m : M A) : existsb writes (fst (lift m)) = false.
Proof. unfold lift. cbn [fst]. induction (fst m); [reflexivity|assumption]. Qed.

(** Steps through the binds of a computation that has no event of a kind. *)
Ltac no_event :=
  repeat first
    [ reflexivity
    | assumption
    | apply lifted_no_writes
    | apply none_say_each; intros; reflexivity
    | apply none_qbind; [|intros ? ?] ].

Lemma links_call_no_writes requests_get package version :
  existsb writes (fst (call_get_wheel_download_links requests_get package version))
  = false.
Proof. unfold call_get_wheel_download_links. no_event. Qed.

Lemma versions_call_no_writes requests_get package :
  existsb writes (fst (call_get_all_pytorch_2x_versions requests_get package))
  = false.
Proof. unfold call_get_all_pytorch_2x_versions. no_event. Qed.

Lemma count_wheels_no_writes responses package versions : forall i total counts,
  existsb writes (fst (count_wheels responses package i versions total counts))
  = false.
Proof.
induction versions as [|v vs IH]; intros i total counts; [reflexivity|].
cbn [count_wheels]. cbv zeta.
apply none_qbind; [apply links_call_no_writes|intros wheels _].
apply none_qbind; [reflexivity|intros _ _]. apply IH.
Qed.

Lemma confirm_declined a :
  declines a ->
  snd (confirm a) = inr false
  /\ existsb writes (fst (confirm a)) = false
  /\ existsb requests (fst (confirm a)) = false.
Proof.
intros [->|(s & -> & Hs)]; [now repeat split|].
unfold confirm. cbv zeta. rewrite Hs. now repeat split.
Qed.

Lemma confirm_accepted a :
  accepts a -> confirm a = ([PPrompt], inr true).
Proof.
intros (s & -> & Hs). unfold confirm. cbv zeta. rewrite Hs. reflexivity.
Qed.

(** X20.  Without the operator's consent nothing is downloaded and nothing
    is written: a run in which the operator declines or interrupts at the
    prompt is the same whatever the processing pass would have met, it does
    not raise at or after the prompt, and the table file is not opened. *)
Theorem main_declined_downloads_nothing (w w' : main_world) :
  versions_response w = versions_response w' ->
  count_response w = count_response w' ->
  answer w = answer w' ->
  declines (answer w) ->
  main w = main w' /\ existsb writes (fst (main w)) = false.
Proof.
intros Hv Hc Ha Hdec.
destruct (confirm_declined _ Hdec) as (Hfalse & Hquiet & _).
split; [|clear w' Hv Hc Ha]; [|
  unfold main; cbv zeta;
  apply none_qbind; [reflexivity|intros _ _];
  apply none_qbind; [apply versions_call_no_writes|intros versions _];
  destruct (negb (nonempty versions)); [reflexivity|];
  apply none_qbind; [reflexivity|intros _ _];
  apply none_qbind; [apply none_say_each; intros; reflexivity|intros _ _];
  apply none_qbind; [reflexivity|intros _ _];
  apply none_qbind; [reflexivity|intros _ _];
  apply none_qbind; [apply count_wheels_no_writes|intros counted _];
  apply none_qbind; [reflexivity|intros _ _];
  destruct (fst counted =? 0)%nat; [reflexivity|];
  apply none_qbind; [reflexivity|intros _ _];
  apply none_qbind; [reflexivity|intros _ _];
  apply none_qbind; [reflexivity|intros _ _];
  apply none_qbind; [exact Hquiet|intros proceed Hp];
  rewrite Hfalse in Hp; injection Hp as <-; reflexivity].
rewrite (Q_eq (main w)), (Q_eq (main w')). unfold main.
rewrite <- Hv, <- Hc, <- Ha.
destruct (snd (call_get_all_pytorch_2x_versions (versions_response w) "torch"))
  as [e|versions] eqn:HV;
  repeat (rewrite ?fst_qbind, ?snd_qbind, ?HV;
          cbn [say qret qraise lift fst snd negb nonempty]);
  [reflexivity|].
destruct versions as [|v vs]; cbn [nonempty negb]; [reflexivity|].
destruct (snd (count_wheels (count_response w) "torch" 0 (v :: vs) 0 []))
  as [e|counted] eqn:HC;
  repeat (rewrite ?fst_qbind, ?snd_qbind, ?HV, ?HC, ?say_each_eq;
          cbn [say qret qraise lift fst snd negb nonempty]);
  [reflexivity|].
destruct (fst counted =? 0)%nat; [reflexivity|].
repeat (rewrite ?fst_qbind, ?snd_qbind, ?HV, ?HC, ?say_each_eq, ?Hfalse;
        cbn [say qret qraise lift fst snd negb nonempty]).
reflexivity.
Qed.

Lemma main_declined_downloads_nothing_witness :
  main (example_main_world example_urls mixed_output (Line "n"))
  = main (example_main_world example_urls "" (Line "n"))
  /\ existsb writes
       (fst (main (example_main_world example_urls mixed_output (Line "n"))))
     = false.
Proof.
apply main_declined_downloads_nothing; try reflexivity.
right. exists "n". split; reflexivity.
Defined.

Lemma filter_none (p : console -> bool) l : existsb p l = false -> filter p l = [].
Proof.
induction l as [|x t IH]; [reflexivity|]. cbn [existsb filter].
destruct (p x); [discriminate|exact IH].
Qed.

Lemma none_map (p : console -> bool) {A} (c : A -> console) l :
  (forall x, p (c x) = false) -> existsb p (map c l) = false.
Proof.
intros H. induction l as [|x t IH]; [reflexivity|].
cbn [map existsb]. now rewrite H.
Qed.

Lemma filter_qbind (p : console -> bool) {A B} (m : Q A) (f : A -> Q B) :
  filter p (fst (qbind m f))
  = filter p (fst m)
    ++ match snd m with
       | inl _ => []
       | inr x => filter p (fst (f x))
       end.
Proof.
rewrite fst_qbind. destruct (snd m); [now rewrite app_nil_r|].
apply filter_app.
Qed.

Lemma process_versions_no_writes w package n counts versions :
  forall idx all_results total_wheels,
    existsb writes
      (fst (process_versions w package n counts idx versions all_results
              total_wheels))
    = false.
Proof.
induction versions as [|v vs IH]; intros idx all_results total_wheels;
  [reflexivity|].
cbn [process_versions]. destruct (lookup v counts) as [c|]; [|reflexivity].
destruct (c =? 0)%nat.
- apply none_qbind; [reflexivity|intros _ _]. apply IH.
- apply none_qbind; [reflexivity|intros _ _].
  apply none_qbind; [reflexivity|intros _ _].
  apply none_qbind; [reflexivity|intros _ _].
  apply none_qbind; [apply links_call_no_writes|intros wheels _].
  apply none_qbind; [apply lifted_no_writes|intros results _].
  apply none_qbind; [reflexivity|intros _ _].
  apply none_qbind; [apply none_say_each; intros; reflexivity|intros _ _].
  apply IH.
Qed.

(** What [main] does once the operator has consented and every version is
    processed: the rest is [report]. *)
Lemma main_after_consent w versions counted results total :
  snd (call_get_all_pytorch_2x_versions (versions_response w) "torch")
  = inr versions ->
  versions <> [] ->
  snd (count_wheels (count_response w) "torch" 0 versions 0 []) = inr counted ->
  fst counted <> 0%nat ->
  accepts (answer w) ->
  snd (process_versions w "torch" (List.length versions) (snd counted) 1
         versions [] 0)
  = inr (results, total) ->
  snd (main w) = snd (report w versions results total)
  /\ filter writes (fst (main w))
     = filter writes (fst (report w versions results total)).
Proof.
intros HV Hne HC Hc Hacc HP.
apply confirm_accepted in Hacc.
assert (Hnz : (fst counted =? 0)%nat = false) by now apply Nat.eqb_neq.
assert (Hn : negb (nonempty versions) = false)
  by (destruct versions; [congruence|reflexivity]).
unfold main. cbv zeta. split.
- repeat (rewrite ?snd_qbind, ?HV, ?Hn, ?HC, ?Hnz, ?Hacc, ?HP, ?say_each_eq;
          cbn [say qret qraise fst snd negb]).
  reflexivity.
- repeat (rewrite ?filter_qbind, ?HV, ?Hn, ?HC, ?Hnz, ?Hacc, ?HP, ?say_each_eq;
          cbn [say qret qraise fst snd negb filter writes app]).
  rewrite (filter_none _ _ (versions_call_no_writes _ _)).
  rewrite (filter_none _ _ (count_wheels_no_writes _ _ _ _ _ _)).
  rewrite (filter_none _ _ (process_versions_no_writes _ _ _ _ _ _ _ _)).
  rewrite (filter_none writes (map _ (enumerate 0 versions))).
  + reflexivity.
  + apply none_map. reflexivity.
Qed.

Lemma report_unsortable w versions results total :
  (exists r, In r results /\ sortable r = false) ->
  snd (report w versions results total) = inl ValueError
  /\ existsb writes (fst (report w versions results total)) = false.
Proof.
intros (r & Hin & Hr).
assert (Hg : generate_comprehensive_pip_table results = raise ValueError).
{ unfold generate_comprehensive_pip_table, sort_by_key.
  rewrite (mapM_raise sort_key ValueError); [reflexivity| |].
  - intros x _. destruct (sortable x) eqn:E.
    + left. eexists. now apply sort_key_ret.
    + right. now apply sort_key_raise.
  - exists r. split; [assumption|now apply sort_key_raise]. }
unfold report. destruct results as [|r0 rs]; [destruct Hin|].
cbn [nonempty]. rewrite Hg. split; reflexivity.
Qed.

(** X21.  One result with a version or an interpreter version that is not
    numeric (the "unknown" of an untagged wheel) costs the whole run: after
    every wheel has been downloaded and analysed, [main] raises [ValueError]
    and the table file is never opened. *)
Theorem main_loses_all_results
    (w : main_world) (versions : list string) (counted : nat * list (string * nat))
    (results : list result) (total : nat) :
  snd (call_get_all_pytorch_2x_versions (versions_response w) "torch")
  = inr versions ->
  versions <> [] ->
  snd (count_wheels (count_response w) "torch" 0 versions 0 []) = inr counted ->
  fst counted <> 0%nat ->
  accepts (answer w) ->
  snd (process_versions w "torch" (List.length versions) (snd counted) 1
         versions [] 0)
  = inr (results, total) ->
  (exists r, In r results /\ sortable r = false) ->
  snd (main w) = inl ValueError
  /\ filter writes (fst (main w)) = [].
Proof.
intros HV Hne HC Hc Hacc HP Hbad.
destruct (main_after_consent w versions counted results total HV Hne HC Hc Hacc HP)
  as [-> ->].
destruct (report_unsortable w versions results total Hbad) as [-> Hq].
split; [reflexivity|now apply filter_none].
Qed.

Lemma main_loses_all_results_witness :
  snd (main untagged_main_world) = inl ValueError
  /\ filter writes (fst (main untagged_main_world)) = [].
Proof.
apply (main_loses_all_results untagged_main_world ["2.8.0"]
         (1%nat, [("2.8.0", 1%nat)])
         [{| result_wheel_info := example_wheel untagged_wheel_name "unknown";
             cuda_architectures := ["sm_80"; "sm_90"];
             package_version := "2.8.0" |}]
         1%nat).
- vm_compute. reflexivity.
- discriminate.
- vm_compute. reflexivity.
- discriminate.
- exists " Yes ". split; reflexivity.
- vm_compute. reflexivity.
- eexists. split; [now left|reflexivity].
Defined.

Lemma save_writes file_system content name :
  filter writes (fst (save_table_to_file file_system content name))
  = [Writing name content].
Proof.
unfold save_table_to_file.
repeat (rewrite filter_qbind; cbn [say fst snd filter writes app]).
rewrite (filter_none writes (fst (lift file_system))) by apply lifted_no_writes.
cbn [app]. destruct (snd (lift file_system)); reflexivity.
Qed.

Lemma report_writes w versions results total :
  filter writes (fst (report w versions results total)) = []
  \/ exists table,
       results <> []
       /\ generate_comprehensive_pip_table results = ret table
       /\ filter writes (fst (report w versions results total))
          = [Writing "table_pip.md" table].
Proof.
unfold report. destruct results as [|r rs]; [now left|]. cbn [nonempty].
destruct (List.forallb sortable (r :: rs)) eqn:Hs.
- right. eexists. split; [discriminate|].
  assert (Hg := comprehensive_table_returned (r :: rs)).
  rewrite Hg by (apply Forall_forall; now apply List.forallb_forall).
  split; [reflexivity|].
  repeat (rewrite filter_qbind; cbn [say lift ret fst snd filter writes app map]).
  rewrite save_writes.
  destruct (snd (save_table_to_file (table_file w) _ "table_pip.md"));
    [reflexivity|].
  cbv zeta.
  repeat (rewrite filter_qbind; cbn [say fst snd filter writes app]).
  rewrite say_each_eq. cbn [fst].
  rewrite (filter_none writes (map _ _)) by (apply none_map; reflexivity).
  reflexivity.
- left. apply filter_none.
  destruct (report_unsortable w versions (r :: rs) total) as [_ H]; [|exact H].
  clear -Hs. induction (r :: rs) as [|x xs IH]; [discriminate|].
  simpl in Hs. apply andb_false_iff in Hs as [Hs|Hs].
  + exists x. split; [now left|assumption].
  + destruct (IH Hs) as (y & Hy & Hr). exists y. split; [now right|assumption].
Qed.

Lemma main_writes_cases w :
  filter writes (fst (main w)) = []
  \/ exists versions counts results total,
       snd (process_versions w "torch" (List.length versions) counts 1
              versions [] 0)
       = inr (results, total)
       /\ filter writes (fst (main w))
          = filter writes (fst (report w versions results total)).
Proof.
unfold main. cbv zeta.
rewrite filter_qbind. cbn [say fst snd filter writes app].
rewrite filter_qbind, (filter_none _ _ (versions_call_no_writes _ _)). cbn [app].
destruct (snd (call_get_all_pytorch_2x_versions (versions_response w) "torch"))
  as [e|versions]; [now left|].
destruct (negb (nonempty versions)); [now left|].
rewrite filter_qbind. cbn [say fst snd filter writes app].
rewrite filter_qbind, say_each_eq. cbn [fst snd].
rewrite (filter_none writes (map _ _)) by (apply none_map; reflexivity).
cbn [app].
rewrite filter_qbind. cbn [say fst snd filter writes app].
rewrite filter_qbind. cbn [say fst snd filter writes app].
rewrite filter_qbind, (filter_none _ _ (count_wheels_no_writes _ _ _ _ _ _)).
cbn [app].
destruct (snd (count_wheels (count_response w) "torch" 0 versions 0 []))
  as [e|counted]; [now left|].
rewrite filter_qbind. cbn [say fst snd filter writes app].
destruct (fst counted =? 0)%nat; [now left|].
rewrite filter_qbind. cbn [say fst snd filter writes app].
rewrite filter_qbind. cbn [say fst snd filter writes app].
rewrite filter_qbind. cbn [say fst snd filter writes app].
rewrite filter_qbind.
assert (Hq : filter writes (fst (confirm (answer w))) = []).
{ apply filter_none. unfold confirm. cbv zeta.
  destruct (answer w) as [s| |e]; try reflexivity.
  destruct (String.eqb _ "y" || String.eqb _ "yes"); reflexivity. }
rewrite Hq. cbn [app].
destruct (snd (confirm (answer w))) as [e|proceed]; [now left|].
destruct proceed; cbn [negb]; [|now left].
rewrite filter_qbind, (filter_none _ _ (process_versions_no_writes _ _ _ _ _ _ _ _)).
cbn [app].
destruct (snd (process_versions w "torch" (List.length versions) (snd counted) 1
                 versions [] 0)) as [e|[results total]] eqn:HP; [now left|].
right. exists versions, (snd counted), results, total. now split.
Qed.

(** X22.  [main] opens the table file at most once, under the name
    table_pip.md, and then to write the comprehensive table of all the
    results of the processing pass, which are not empty. *)
Theorem main_writes_the_table_at_most_once (w : main_world) :
  filter writes (fst (main w)) = []
  \/ exists versions counts results total table,
       snd (process_versions w "torch" (List.length versions) counts 1
              versions [] 0)
       = inr (results, total)
       /\ results <> []
       /\ generate_comprehensive_pip_table results = ret table
       /\ filter writes (fst (main w)) = [Writing "table_pip.md" table].
Proof.
destruct (main_writes_cases w)
  as [H|(versions & counts & results & total & HP & H)]; [now left|].
destruct (report_writes w versions results total) as [Hr|(table & Hne & Hg & Hr)].
- left. now rewrite H.
- right. exists versions, counts, results, total, table.
  repeat split; try assumption. now rewrite H.
Qed.

(** X23.  When the counting pass finds no wheel at all, [main] stops before
    the prompt: the operator is not asked, nothing is downloaded or written,
    and [main] returns. *)
Theorem main_stops_without_wheels
    (w : main_world) (versions : list string) (counted : nat * list (string * nat)) :
  snd (call_get_all_pytorch_2x_versions (versions_response w) "torch")
  = inr versions ->
  versions <> [] ->
  snd (count_wheels (count_response w) "torch" 0 versions 0 []) = inr counted ->
  fst counted = 0%nat ->
  main w
  = ([PFetchingVersions]
       ++ fst (call_get_all_pytorch_2x_versions (versions_response w) "torch")
       ++ [PFoundVersions (List.length versions)]
       ++ map (fun iv => PVersion (fst iv + 1) (snd iv)) (enumerate 0 versions)
       ++ [PBlank; PCounting]
       ++ fst (count_wheels (count_response w) "torch" 0 versions 0 [])
       ++ [PTotalWheels 0; PNoWheelsFound],
     inr tt).
Proof.
intros HV Hne HC Hz.
assert (Hn : negb (nonempty versions) = false)
  by (destruct versions; [congruence|reflexivity]).
rewrite (Q_eq (main w)). unfold main. cbv zeta.
repeat (rewrite ?fst_qbind, ?snd_qbind, ?HV, ?Hn, ?HC, ?Hz, ?say_each_eq;
        cbn [say qret qraise fst snd negb Nat.eqb]).
rewrite <- ?app_assoc. reflexivity.
Qed.

Lemma main_stops_without_wheels_witness :
  main empty_main_world
  = ([PFetchingVersions; Requested "https://pypi.org/pypi/torch/json";
      PFoundVersions 1; PVersion 1 "2.8.0"; PBlank; PCounting;
      Requested "https://pypi.org/pypi/torch/2.8.0/json";
      PWheelCount "2.8.0" 0; PTotalWheels 0; PNoWheelsFound],
     inr tt).
Proof.
apply (main_stops_without_wheels empty_main_world ["2.8.0"]
         (0%nat, [("2.8.0", 0%nat)])).
- reflexivity.
- discriminate.
- reflexivity.
- reflexivity.
Defined.

(** ** The requests of the two passes *)

Lemma lifted_no_requests {A} (m : M A) : filter requests (fst (lift m)) = [].
Proof. apply filter_none. unfold lift. cbn [fst]. apply none_map. reflexivity. Qed.

Lemma links_call_requests requests_get package version :
  filter requests
    (fst (call_get_wheel_download_links requests_get package version))
  = [Requested (package_info_url package (Some version))].
Proof.
unfold call_get_wheel_download_links. rewrite filter_qbind.
cbn [say fst snd filter requests app]. now rewrite lifted_no_requests.
Qed.

(** X24.  A counting pass that does not raise has sent one request per
    version, in the order of the versions, each for that version's metadata. *)
Theorem counting_pass_requests
    (responses : nat -> string -> M json) (package : string)
    (versions : list string) :
  forall (i total : nat) (counts : list (string * nat))
         (counted : nat * list (string * nat)),
    snd (count_wheels responses package i versions total counts) = inr counted ->
    filter requests (fst (count_wheels responses package i versions total counts))
    = map (fun v => Requested (package_info_url package (Some v))) versions.
Proof.
induction versions as [|v vs IH]; intros i total counts counted H;
  [reflexivity|].
cbn [count_wheels] in *. cbv zeta in *.
rewrite snd_qbind in H. rewrite filter_qbind, links_call_requests.
destruct (snd (call_get_wheel_download_links (responses i) package v))
  as [e|wheels]; [discriminate|].
rewrite snd_qbind in H. cbn [say fst snd] in H.
rewrite filter_qbind. cbn [say fst snd filter requests app map].
f_equal. now apply (IH _ _ _ counted).
Qed.

Lemma counting_pass_requests_witness :
  filter requests
    (fst (count_wheels (fun _ _ => ret (JDict [("urls", JList example_urls)]))
            "torch" 0 ["2.8.0"; "2.7.1"] 0 []))
  = [Requested "https://pypi.org/pypi/torch/2.8.0/json";
     Requested "https://pypi.org/pypi/torch/2.7.1/json"].
Proof.
apply (counting_pass_requests
         (fun _ _ => ret (JDict [("urls", JList example_urls)]))
         "torch" ["2.8.0"; "2.7.1"] 0 0 []
         (6%nat, [("2.8.0", 3%nat); ("2.7.1", 3%nat)])).
vm_compute. reflexivity.
Defined.

(** X25.  A processing pass that does not raise has sent a second request
    for exactly the versions the counting pass found wheels for; a version
    counted with no wheel is skipped without a request. *)
Theorem processing_pass_requests
    (w : main_world) (package : string) (n : nat)
    (counts : list (string * nat)) (versions : list string) :
  forall (idx : nat) (all_results : list result) (total_wheels : nat)
         (processed : list result * nat),
    snd (process_versions w package n counts idx versions all_results
           total_wheels)
    = inr processed ->
    filter requests
      (fst (process_versions w package n counts idx versions all_results
              total_wheels))
    = map (fun v => Requested (package_info_url package (Some v)))
        (filter (counted_nonzero counts) versions).
Proof.
induction versions as [|v vs IH];
  intros idx all_results total_wheels processed H; [reflexivity|].
cbn [process_versions filter] in *. unfold counted_nonzero at 1.
destruct (lookup v counts) as [c|]; [|discriminate].
destruct (c =? 0)%nat; cbn [negb].
- rewrite snd_qbind in H. cbn [say fst snd] in H.
  rewrite filter_qbind. cbn [say fst snd filter requests app].
  now apply (IH _ _ _ processed).
- repeat (rewrite snd_qbind in H; cbn [say fst snd] in H).
  repeat (rewrite filter_qbind; cbn [say fst snd filter requests app]).
  rewrite links_call_requests.
  destruct (snd (call_get_wheel_download_links (process_response w idx) package v))
    as [e|wheels]; [discriminate|].
  rewrite snd_qbind in H. rewrite filter_qbind, lifted_no_requests.
  destruct (snd (lift (analyze_all_wheels (wheel_worlds w idx) wheels v)))
    as [e|version_results]; [discriminate|].
  repeat (rewrite snd_qbind in H; cbn [say fst snd] in H).
  rewrite say_each_eq in *. cbn [fst snd] in H.
  repeat (rewrite filter_qbind; cbn [say fst snd filter requests app]).
  rewrite (filter_none requests (map summary_line _))
    by (apply none_map; reflexivity).
  cbn [app map]. f_equal. now apply (IH _ _ _ processed).
Qed.

Lemma processing_pass_requests_witness :
  filter requests
    (fst (process_versions (example_main_world example_urls mixed_output (Line "y"))
            "torch" 3 [("2.8.0", 3%nat); ("2.7.1", 0%nat); ("2.7.0", 3%nat)]
            1 ["2.8.0"; "2.7.1"; "2.7.0"] [] 0))
  = [Requested "https://pypi.org/pypi/torch/2.8.0/json";
     Requested "https://pypi.org/pypi/torch/2.7.0/json"].
Proof.
eapply (processing_pass_requests
          (example_main_world example_urls mixed_output (Line "y"))
          "torch" 3 [("2.8.0", 3%nat); ("2.7.1", 0%nat); ("2.7.0", 3%nat)]
          ["2.8.0"; "2.7.1"; "2.7.0"] 1 [] 0).
vm_compute. reflexivity.
Defined.
